(** * ADS-B ingestion service: a shallow embedding and its properties

    The development follows the four pipeline stages of the service:

    - [adsb_parser.py]      the message decoder ([ADSBParser.parse]),
    - [dump1090_client.py]  the stream reader ([Dump1090Client.read_messages]),
    - [data_processor.py]   the batch processor ([DataProcessor.add_message]),
    - [database_manager.py] the storage writer ([batch_insert_messages]).

    Python exceptions are modelled by the [outcome] type, Python [str] by
    [string] (code points below 256), Python [int] by [Z], Python [float] by
    the IEEE-754 values of [spec_float], and the wall clock, the socket and
    the MySQL server by explicit inputs.  The calls on one processor are
    taken one at a time, as its lock makes them. *)

From Stdlib Require Import ZArith List String Ascii Bool Lia Arith.
From Stdlib Require Import DecimalString QArith.
From Stdlib Require Import Floats.SpecFloat.
Import ListNotations.

Local Open Scope string_scope.
Local Open Scope list_scope.

(* ================================================================= *)
(** ** Exceptions *)

(** The exception classes the four modules raise or catch.  All of them
    derive from [Exception]. *)
Inductive exn : Type :=
| ValueError
| IndexError
| AttributeError
| MySQLError
| SocketTimeout
| SocketError
| RuntimeError.

Inductive outcome (A : Type) : Type :=
| Return (a : A)
| Raise (e : exn).

Arguments Return {A} a.
Arguments Raise {A} e.

Definition bind {A B : Type} (c : outcome A) (k : A -> outcome B) : outcome B :=
  match c with
  | Return a => k a
  | Raise e => Raise e
  end.

Notation "x <- c ;; k" := (bind c (fun x => k))
  (at level 61, c at next level, right associativity).

(** [try: body  except <classes>: handler] *)
Definition try_except {A : Type} (body : outcome A) (catches : exn -> bool)
  (handler : outcome A) : outcome A :=
  match body with
  | Return a => Return a
  | Raise e => if catches e then handler else Raise e
  end.

Definition except_ValueError (e : exn) : bool :=
  match e with ValueError => true | _ => false end.

Definition except_MySQLError (e : exn) : bool :=
  match e with MySQLError => true | _ => false end.

Definition except_Exception (e : exn) : bool := true.

(** [xs[i]] *)
Definition getitem {A : Type} (xs : list A) (i : nat) : outcome A :=
  match nth_error xs i with
  | Some x => Return x
  | None => Raise IndexError
  end.

(* ================================================================= *)
(** ** Python [str] operations used by the service *)

Module Str.

(** Truth value of a string: non-empty. *)
Definition truthy (s : string) : bool :=
  match s with
  | EmptyString => false
  | String _ _ => true
  end.

(** [s.split(sep)] for a one-character separator. *)
Fixpoint split (sep : ascii) (s : string) : list string :=
  match s with
  | EmptyString => [EmptyString]
  | String c rest =>
      if Ascii.eqb c sep then EmptyString :: split sep rest
      else match split sep rest with
           | f :: fs => String c f :: fs
           | [] => [String c EmptyString]
           end
  end.

(** [str.isspace] on one code point below 256: TAB..CR, FS..US, SPACE,
    NEL and NBSP. *)
Definition isspace (c : ascii) : bool :=
  let n := nat_of_ascii c in
  ((9 <=? n) && (n <=? 13) || (28 <=? n) && (n <=? 32)
   || (n =? 133) || (n =? 160))%nat.

Fixpoint lstrip (s : string) : string :=
  match s with
  | EmptyString => EmptyString
  | String c rest => if isspace c then lstrip rest else s
  end.

Fixpoint rstrip (s : string) : string :=
  match s with
  | EmptyString => EmptyString
  | String c rest =>
      match rstrip rest with
      | EmptyString => if isspace c then EmptyString else String c EmptyString
      | kept => String c kept
      end
  end.

(** [s.strip()] *)
Definition strip (s : string) : string := rstrip (lstrip s).

Definition lower_char (c : ascii) : ascii :=
  let n := nat_of_ascii c in
  if ((65 <=? n) && (n <=? 90)
      || (192 <=? n) && (n <=? 222) && negb (n =? 215))%nat
  then ascii_of_nat (n + 32) else c.

(** [s.lower()] *)
Fixpoint lower (s : string) : string :=
  match s with
  | EmptyString => EmptyString
  | String c rest => String (lower_char c) (lower rest)
  end.

End Str.

(* ================================================================= *)
(** ** adsb_parser.py *)

(** [datetime.datetime], naive (no tzinfo). *)
Record datetime : Type := mk_datetime {
  year : Z; month : Z; day : Z;
  hour : Z; minute : Z; second : Z; microsecond : Z
}.

(** The keys that [parsed.update({...})] adds for a [MSG] line of at least
    22 fields. *)
Record transmission_fields : Type := mk_transmission_fields {
  callsign : option string;
  altitude : option Z;
  ground_speed : option spec_float;
  track : option spec_float;
  lat : option spec_float;
  lon : option spec_float;
  vertical_rate : option Z;
  squawk : option string;
  alert : option bool;
  emergency : option bool;
  spi : option bool;
  is_on_ground : option bool
}.

(** The dictionary built by [ADSBParser.parse].  The first six keys are
    always present (their value may be [None]); [timestamp] is the value
    under the key [timestamp] when that key was set; [transmission] holds
    the twelve keys of the [MSG] update when it ran. *)
Record ParsedMessage : Type := mk_ParsedMessage {
  message_type : string;
  transmission_type : option Z;
  session_id : option Z;
  aircraft_id : option Z;
  icao24 : option string;
  flight_id : option Z;
  timestamp : option datetime;
  transmission : option transmission_fields
}.

(** [msg.get(key)] for the keys of the [MSG] update. *)
Definition msg_get {A : Type} (key : transmission_fields -> option A)
  (msg : ParsedMessage) : option A :=
  match transmission msg with
  | Some t => key t
  | None => None
  end.

Definition MESSAGE_TYPES : list (string * string) :=
  [ ("SEL", "Selection Change");
    ("ID", "New ID");
    ("AIR", "New Aircraft");
    ("STA", "Status Change");
    ("CLK", "Click");
    ("MSG", "Transmission Message") ].

(** [key in d] for a dictionary with string keys. *)
Definition dict_contains {V : Type} (d : list (string * V)) (key : string) : bool :=
  existsb (fun kv => String.eqb key (fst kv)) d.

Definition fmt_fractional : string := "%Y/%m/%d %H:%M:%S.%f".
Definition fmt_whole : string := "%Y/%m/%d %H:%M:%S".

(** The interpreter's conversions.  Each answers [None] where CPython
    raises [ValueError], the only exception they raise on a [str]. *)
Record Builtins : Type := mk_Builtins {
  py_int : string -> option Z;
  py_float : string -> option spec_float;
  (** [datetime.strptime(date_string, format)] *)
  py_strptime : string -> string -> option datetime
}.

Section Parser.

Variable py : Builtins.

Definition builtin_int (value : string) : outcome Z :=
  match py_int py value with Some z => Return z | None => Raise ValueError end.

Definition builtin_float (value : string) : outcome spec_float :=
  match py_float py value with Some x => Return x | None => Raise ValueError end.

Definition datetime_strptime (date_string format : string) : outcome datetime :=
  match py_strptime py date_string format with
  | Some d => Return d
  | None => Raise ValueError
  end.

Definition _parse_int (value : string) : outcome (option Z) :=
  try_except
    (if Str.truthy value && Str.truthy (Str.strip value)
     then (z <- builtin_int value ;; Return (Some z))
     else Return None)
    except_ValueError
    (Return None).

Definition _parse_float (value : string) : outcome (option spec_float) :=
  try_except
    (if Str.truthy value && Str.truthy (Str.strip value)
     then (x <- builtin_float value ;; Return (Some x))
     else Return None)
    except_ValueError
    (Return None).

Definition _parse_bool (value : string) : option bool :=
  if negb (Str.truthy value) || negb (Str.truthy (Str.strip value)) then None
  else
    let value := Str.strip value in
    if String.eqb value "0" || String.eqb (Str.lower value) "false" then Some false
    else if String.eqb value "1" || String.eqb (Str.lower value) "true" then Some true
    else if String.eqb value "-1" then Some true
    else None.

(** [now] is the instant [datetime.utcnow()] answers during this call. *)
Definition _parse_timestamp (now : datetime) (date_str time_str : string)
  : outcome datetime :=
  try_except
    (if negb (Str.truthy date_str) || negb (Str.truthy time_str)
     then Return now
     else datetime_strptime (date_str ++ " " ++ time_str) fmt_fractional)
    except_ValueError
    (try_except
       (datetime_strptime (date_str ++ " " ++ time_str) fmt_whole)
       except_ValueError
       (Return now)).

(** [fields[i].strip() if fields[i] else None] *)
Definition strip_or_None (f : string) : option string :=
  if Str.truthy f then Some (Str.strip f) else None.

(** Truth value of [parsed.get('icao24')]. *)
Definition truthy_icao (v : option string) : bool :=
  match v with
  | Some s => Str.truthy s
  | None => false
  end.

(** Truth value of [parsed.get('timestamp')]: a [datetime] is always
    true, a missing key gives [None]. *)
Definition truthy_timestamp (v : option datetime) : bool :=
  match v with
  | Some _ => true
  | None => false
  end.

(** The body of the [try] block of [parse]. *)
Definition parse_try (now : datetime) (line : string)
  : outcome (option ParsedMessage) :=
  let fields := Str.split "," line in
  let n := List.length fields in
  if (n <? 10)%nat then Return None else
  message_type <- getitem fields 0 ;;
  if negb (dict_contains MESSAGE_TYPES message_type) then Return None else
  transmission_type <-
    (if (1 <? n)%nat then (f <- getitem fields 1 ;; _parse_int f) else Return None) ;;
  session_id <-
    (if (2 <? n)%nat then (f <- getitem fields 2 ;; _parse_int f) else Return None) ;;
  aircraft_id <-
    (if (3 <? n)%nat then (f <- getitem fields 3 ;; _parse_int f) else Return None) ;;
  icao24 <-
    (if (4 <? n)%nat then (f <- getitem fields 4 ;; Return (Some (Str.strip f)))
     else Return None) ;;
  flight_id <-
    (if (5 <? n)%nat then (f <- getitem fields 5 ;; _parse_int f) else Return None) ;;
  timestamp <-
    (if (8 <? n)%nat
     then (d <- getitem fields 6 ;;
           t <- getitem fields 7 ;;
           ts <- _parse_timestamp now d t ;;
           Return (Some ts))
     else Return None) ;;
  transmission <-
    (if String.eqb message_type "MSG" && (22 <=? n)%nat
     then (f10 <- getitem fields 10 ;;
           f11 <- getitem fields 11 ;;
           altitude <- _parse_int f11 ;;
           f12 <- getitem fields 12 ;;
           ground_speed <- _parse_float f12 ;;
           f13 <- getitem fields 13 ;;
           track <- _parse_float f13 ;;
           f14 <- getitem fields 14 ;;
           lat <- _parse_float f14 ;;
           f15 <- getitem fields 15 ;;
           lon <- _parse_float f15 ;;
           f16 <- getitem fields 16 ;;
           vertical_rate <- _parse_int f16 ;;
           f17 <- getitem fields 17 ;;
           f18 <- getitem fields 18 ;;
           f19 <- getitem fields 19 ;;
           f20 <- getitem fields 20 ;;
           f21 <- getitem fields 21 ;;
           Return (Some (mk_transmission_fields
                           (strip_or_None f10) altitude ground_speed track
                           lat lon vertical_rate (strip_or_None f17)
                           (_parse_bool f18) (_parse_bool f19)
                           (_parse_bool f20) (_parse_bool f21))))
     else Return None) ;;
  let parsed :=
    mk_ParsedMessage message_type transmission_type session_id aircraft_id
                     icao24 flight_id timestamp transmission in
  if negb (truthy_icao icao24) || negb (truthy_timestamp timestamp)
  then Return None
  else Return (Some parsed).

(** [ADSBParser.parse]: [None] is the rejection. *)
Definition parse (now : datetime) (line : string)
  : outcome (option ParsedMessage) :=
  try_except (parse_try now line) except_Exception (Return None).

(** The [i]-th comma-separated field of a line, [""] when there is none. *)
Definition field (i : nat) (line : string) : string :=
  nth i (Str.split "," line) "".

End Parser.

(* ----------------------------------------------------------------- *)
(** *** A reference instance of the conversions

    [CPython.builtins] reads the plain literals that BaseStation feeds
    carry: decimal integers, decimal fractions of at most fifteen digits
    (converted exactly as IEEE-754 division does) and the two timestamp
    formats with digit fields.  It is the instance at which the examples
    are evaluated; the theorems hold for every instance. *)

Module CPython.

Definition digit_of (c : ascii) : option Z :=
  let n := nat_of_ascii c in
  if ((48 <=? n) && (n <=? 57))%nat then Some (Z.of_nat (n - 48)) else None.

(** Digits with single underscores between them, as [int] accepts. *)
Fixpoint int_digits (after_digit : bool) (acc : Z) (s : string) : option Z :=
  match s with
  | EmptyString => if after_digit then Some acc else None
  | String c rest =>
      if Ascii.eqb c "_" then
        (if after_digit then int_digits false acc rest else None)
      else
        match digit_of c with
        | Some d => int_digits true (10 * acc + d)%Z rest
        | None => None
        end
  end.

Definition int_literal (s : string) : option Z :=
  match Str.strip s with
  | String "-" body => option_map Z.opp (int_digits false 0%Z body)
  | String "+" body => int_digits false 0%Z body
  | body => int_digits false 0%Z body
  end.

(** Plain digits, possibly none. *)
Fixpoint digits (acc : Z) (s : string) : option Z :=
  match s with
  | EmptyString => Some acc
  | String c rest =>
      match digit_of c with
      | Some d => digits (10 * acc + d)%Z rest
      | None => None
      end
  end.

Definition binary64 (m : Z) : spec_float := binary_normalize 53 1024 m 0 false.

Definition unsigned_decimal (body : string) : option spec_float :=
  match Str.split "." body with
  | [whole] =>
      match whole with
      | EmptyString => None
      | _ =>
          match digits 0%Z whole with
          | Some m => if (m <? 2 ^ 53)%Z then Some (binary64 m) else None
          | None => None
          end
      end
  | [whole; frac] =>
      if negb (Str.truthy whole) && negb (Str.truthy frac) then None
      else
        match digits 0%Z (whole ++ frac) with
        | Some m =>
            let k := String.length frac in
            if ((m <? 2 ^ 53)%Z && (k <=? 22)%nat)%bool
            then Some (SFdiv 53 1024 (binary64 m) (binary64 (10 ^ Z.of_nat k)))
            else None
        | None => None
        end
  | _ => None
  end.

Definition float_literal (s : string) : option spec_float :=
  match Str.strip s with
  | String "-" body => option_map SFopp (unsigned_decimal body)
  | String "+" body => unsigned_decimal body
  | body => unsigned_decimal body
  end.

(** One or two digits, read as a number. *)
Definition short_field (s : string) : option Z :=
  match s with
  | String _ EmptyString | String _ (String _ EmptyString) => digits 0%Z s
  | _ => None
  end.

Definition year_field (s : string) : option Z :=
  if (String.length s =? 4)%nat then digits 0%Z s else None.

(** [%f]: one to six digits, scaled to microseconds. *)
Definition micro_field (s : string) : option Z :=
  let k := String.length s in
  if ((1 <=? k) && (k <=? 6))%nat
  then option_map (fun v => v * 10 ^ Z.of_nat (6 - k))%Z (digits 0%Z s)
  else None.

Definition is_leap (y : Z) : bool :=
  ((y mod 4 =? 0) && (negb (y mod 100 =? 0) || (y mod 400 =? 0)))%Z.

Definition days_in_month (y m : Z) : Z :=
  if (m =? 2)%Z then (if is_leap y then 29 else 28)%Z
  else if ((m =? 4) || (m =? 6) || (m =? 9) || (m =? 11))%Z then 30%Z
  else 31%Z.

Definition in_range (lo v hi : Z) : bool := ((lo <=? v) && (v <=? hi))%Z.

Definition make_datetime (y mo d h mi s us : Z) : option datetime :=
  if in_range 1 y 9999 && in_range 1 mo 12 && in_range 1 d (days_in_month y mo)
     && in_range 0 h 23 && in_range 0 mi 59 && in_range 0 s 59
  then Some (mk_datetime y mo d h mi s us)
  else None.

Definition obind {A B : Type} (o : option A) (k : A -> option B) : option B :=
  match o with
  | Some a => k a
  | None => None
  end.

Definition strptime_digits (date_string format : string) : option datetime :=
  let fractional := String.eqb format fmt_fractional in
  if negb fractional && negb (String.eqb format fmt_whole) then None
  else
    match Str.split " " date_string with
    | [d; t] =>
        match Str.split "/" d, Str.split ":" t with
        | [fy; fmo; fd], [fh; fmi; fs] =>
            obind (year_field fy) (fun y =>
            obind (short_field fmo) (fun mo =>
            obind (short_field fd) (fun dd =>
            obind (short_field fh) (fun h =>
            obind (short_field fmi) (fun mi =>
              match Str.split "." fs, fractional with
              | [s0; f0], true =>
                  obind (short_field s0) (fun s =>
                  obind (micro_field f0) (fun us =>
                    make_datetime y mo dd h mi s us))
              | [s0], false =>
                  obind (short_field s0) (fun s =>
                    make_datetime y mo dd h mi s 0%Z)
              | _, _ => None
              end)))))
        | _, _ => None
        end
    | _ => None
    end.

Definition builtins : Builtins :=
  mk_Builtins int_literal float_literal strptime_digits.

End CPython.

(* ================================================================= *)
(** ** Stateful code: state passing with exceptions *)

(** A method body: it reads and updates a state of type [S] and either
    returns or raises; updates made before a [raise] persist. *)
Definition prog (S A : Type) : Type := S -> outcome A * S.

Definition ret {S A : Type} (a : A) : prog S A := fun s => (Return a, s).

Definition raise {S A : Type} (e : exn) : prog S A := fun s => (Raise e, s).

Definition seq {S A B : Type} (c : prog S A) (k : A -> prog S B) : prog S B :=
  fun s =>
    match c s with
    | (Return a, s') => k a s'
    | (Raise e, s') => (Raise e, s')
    end.

Definition gets {S A : Type} (f : S -> A) : prog S A := fun s => (Return (f s), s).

Definition modify {S : Type} (f : S -> S) : prog S unit := fun s => (Return tt, f s).

(** [try: body  except <classes>: handler] *)
Definition try_catch {S A : Type} (body : prog S A) (catches : exn -> bool)
  (handler : prog S A) : prog S A :=
  fun s =>
    match body s with
    | (Return a, s') => (Return a, s')
    | (Raise e, s') => if catches e then handler s' else (Raise e, s')
    end.

Notation "x <~ c ;; k" := (seq c (fun x => k))
  (at level 61, c at next level, right associativity).
Notation "c1 ;;; c2" := (seq c1 (fun _ => c2))
  (at level 61, right associativity).

(* ================================================================= *)
(** ** data_processor.py *)

(** [str(n)] for an [int]. *)
Definition str_int (n : Z) : string :=
  NilEmpty.string_of_int (Z.to_int n).

Fixpoint zeros (n : nat) : string :=
  match n with
  | O => EmptyString
  | S k => String "0" (zeros k)
  end.

(** ["%0<width>d" % n] for a non-negative [n]. *)
Definition zero_padded (width : nat) (n : Z) : string :=
  let digits := str_int n in
  zeros (width - String.length digits) ++ digits.

(** [str(d)] for a naive [datetime]: ISO format with a space separator,
    the microseconds shown only when they are not zero. *)
Definition str_datetime (d : datetime) : string :=
  zero_padded 4 (year d) ++ "-" ++ zero_padded 2 (month d) ++ "-"
  ++ zero_padded 2 (day d) ++ " " ++ zero_padded 2 (hour d) ++ ":"
  ++ zero_padded 2 (minute d) ++ ":" ++ zero_padded 2 (second d)
  ++ (if (microsecond d =? 0)%Z then "" else "." ++ zero_padded 6 (microsecond d)).

(** [collections.deque(maxlen=...)]: [append] adds on the right and, when
    the bound is exceeded, drops one element on the left. *)
Definition deque_append {A : Type} (maxlen : nat) (d : list A) (x : A) : list A :=
  let d' := d ++ [x] in
  if (maxlen <? List.length d')%nat then tl d' else d'.

Definition RECENT_MAXLEN : nat := 1000.

Record Stats : Type := mk_Stats {
  messages_received : Z;
  messages_processed : Z;
  messages_discarded : Z;
  batches_written : Z;
  errors : Z
}.

(** The attributes of a [DataProcessor] ([db] and [lock] apart).  Times are
    in seconds, as [time.time()] gives them; they are rationals here, and
    the rounding of the subtraction of two floats is left out. *)
Record DataProcessor : Type := mk_DataProcessor {
  batch_size : Z;
  batch_timeout : Q;
  enable_deduplication : bool;
  dedup_window : Z;
  message_queue : list ParsedMessage;
  last_flush : Q;
  stats : Stats;
  recent_messages : list string
}.

(** The [processing] section of the configuration; [None] is a missing key. *)
Record ProcessingConfig : Type := mk_ProcessingConfig {
  cfg_batch_size : option Z;
  cfg_batch_timeout : option Q;
  cfg_enable_deduplication : option bool;
  cfg_dedup_window : option Z
}.

(** [d.get(key, default)] *)
Definition get_default {A : Type} (v : option A) (default : A) : A :=
  match v with
  | Some a => a
  | None => default
  end.

(** What surrounds a processor: the clock and the storage writer it was
    given.  [clock n] is the [n]-th reading of [time.time()];
    [db_reply n batch] is how the [n]-th call of
    [db.batch_insert_messages] ends when it is given [batch]. *)
Record Environment : Type := mk_Environment {
  clock : nat -> Q;
  db_reply : nat -> list ParsedMessage -> outcome Z
}.

(** How much of the environment has been consumed: the number of clock
    readings taken and the batches handed to the writer, oldest first. *)
Record World : Type := mk_World {
  clock_reads : nat;
  db_calls : list (list ParsedMessage)
}.

Record Machine : Type := mk_Machine {
  self : DataProcessor;
  world : World
}.

Definition set_message_queue (q : list ParsedMessage) (p : DataProcessor) : DataProcessor :=
  mk_DataProcessor (batch_size p) (batch_timeout p) (enable_deduplication p)
    (dedup_window p) q (last_flush p) (stats p) (recent_messages p).

Definition set_last_flush (t : Q) (p : DataProcessor) : DataProcessor :=
  mk_DataProcessor (batch_size p) (batch_timeout p) (enable_deduplication p)
    (dedup_window p) (message_queue p) t (stats p) (recent_messages p).

Definition set_stats (st : Stats) (p : DataProcessor) : DataProcessor :=
  mk_DataProcessor (batch_size p) (batch_timeout p) (enable_deduplication p)
    (dedup_window p) (message_queue p) (last_flush p) st (recent_messages p).

Definition set_recent_messages (r : list string) (p : DataProcessor) : DataProcessor :=
  mk_DataProcessor (batch_size p) (batch_timeout p) (enable_deduplication p)
    (dedup_window p) (message_queue p) (last_flush p) (stats p) r.

Definition add_received (n : Z) (st : Stats) : Stats :=
  mk_Stats (messages_received st + n) (messages_processed st)
    (messages_discarded st) (batches_written st) (errors st).

Definition add_processed (n : Z) (st : Stats) : Stats :=
  mk_Stats (messages_received st) (messages_processed st + n)
    (messages_discarded st) (batches_written st) (errors st).

Definition add_discarded (n : Z) (st : Stats) : Stats :=
  mk_Stats (messages_received st) (messages_processed st)
    (messages_discarded st + n) (batches_written st) (errors st).

Definition add_batches_written (n : Z) (st : Stats) : Stats :=
  mk_Stats (messages_received st) (messages_processed st)
    (messages_discarded st) (batches_written st + n) (errors st).

Definition add_errors (n : Z) (st : Stats) : Stats :=
  mk_Stats (messages_received st) (messages_processed st)
    (messages_discarded st) (batches_written st) (errors st + n).

(** An update of [self]. *)
Definition on_self (f : DataProcessor -> DataProcessor) : prog Machine unit :=
  modify (fun m => mk_Machine (f (self m)) (world m)).

(** [self.stats[...] += n] *)
Definition on_stats (f : Stats -> Stats) : prog Machine unit :=
  on_self (fun p => set_stats (f (stats p)) p).

(** [f"{icao}:{timestamp}:{msg_type}"] with the defaults of
    [message.get(key, '')]: a missing key renders as the empty string, a
    [None] value as ["None"]. *)
Definition _message_key (message : ParsedMessage) : string :=
  let icao := match icao24 message with Some s => s | None => "None" end in
  let timestamp := match timestamp message with
                   | Some d => str_datetime d
                   | None => ""
                   end in
  let msg_type := match transmission_type message with
                  | Some n => str_int n
                  | None => "None"
                  end in
  icao ++ ":" ++ timestamp ++ ":" ++ msg_type.

(** [key in self.recent_messages] *)
Definition deque_contains (d : list string) (key : string) : bool :=
  existsb (String.eqb key) d.

Section Processor.

Variable env : Environment.

(** [time.time()] *)
Definition time_time : prog Machine Q :=
  fun m =>
    let w := world m in
    (Return (clock env (clock_reads w)),
     mk_Machine (self m) (mk_World (S (clock_reads w)) (db_calls w))).

(** [self.db.batch_insert_messages(messages)] *)
Definition db_batch_insert_messages (messages : list ParsedMessage) : prog Machine Z :=
  fun m =>
    let w := world m in
    (db_reply env (List.length (db_calls w)) messages,
     mk_Machine (self m) (mk_World (clock_reads w) (db_calls w ++ [messages]))).

(** [DataProcessor.__init__] *)
Definition DataProcessor_init (config : ProcessingConfig) (w : World) : Machine :=
  mk_Machine
    (mk_DataProcessor
       (get_default (cfg_batch_size config) 100%Z)
       (get_default (cfg_batch_timeout config) 1%Q)
       (get_default (cfg_enable_deduplication config) true)
       (get_default (cfg_dedup_window config) 2%Z)
       []
       (clock env (clock_reads w))
       (mk_Stats 0 0 0 0 0)
       [])
    (mk_World (S (clock_reads w)) (db_calls w)).

Definition _is_duplicate (message : ParsedMessage) : prog Machine bool :=
  let key := _message_key message in
  gets (fun m => deque_contains (recent_messages (self m)) key).

Definition _flush_batch : prog Machine unit :=
  queue <~ gets (fun m => message_queue (self m)) ;;
  match queue with
  | [] => ret tt
  | _ :: _ =>
      let messages := queue in
      on_self (set_message_queue []) ;;;
      try_catch
        (inserted <~ db_batch_insert_messages messages ;;
         on_stats (add_processed inserted) ;;;
         on_stats (add_batches_written 1) ;;;
         now <~ time_time ;;
         on_self (set_last_flush now))
        except_Exception
        (on_stats (add_errors 1))
  end.

Definition add_message (message : ParsedMessage) : prog Machine unit :=
  on_stats (add_received 1) ;;;
  dedup <~ gets (fun m => enable_deduplication (self m)) ;;
  duplicate <~ (if dedup then _is_duplicate message else ret false) ;;
  if duplicate then
    on_stats (add_discarded 1)
  else
    on_self (fun p => set_message_queue (message_queue p ++ [message]) p) ;;;
    on_self (fun p => set_recent_messages
                        (deque_append RECENT_MAXLEN (recent_messages p)
                                      (_message_key message)) p) ;;;
    size <~ gets (fun m => Z.of_nat (List.length (message_queue (self m)))) ;;
    limit <~ gets (fun m => batch_size (self m)) ;;
    if (limit <=? size)%Z then _flush_batch
    else
      now <~ time_time ;;
      last <~ gets (fun m => last_flush (self m)) ;;
      timeout <~ gets (fun m => batch_timeout (self m)) ;;
      if Qle_bool timeout (now - last)%Q then _flush_batch else ret tt.

Definition force_flush : prog Machine unit := _flush_batch.

(** [get_stats]: the counters and the key [queue_size]. *)
Definition get_stats : prog Machine (Stats * Z) :=
  st <~ gets (fun m => stats (self m)) ;;
  size <~ gets (fun m => Z.of_nat (List.length (message_queue (self m)))) ;;
  ret (st, size).

(** One round of the loop of [periodic_flush], after its sleep. *)
Definition periodic_flush_round : prog Machine unit :=
  now <~ time_time ;;
  last <~ gets (fun m => last_flush (self m)) ;;
  timeout <~ gets (fun m => batch_timeout (self m)) ;;
  if Qle_bool timeout (now - last)%Q then
    queue <~ gets (fun m => message_queue (self m)) ;;
    match queue with
    | [] => ret tt
    | _ :: _ => _flush_batch
    end
  else ret tt.

(** A run of [add_message] calls, in order. *)
Fixpoint add_messages (messages : list ParsedMessage) : prog Machine unit :=
  match messages with
  | [] => ret tt
  | message :: rest => add_message message ;;; add_messages rest
  end.

End Processor.

(* ================================================================= *)
(** ** dump1090_client.py *)

Record Dump1090Client : Type := mk_Dump1090Client {
  reconnect_interval : Z;
  max_reconnect_interval : Z;
  connected : bool;
  buffer : string
}.

(** What one pass through the [while running_flag()] loop finds outside:
    the answer of [running_flag()], whether a [socket.connect] made in
    this pass succeeds, and what a [socket.recv] made in this pass gives. *)
Inductive recv_result : Type :=
| RecvData (text : string)   (* bytes, already decoded *)
| RecvClosed                 (* zero bytes *)
| RecvTimeout                (* socket.timeout *)
| RecvError.                 (* socket.error *)

Record Round : Type := mk_Round {
  running : bool;
  connect_ok : bool;
  recv : recv_result
}.

(** What the reader does to the outside, in order. *)
Inductive event : Type :=
| Connected
| Slept (seconds : Z)
| Delivered (line : string)
| Disconnected.

Record Reader : Type := mk_Reader {
  client : Dump1090Client;
  trace : list event
}.

(** The loop either goes on, with its local [current_reconnect_interval],
    or has been left. *)
Inductive loop_state : Type :=
| Looping (current_reconnect_interval : Z)
| Exited.

Definition set_connected (b : bool) (c : Dump1090Client) : Dump1090Client :=
  mk_Dump1090Client (reconnect_interval c) (max_reconnect_interval c) b (buffer c).

Definition set_buffer (s : string) (c : Dump1090Client) : Dump1090Client :=
  mk_Dump1090Client (reconnect_interval c) (max_reconnect_interval c) (connected c) s.

Definition on_client (f : Dump1090Client -> Dump1090Client) : prog Reader unit :=
  modify (fun r => mk_Reader (f (client r)) (trace r)).

Definition emit (e : event) : prog Reader unit :=
  modify (fun r => mk_Reader (client r) (trace r ++ [e])).

(** [time.sleep(seconds)]: a negative length is a [ValueError]. *)
Definition time_sleep (seconds : Z) : prog Reader unit :=
  if (seconds <? 0)%Z then raise ValueError else emit (Slept seconds).

(** [buffer.split('\n', 1)] when ['\n' in buffer]. *)
Fixpoint split_first_newline (s : string) : option (string * string) :=
  match s with
  | EmptyString => None
  | String c rest =>
      if Ascii.eqb c "010" then Some (EmptyString, rest)
      else match split_first_newline rest with
           | Some (line, remainder) => Some (String c line, remainder)
           | None => None
           end
  end.

Section Client.

(** The sink: how [callback(line)] ends. *)
Variable callback : string -> outcome unit.

(** [Dump1090Client.connect]; [ok] tells whether the socket connects. *)
Definition connect (ok : bool) : prog Reader bool :=
  if ok then on_client (set_connected true) ;;; emit Connected ;;; ret true
  else on_client (set_connected false) ;;; ret false.

Definition disconnect : prog Reader unit :=
  on_client (set_connected false) ;;; emit Disconnected.

(** [while '\n' in self.buffer: ...]; every pass shortens the buffer, so
    [fuel] above its length is never used up. *)
Fixpoint deliver_lines (fuel : nat) : prog Reader unit :=
  match fuel with
  | O => ret tt
  | S fuel' =>
      buf <~ gets (fun r => buffer (client r)) ;;
      match split_first_newline buf with
      | None => ret tt
      | Some (line, remainder) =>
          on_client (set_buffer remainder) ;;;
          let line := Str.strip line in
          (if Str.truthy line
           then try_catch
                  (emit (Delivered line) ;;; fun r => (callback line, r))
                  except_Exception
                  (ret tt)
           else ret tt) ;;;
          deliver_lines fuel'
      end
  end.

(** The [try] block of the loop body and its three handlers. *)
Definition receive (r : Round) : prog Reader unit :=
  match recv r with
  | RecvClosed => disconnect                           (* continue *)
  | RecvTimeout => ret tt                              (* continue *)
  | RecvError => disconnect
  | RecvData text =>
      on_client (fun c => set_buffer (buffer c ++ text) c) ;;;
      buf <~ gets (fun r => buffer (client r)) ;;
      deliver_lines (S (String.length buf))
  end.

(** One pass through the loop, the test of [running_flag()] included; on
    leaving the loop the final [self.disconnect()] runs. *)
Definition read_round (r : Round) (current : Z) : prog Reader loop_state :=
  if negb (running r) then disconnect ;;; ret Exited
  else
    is_connected <~ gets (fun s => connected (client s)) ;;
    if negb is_connected then
      ok <~ connect (connect_ok r) ;;
      if ok then
        initial <~ gets (fun s => reconnect_interval (client s)) ;;
        receive r ;;; ret (Looping initial)
      else
        time_sleep current ;;;
        ceiling <~ gets (fun s => max_reconnect_interval (client s)) ;;
        ret (Looping (Z.min (current * 2) ceiling))
    else
      receive r ;;; ret (Looping current).

Fixpoint read_loop (rounds : list Round) (st : loop_state) : prog Reader loop_state :=
  match st, rounds with
  | Exited, _ => ret Exited
  | Looping _, [] => ret st
  | Looping current, r :: rest =>
      st' <~ read_round r current ;; read_loop rest st'
  end.

(** [Dump1090Client.read_messages] along a finite script of rounds; the
    answer [Looping c] means the script ended with the loop still going. *)
Definition read_messages (rounds : list Round) : prog Reader loop_state :=
  initial <~ gets (fun s => reconnect_interval (client s)) ;;
  read_loop rounds (Looping initial).

End Client.

(** The waits of a trace, in order. *)
Fixpoint sleeps (t : list event) : list Z :=
  match t with
  | [] => []
  | Slept s :: rest => s :: sleeps rest
  | _ :: rest => sleeps rest
  end.

(* ================================================================= *)
(** ** database_manager.py *)

(** The parameter tuples of the three SQL statements; [None] is SQL NULL. *)
Record AircraftParams : Type := mk_AircraftParams {
  ac_icao24 : string;
  ac_callsign : option string;
  ac_first_seen : option datetime;
  ac_last_seen : option datetime
}.

Record MessageParams : Type := mk_MessageParams {
  ms_icao24 : option string;
  ms_message_type : string;
  ms_timestamp : option datetime;
  ms_callsign : option string;
  ms_altitude : option Z;
  ms_ground_speed : option spec_float;
  ms_track : option spec_float;
  ms_lat : option spec_float;
  ms_lon : option spec_float;
  ms_vertical_rate : option Z;
  ms_squawk : option string;
  ms_alert : option bool;
  ms_emergency : option bool;
  ms_spi : option bool;
  ms_is_on_ground : option bool
}.

Record PositionParams : Type := mk_PositionParams {
  ps_icao24 : option string;
  ps_timestamp : option datetime;
  ps_lat : option spec_float;
  ps_lon : option spec_float;
  ps_altitude : option Z;
  ps_ground_speed : option spec_float;
  ps_track : option spec_float;
  ps_vertical_rate : option Z
}.

(** One [cursor.executemany(sql, rows)]. *)
Inductive statement : Type :=
| UpsertAircraft (rows : list AircraftParams)
| InsertMessages (rows : list MessageParams)
| InsertPositions (rows : list PositionParams).

(** The three tables; a row is the tuple it was written from. *)
Record Tables : Type := mk_Tables {
  aircraft : list AircraftParams;
  messages : list MessageParams;
  positions : list PositionParams
}.

(** [INSERT ... ON DUPLICATE KEY UPDATE callsign = COALESCE(VALUES(callsign),
    callsign), last_seen = VALUES(last_seen)] for one row. *)
Fixpoint upsert_row (r : AircraftParams) (table : list AircraftParams)
  : list AircraftParams :=
  match table with
  | [] => [r]
  | old :: rest =>
      if String.eqb (ac_icao24 old) (ac_icao24 r)
      then mk_AircraftParams (ac_icao24 old)
             (match ac_callsign r with Some c => Some c | None => ac_callsign old end)
             (ac_first_seen old) (ac_last_seen r) :: rest
      else old :: upsert_row r rest
  end.

Definition run_statement (st : statement) (t : Tables) : Tables :=
  match st with
  | UpsertAircraft rows =>
      mk_Tables (fold_left (fun table r => upsert_row r table) rows (aircraft t))
                (messages t) (positions t)
  | InsertMessages rows => mk_Tables (aircraft t) (messages t ++ rows) (positions t)
  | InsertPositions rows => mk_Tables (aircraft t) (messages t) (positions t ++ rows)
  end.

(** The server and the pool during one unit of work: whether the pool
    hands out a connection, whether the server accepts a statement against
    the transaction's view of the tables, and whether it accepts a commit. *)
Record Server : Type := mk_Server {
  pool_ok : bool;
  accepts : Tables -> statement -> bool;
  commit_ok : bool
}.

(** A unit of work seen from the client: the committed tables, the view of
    the open transaction, whether [conn] is held, the statements the
    server executed (oldest first) and [cursor.rowcount]. *)
Record Session : Type := mk_Session {
  committed : Tables;
  pending : Tables;
  conn : bool;
  executed : list statement;
  rowcount : Z
}.

Definition statement_rows (st : statement) : Z :=
  match st with
  | UpsertAircraft rows => Z.of_nat (List.length rows)
  | InsertMessages rows => Z.of_nat (List.length rows)
  | InsertPositions rows => Z.of_nat (List.length rows)
  end.

(** The names bound in the body of [class DatabaseManager]: the four
    [def]s indented under it.  [batch_insert_messages] starts in the first
    column, so it closes the class body and is a function of the module;
    the four [def]s after its [return inserted] are indented under it and
    are local to it. *)
Definition DatabaseManager_attrs : list string :=
  [ "__init__"; "_init_connection_pool"; "_verify_connection"; "get_connection" ].

(** The names the class would bind were [batch_insert_messages] indented
    like the [def]s around it. *)
Definition DatabaseManager_attrs_indented : list string :=
  DatabaseManager_attrs
  ++ [ "batch_insert_messages"; "_upsert_aircraft"; "_insert_positions";
       "get_stats"; "health_check" ].

Section Database.

Variable srv : Server.

(** The attributes an instance answers to: [self.<name>] raises
    [AttributeError] for any other name. *)
Variable attrs : list string.

Definition getattr (name : string) : prog Session unit :=
  if existsb (String.eqb name) attrs then ret tt else raise AttributeError.

(** [self.pool.get_connection()] *)
Definition pool_get_connection : prog Session unit :=
  if pool_ok srv
  then modify (fun s => mk_Session (committed s) (committed s) true (executed s) (rowcount s))
  else raise MySQLError.

Definition conn_commit : prog Session unit :=
  if commit_ok srv
  then modify (fun s => mk_Session (pending s) (pending s) (conn s) (executed s) (rowcount s))
  else raise MySQLError.

Definition conn_rollback : prog Session unit :=
  modify (fun s => mk_Session (committed s) (committed s) (conn s) (executed s) (rowcount s)).

(** [conn.close()] gives the connection back to the pool, which resets
    the session: work that was not committed is dropped. *)
Definition conn_close : prog Session unit :=
  modify (fun s => mk_Session (committed s) (committed s) false (executed s) (rowcount s)).

(** [if conn: ...] *)
Definition if_conn (c : prog Session unit) : prog Session unit :=
  held <~ gets conn ;; if held then c else ret tt.

(** [try: body  finally: cleanup] *)
Definition try_finally {A : Type} (body : prog Session A) (cleanup : prog Session unit)
  : prog Session A :=
  fun s =>
    match body s with
    | (r, s') =>
        match cleanup s' with
        | (Return _, s'') => (r, s'')
        | (Raise e, s'') => (Raise e, s'')
        end
    end.

(** [with self.get_connection() as conn: block] *)
Definition get_connection {A : Type} (block : prog Session A) : prog Session A :=
  getattr "get_connection" ;;;
  try_finally
    (try_catch
       (pool_get_connection ;;;
        a <~ block ;;
        conn_commit ;;;
        ret a)
       except_MySQLError
       (if_conn conn_rollback ;;; raise MySQLError))
    (if_conn conn_close).

Definition cursor_executemany (st : statement) : prog Session unit :=
  fun s =>
    if accepts srv (pending s) st
    then (Return tt,
          mk_Session (committed s) (run_statement st (pending s)) (conn s)
                     (executed s ++ [st]) (statement_rows st))
    else (Raise MySQLError, s).

(** The loop of [_upsert_aircraft]; [seen_icao] is the set built so far. *)
Fixpoint aircraft_data (seen_icao : list string) (msgs : list ParsedMessage)
  : list AircraftParams :=
  match msgs with
  | [] => []
  | msg :: rest =>
      match icao24 msg with
      | Some icao =>
          if Str.truthy icao && negb (existsb (String.eqb icao) seen_icao)
          then mk_AircraftParams icao (msg_get callsign msg) (timestamp msg) (timestamp msg)
               :: aircraft_data (icao :: seen_icao) rest
          else aircraft_data seen_icao rest
      | None => aircraft_data seen_icao rest
      end
  end.

Definition _upsert_aircraft (msgs : list ParsedMessage) : prog Session unit :=
  match aircraft_data [] msgs with
  | [] => ret tt
  | rows => cursor_executemany (UpsertAircraft rows)
  end.

Definition message_params (msg : ParsedMessage) : MessageParams :=
  mk_MessageParams (icao24 msg) (message_type msg) (timestamp msg)
    (msg_get callsign msg) (msg_get altitude msg) (msg_get ground_speed msg)
    (msg_get track msg) (msg_get lat msg) (msg_get lon msg)
    (msg_get vertical_rate msg) (msg_get squawk msg) (msg_get alert msg)
    (msg_get emergency msg) (msg_get spi msg) (msg_get is_on_ground msg).

Fixpoint position_data (msgs : list ParsedMessage) : list PositionParams :=
  match msgs with
  | [] => []
  | msg :: rest =>
      match msg_get lat msg, msg_get lon msg with
      | Some _, Some _ =>
          mk_PositionParams (icao24 msg) (timestamp msg) (msg_get lat msg)
            (msg_get lon msg) (msg_get altitude msg) (msg_get ground_speed msg)
            (msg_get track msg) (msg_get vertical_rate msg)
          :: position_data rest
      | _, _ => position_data rest
      end
  end.

Definition _insert_positions (msgs : list ParsedMessage) : prog Session unit :=
  match position_data msgs with
  | [] => ret tt
  | rows => cursor_executemany (InsertPositions rows)
  end.

(** The function [batch_insert_messages(self, messages)]. *)
Definition batch_insert_messages (msgs : list ParsedMessage) : prog Session Z :=
  match msgs with
  | [] => ret 0%Z
  | _ :: _ =>
      get_connection
        (try_catch
           (getattr "_upsert_aircraft" ;;;
            _upsert_aircraft msgs ;;;
            cursor_executemany (InsertMessages (map message_params msgs)) ;;;
            inserted <~ gets rowcount ;;
            getattr "_insert_positions" ;;;
            _insert_positions msgs ;;;
            conn_commit ;;;
            ret inserted)
           except_MySQLError
           (conn_rollback ;;; raise MySQLError))
  end.

(** The call [self.db.batch_insert_messages(messages)] of [_flush_batch]. *)
Definition db_batch_insert_messages_call (msgs : list ParsedMessage) : prog Session Z :=
  getattr "batch_insert_messages" ;;; batch_insert_messages msgs.

End Database.

(** A session before any work: nothing pending, no connection held. *)
Definition idle (t : Tables) : Session := mk_Session t t false [] 0.

(* ================================================================= *)
(** ** The decoder's contract, in the words of the specification *)

(** A field that is empty or holds only whitespace. *)
Definition blank (f : string) : bool := negb (Str.truthy (Str.strip f)).

(** The literal value of a numeric field: absent when the field is blank
    or is not a literal. *)
Definition int_value (py : Builtins) (f : string) : option Z :=
  if blank f then None else py_int py f.

Definition float_value (py : Builtins) (f : string) : option spec_float :=
  if blank f then None else py_float py f.

(** The instant of a date field and a time field: the fractional-seconds
    format first, then the whole-seconds format; the clock's [now] when a
    field is empty or both formats fail. *)
Definition instant (py : Builtins) (now : datetime) (date_str time_str : string)
  : datetime :=
  if negb (Str.truthy date_str) || negb (Str.truthy time_str) then now
  else
    match py_strptime py (date_str ++ " " ++ time_str) fmt_fractional with
    | Some d => d
    | None =>
        match py_strptime py (date_str ++ " " ++ time_str) fmt_whole with
        | Some d => d
        | None => now
        end
    end.

(** Whether the instant of a line is read off the line, not off the clock. *)
Definition stamped (py : Builtins) (date_str time_str : string) : bool :=
  Str.truthy date_str && Str.truthy time_str
  && match py_strptime py (date_str ++ " " ++ time_str) fmt_fractional,
           py_strptime py (date_str ++ " " ++ time_str) fmt_whole with
     | None, None => false
     | _, _ => true
     end.

(** The record of a line, field by field. *)
Definition literal_transmission (py : Builtins) (line : string) : transmission_fields :=
  mk_transmission_fields
    (strip_or_None (field 10 line)) (int_value py (field 11 line))
    (float_value py (field 12 line)) (float_value py (field 13 line))
    (float_value py (field 14 line)) (float_value py (field 15 line))
    (int_value py (field 16 line)) (strip_or_None (field 17 line))
    (_parse_bool (field 18 line)) (_parse_bool (field 19 line))
    (_parse_bool (field 20 line)) (_parse_bool (field 21 line)).

Definition literal_record (py : Builtins) (now : datetime) (line : string)
  : ParsedMessage :=
  mk_ParsedMessage
    (field 0 line) (int_value py (field 1 line)) (int_value py (field 2 line))
    (int_value py (field 3 line)) (Some (Str.strip (field 4 line)))
    (int_value py (field 5 line))
    (Some (instant py now (field 6 line) (field 7 line)))
    (if String.eqb (field 0 line) "MSG"
        && (22 <=? List.length (Str.split "," line))%nat
     then Some (literal_transmission py line) else None).

(** The acceptance gate: ten fields, a known type code, an [icao24]. *)
Definition acceptable (line : string) : bool :=
  (10 <=? List.length (Str.split "," line))%nat
  && dict_contains MESSAGE_TYPES (field 0 line)
  && negb (blank (field 4 line)).

(** A record with its [timestamp] key removed. *)
Definition without_timestamp (m : ParsedMessage) : ParsedMessage :=
  mk_ParsedMessage (message_type m) (transmission_type m) (session_id m)
    (aircraft_id m) (icao24 m) (flight_id m) None (transmission m).

(* ================================================================= *)
(** ** Vocabulary for the batch processor *)

(** [message] was appended by a call that led from [before] to [after]:
    it is the last of the pending queue, or the call flushed and it is
    the last of the batch handed to the writer. *)
Definition queued_by (message : ParsedMessage) (before after : Machine) : Prop :=
  (message_queue (self after) = message_queue (self before) ++ [message]
   /\ db_calls (world after) = db_calls (world before))
  \/ (message_queue (self after) = []
      /\ db_calls (world after)
         = db_calls (world before) ++ [message_queue (self before) ++ [message]]).


(** A message is a duplicate for a processor. *)
Definition duplicate_for (p : DataProcessor) (message : ParsedMessage) : bool :=
  enable_deduplication p && deque_contains (recent_messages p) (_message_key message).


(* ================================================================= *)
(** ** Sample inputs *)

(** The [MSG] line of the specification's scenario. *)
Definition scenario_line : string :=
  "MSG,3,1,1,A12345,1,2024/01/01,12:00:00.000,2024/01/01,12:00:00.000,TEST123,35000,450.0,180.0,40.0,-75.0,0,,0,0,0,0".

(** A line whose date and time fields are empty. *)
Definition undated_line : string := "SEL,,,,A1,,,,,".

Definition noon_2024 : datetime := mk_datetime 2024 1 1 12 0 0 0.
Definition new_year_2026 : datetime := mk_datetime 2026 1 1 0 0 0 0.
Definition new_year_2026_later : datetime := mk_datetime 2026 1 1 0 0 0 1.

(** Three records as the decoder builds them for short [MSG] lines. *)
Definition msg_a : ParsedMessage :=
  mk_ParsedMessage "MSG" (Some 3%Z) (Some 1%Z) (Some 1%Z) (Some "A12345")
                   (Some 1%Z) (Some noon_2024) None.

Definition msg_b : ParsedMessage :=
  mk_ParsedMessage "MSG" (Some 3%Z) (Some 1%Z) (Some 1%Z) (Some "B23456")
                   (Some 1%Z) (Some noon_2024) None.

Definition msg_c : ParsedMessage :=
  mk_ParsedMessage "MSG" (Some 3%Z) (Some 1%Z) (Some 1%Z) (Some "C34567")
                   (Some 1%Z) (Some noon_2024) None.

(** A clock that stands still and a writer that stores every batch. *)
Definition calm : Environment :=
  mk_Environment (fun _ => 0%Q) (fun _ batch => Return (Z.of_nat (List.length batch))).

(** A clock that stands still and a writer that fails every time. *)
Definition failing : Environment :=
  mk_Environment (fun _ => 0%Q) (fun _ _ => Raise MySQLError).

(** Batches of two, a timeout of ten seconds, deduplication on. *)
Definition pairs_config : ProcessingConfig :=
  mk_ProcessingConfig (Some 2%Z) (Some 10%Q) (Some true) None.

Definition fresh_world : World := mk_World 0 [].

(** Every message a processor has accepted so far, oldest first: those
    handed to the writer, batch after batch, then those still pending. *)
Definition accepted (s : Machine) : list ParsedMessage :=
  List.concat (db_calls (world s)) ++ message_queue (self s).

(* ================================================================= *)
(** ** Vocabulary for the stream reader *)



(** A sink that accepts every line. *)
Definition quiet_sink (line : string) : outcome unit := Return tt.


(** A reader with the default intervals. *)
Definition default_client : Dump1090Client := mk_Dump1090Client 5 60 false "".

Definition failing_round : Round := mk_Round true false RecvTimeout.

(* ================================================================= *)
(** ** Vocabulary for the storage writer *)

(** The distinct values of a list, each at its first occurrence. *)
Fixpoint first_occurrences (keys : list string) : list string :=
  match keys with
  | [] => []
  | k :: rest =>
      k :: filter (fun k' => negb (String.eqb k' k)) (first_occurrences rest)
  end.

(** The [icao24] values of a batch, in batch order; records without one
    (which the decoder never returns) contribute nothing. *)
Definition batch_icao24 (msgs : list ParsedMessage) : list string :=
  flat_map (fun m => match icao24 m with
                     | Some icao => if Str.truthy icao then [icao] else []
                     | None => []
                     end) msgs.

(** The statements of one successful [batch_insert_messages], in order. *)
Definition persist_script (msgs : list ParsedMessage) : list statement :=
  match aircraft_data [] msgs with
  | [] => []
  | rows => [UpsertAircraft rows]
  end
  ++ [InsertMessages (map message_params msgs)]
  ++ match position_data msgs with
     | [] => []
     | rows => [InsertPositions rows]
     end.

(** A server that accepts everything, and empty tables. *)
Definition healthy : Server := mk_Server true (fun _ _ => true) true.

Definition no_rows : Tables := mk_Tables [] [] [].

(** A server on which inserting into [messages] fails. *)
Definition rejects_messages : Server :=
  mk_Server true
    (fun _ st => match st with InsertMessages _ => false | _ => true end)
    true.

(** The processor as [main.py] wires it: its writer is a
    [DatabaseManager].  The reply does not depend on the tables, because
    the call ends at the attribute lookup. *)
Definition wired (srv : Server) (ticks : nat -> Q) : Environment :=
  mk_Environment ticks
    (fun _ batch =>
       fst (db_batch_insert_messages_call srv DatabaseManager_attrs batch
              (idle no_rows))).

(* ================================================================= *)
(** ** Lines, calls and scripts *)

(** [sep.join(fields)] for a one-character separator. *)
Fixpoint join_fields (sep : ascii) (fields : list string) : string :=
  match fields with
  | [] => EmptyString
  | [f] => f
  | f :: rest => f ++ String sep (join_fields sep rest)
  end.

(** [c in s] for one character. *)
Fixpoint has_char (c : ascii) (s : string) : bool :=
  match s with
  | EmptyString => false
  | String c' rest => Ascii.eqb c' c || has_char c rest
  end.

(** A string made of whitespace only (the empty one included). *)
Fixpoint all_space (s : string) : bool :=
  match s with
  | EmptyString => true
  | String c rest => Str.isspace c && all_space rest
  end.

(** A [MSG] line of 22 fields whose callsign field holds two spaces. *)
Definition blank_callsign_line : string :=
  "MSG,1,1,1,A12345,1,2024/01/01,12:00:00.000,2024/01/01,12:00:00.000,  ,,,,,,,,,,,".

(** The calls that reach a processor: [add_message] from the reader's
    thread, [force_flush] at shutdown, and one pass of the loop of
    [periodic_flush] from the timer thread.  The lock takes them one at a
    time. *)
Inductive call : Type :=
| AddMessage (message : ParsedMessage)
| ForceFlush
| PeriodicFlush.

Definition do_call (env : Environment) (c : call) : prog Machine unit :=
  match c with
  | AddMessage message => add_message env message
  | ForceFlush => force_flush env
  | PeriodicFlush => periodic_flush_round env
  end.

Fixpoint do_calls (env : Environment) (cs : list call) : prog Machine unit :=
  match cs with
  | [] => ret tt
  | c :: rest => do_call env c ;;; do_calls env rest
  end.

(** The messages of the [add_message] calls of a run, in order. *)
Fixpoint added (cs : list call) : list ParsedMessage :=
  match cs with
  | [] => []
  | AddMessage m :: rest => m :: added rest
  | _ :: rest => added rest
  end.

(** The messages of a run that are not discarded as duplicates, in
    order.  [recent] is the recency set before the run. *)
Fixpoint admitted (dedup : bool) (recent : list string)
  (msgs : list ParsedMessage) : list ParsedMessage :=
  match msgs with
  | [] => []
  | m :: rest =>
      let key := _message_key m in
      if dedup && deque_contains recent key
      then admitted dedup recent rest
      else m :: admitted dedup (deque_append RECENT_MAXLEN recent key) rest
  end.

(** The batches handed to the writer since the world [before]. *)
Definition handed_since (before : World) (s : Machine) : list (list ParsedMessage) :=
  skipn (List.length (db_calls before)) (db_calls (world s)).

(** The number of records in a list of batches. *)
Definition records (batches : list (list ParsedMessage)) : Z :=
  Z.of_nat (List.length (List.concat batches)).

(** A writer that stores every batch and reports its length. *)
Definition stores_everything (env : Environment) : Prop :=
  forall n batch, db_reply env n batch = Return (Z.of_nat (List.length batch)).

(** A writer that fails on every batch. *)
Definition always_fails (env : Environment) : Prop :=
  forall n batch, exists e, db_reply env n batch = Raise e.

(** The largest batch a processor can build: its batch size, or one when
    the configured size is smaller than that. *)
Definition batch_bound (p : DataProcessor) : Z := Z.max 1 (batch_size p).


(** The message a call appends, if any. *)
Definition admitted_by (p : DataProcessor) (c : call) : list ParsedMessage :=
  match c with
  | AddMessage m => if duplicate_for p m then [] else [m]
  | _ => []
  end.

(** What one call changes, as far as the accounts go: [new] is what it
    hands to the writer. *)
Record call_effect (env : Environment) (c : call) (s s' : Machine)
  (new : list (list ParsedMessage)) : Prop := mk_call_effect {
  eff_batch_size : batch_size (self s') = batch_size (self s);
  eff_batch_timeout : batch_timeout (self s') = batch_timeout (self s);
  eff_dedup : enable_deduplication (self s') = enable_deduplication (self s);
  eff_db_calls : db_calls (world s') = db_calls (world s) ++ new;
  eff_shape :
    (new = [] /\ message_queue (self s')
                 = message_queue (self s) ++ admitted_by (self s) c)
    \/ (new = [message_queue (self s) ++ admitted_by (self s) c]
        /\ message_queue (self s) ++ admitted_by (self s) c <> []
        /\ message_queue (self s') = []);
  eff_recent :
    recent_messages (self s')
    = match c with
      | AddMessage m =>
          if duplicate_for (self s) m then recent_messages (self s)
          else deque_append RECENT_MAXLEN (recent_messages (self s)) (_message_key m)
      | _ => recent_messages (self s)
      end;
  eff_received :
    messages_received (stats (self s'))
    = (messages_received (stats (self s))
       + match c with AddMessage _ => 1 | _ => 0 end)%Z;
  eff_discarded :
    messages_discarded (stats (self s'))
    = (messages_discarded (stats (self s))
       + match c with
         | AddMessage m => if duplicate_for (self s) m then 1 else 0
         | _ => 0
         end)%Z;
  eff_outcomes :
    (batches_written (stats (self s')) + errors (stats (self s')))%Z
    = (batches_written (stats (self s)) + errors (stats (self s))
       + Z.of_nat (List.length new))%Z;
  eff_stored :
    stores_everything env ->
    messages_processed (stats (self s'))
    = (messages_processed (stats (self s)) + records new)%Z
    /\ errors (stats (self s')) = errors (stats (self s));
  eff_failed :
    always_fails env ->
    messages_processed (stats (self s')) = messages_processed (stats (self s))
    /\ batches_written (stats (self s')) = batches_written (stats (self s))
    /\ last_flush (self s') = last_flush (self s);
  eff_room :
    new = [] ->
    (Z.of_nat (List.length (message_queue (self s'))) < batch_size (self s))%Z
    \/ message_queue (self s') = message_queue (self s);
  eff_time :
    (forall n, Qle_bool (batch_timeout (self s))
                        (clock env n - last_flush (self s))%Q = true) ->
    admitted_by (self s) c <> [] ->
    new <> []
}.

(* ----------------------------------------------------------------- *)
(** *** Framing *)

(** The complete lines of a buffer (what precedes each newline, the
    newline left out) and the unfinished tail after the last newline. *)
Fixpoint frame (s : string) : list string * string :=
  match s with
  | EmptyString => ([], EmptyString)
  | String c rest =>
      let (lines, tail) := frame rest in
      if Ascii.eqb c "010" then (EmptyString :: lines, tail)
      else match lines with
           | [] => ([], String c tail)
           | l :: ls => (String c l :: ls, tail)
           end
  end.

(** The lines the reader passes to the sink: stripped, blank ones left
    out. *)
Definition delivered (raw : list string) : list string :=
  filter Str.truthy (map Str.strip raw).

(** A pass in which the service is running and [recv] returns [text]. *)
Definition data_round (text : string) : Round := mk_Round true true (RecvData text).


(** A pass in which the running flag is off. *)
Definition stop_round : Round := mk_Round false false RecvTimeout.

(** A sink that fails on every line. *)
Definition failing_sink (line : string) : outcome unit := Raise RuntimeError.

(** A connected reader with the default intervals and an empty buffer. *)
Definition connected_client : Dump1090Client := mk_Dump1090Client 5 60 true "".

(** The reader after the [try] block of the loop body. *)
Definition after_receive (r : Round) (rd : Reader) : Reader :=
  match recv r with
  | RecvData text =>
      mk_Reader (set_buffer (snd (frame (buffer (client rd) ++ text))) (client rd))
                (trace rd ++ map Delivered
                                 (delivered (fst (frame (buffer (client rd) ++ text)))))
  | RecvTimeout => rd
  | RecvClosed | RecvError =>
      mk_Reader (set_connected false (client rd)) (trace rd ++ [Disconnected])
  end.

(** One pass of the loop, case by case. *)
Definition after_round (r : Round) (current : Z) (rd : Reader)
  : outcome loop_state * Reader :=
  if negb (running r) then
    (Return Exited,
     mk_Reader (set_connected false (client rd)) (trace rd ++ [Disconnected]))
  else if connected (client rd) then
    (Return (Looping current), after_receive r rd)
  else if connect_ok r then
    (Return (Looping (reconnect_interval (client rd))),
     after_receive r (mk_Reader (set_connected true (client rd))
                                (trace rd ++ [Connected])))
  else if (current <? 0)%Z then
    (Raise ValueError, mk_Reader (set_connected false (client rd)) (trace rd))
  else
    (Return (Looping (Z.min (current * 2) (max_reconnect_interval (client rd)))),
     mk_Reader (set_connected false (client rd)) (trace rd ++ [Slept current])).






(* ================================================================= *)
(** ** Vocabulary for the storage writer's statements *)

(** A block that works through a cursor only: it neither commits nor
    gives the connection back. *)
Definition uses_cursor_only {A : Type} (block : prog Session A) : Prop :=
  forall s : Session,
    committed (snd (block s)) = committed s /\ conn (snd (block s)) = conn s.

(** The session once the pool has handed out a connection. *)
Definition opened (s : Session) : Session :=
  mk_Session (committed s) (committed s) true (executed s) (rowcount s).

(** The first record of a batch whose [icao24] is [k]. *)
Definition first_with (k : string) (msgs : list ParsedMessage) : option ParsedMessage :=
  find (fun m => match icao24 m with
                 | Some icao => String.eqb icao k
                 | None => false
                 end) msgs.

(** The row of the aircraft table with key [k]. *)
Definition find_aircraft (k : string) (table : list AircraftParams)
  : option AircraftParams :=
  find (fun r => String.eqb (ac_icao24 r) k) table.

(** The Aircraft row that the upsert leaves for key [k] when the first
    record of the batch with that key is [m] and the table held [old]. *)
Definition upserted (k : string) (m : ParsedMessage) (old : option AircraftParams)
  : AircraftParams :=
  match old with
  | Some o =>
      mk_AircraftParams (ac_icao24 o)
        (match msg_get callsign m with Some c => Some c | None => ac_callsign o end)
        (ac_first_seen o) (timestamp m)
  | None => mk_AircraftParams k (msg_get callsign m) (timestamp m) (timestamp m)
  end.

(** A Message row with both coordinates. *)
Definition located (row : MessageParams) : bool :=
  match ms_lat row, ms_lon row with
  | Some _, Some _ => true
  | _, _ => false
  end.

(** The columns of a Message row that the positions table has. *)
Definition position_of (row : MessageParams) : PositionParams :=
  mk_PositionParams (ms_icao24 row) (ms_timestamp row) (ms_lat row) (ms_lon row)
    (ms_altitude row) (ms_ground_speed row) (ms_track row) (ms_vertical_rate row).

(** A server that takes the statements but refuses the commit. *)
Definition refuses_commit : Server := mk_Server true (fun _ _ => true) false.

(** A later record of the aircraft of [msg_a], with callsign and position. *)
Definition msg_a_named : ParsedMessage :=
  mk_ParsedMessage "MSG" (Some 3%Z) (Some 1%Z) (Some 1%Z) (Some "A12345")
    (Some 1%Z) (Some new_year_2026)
    (Some (mk_transmission_fields (Some "KLM123") (Some 35000%Z) None None
             (Some (S754_zero false)) (Some (S754_zero false)) None None
             None None None None)).

Definition known_aircraft : Tables :=
  mk_Tables [mk_AircraftParams "A12345" (Some "OLD1") (Some noon_2024) (Some noon_2024)]
            [] [].

(* ================================================================= *)
(** ** main.py *)

(** A pure computation of the decoder, run inside the service. *)
Definition lift_outcome {S A : Type} (o : outcome A) : prog S A := fun s => (o, s).

Section Service.

Variable py : Builtins.
Variable env : Environment.

(** [ADSBIngestionService.message_callback]; [now] is what
    [datetime.utcnow()] answers during the call.  A record is a dict with
    keys, so [if parsed:] asks whether [parse] returned one. *)
Definition message_callback (now : datetime) (line : string) : prog Machine unit :=
  parsed <~ lift_outcome (parse py now line) ;;
  match parsed with
  | Some record => add_message env record
  | None => ret tt
  end.

(** The callback on the lines the reader passes on, one call after the
    other, each with the clock's answer during that call. *)
Fixpoint message_callbacks (inputs : list (datetime * string)) : prog Machine unit :=
  match inputs with
  | [] => ret tt
  | (now, line) :: rest => message_callback now line ;;; message_callbacks rest
  end.

(** The records the decoder returns for the lines, in order. *)
Definition decoded (inputs : list (datetime * string)) : list ParsedMessage :=
  flat_map (fun input => match parse py (fst input) (snd input) with
                         | Return (Some record) => [record]
                         | _ => []
                         end) inputs.

End Service.

(** The line of [scenario_line] with another altitude, speed and position. *)
Definition scenario_line_moved : string :=
  "MSG,3,1,1,A12345,1,2024/01/01,12:00:00.000,2024/01/01,12:00:00.000,TEST123,36000,455.0,181.0,40.5,-75.5,0,,0,0,0,0".

(* ================================================================= *)
(** ** config_manager.py *)

(** Configuration values are what [yaml.safe_load] builds: [None],
    booleans, integers, floats, strings, lists and dicts.  A dict is kept
    as the list of its items in insertion order, with keys that are
    strings and pairwise distinct.  Only the value of [self.config] after
    one construction is followed, not the sharing of the nested dicts of
    [DEFAULT_CONFIG] between instances. *)
Module Config.

(** The exception classes of this module. *)
Inductive error : Type :=
| ValueError
| AttributeError
| KeyError
| TypeError.

Inductive result (A : Type) : Type :=
| Returns (a : A)
| Raises (e : error).

Arguments Returns {A} a.
Arguments Raises {A} e.

Definition and_then {A B : Type} (r : result A) (k : A -> result B) : result B :=
  match r with
  | Returns a => k a
  | Raises e => Raises e
  end.

#[warnings="-register-all"] Inductive value : Type :=
| VNone
| VBool (b : bool)
| VInt (z : Z)
| VFloat (x : spec_float)
| VStr (s : string)
| VList (items : list value)
| VDict (items : list (string * value)).

Definition dict : Type := list (string * value).

(** [d.get(key)], [None] of the option standing for a missing key. *)
Fixpoint dict_get (key : string) (d : dict) : option value :=
  match d with
  | [] => None
  | (k, v) :: rest => if String.eqb k key then Some v else dict_get key rest
  end.

(** [d[key] = v]: in place when the key is there, at the end otherwise. *)
Fixpoint dict_set (key : string) (v : value) (d : dict) : dict :=
  match d with
  | [] => [(key, v)]
  | (k, old) :: rest =>
      if String.eqb k key then (k, v) :: rest else (k, old) :: dict_set key v rest
  end.

Definition keys (d : dict) : list string := map fst d.

(** Truth value. *)
Definition truthy (v : value) : bool :=
  match v with
  | VNone => false
  | VBool b => b
  | VInt z => negb (z =? 0)%Z
  | VFloat x => match x with S754_zero _ => false | _ => true end
  | VStr s => Str.truthy s
  | VList items => match items with [] => false | _ :: _ => true end
  | VDict items => match items with [] => false | _ :: _ => true end
  end.

Definition is_dict (v : value) : bool :=
  match v with
  | VDict _ => true
  | _ => false
  end.

Definition DEFAULT_CONFIG : dict :=
  [ ("dump1090",
     VDict [ ("host", VStr "localhost"); ("port", VInt 30003);
             ("reconnect_interval", VInt 5); ("max_reconnect_interval", VInt 60) ]);
    ("database",
     VDict [ ("host", VStr "localhost"); ("port", VInt 3306);
             ("database", VStr "adsb"); ("user", VStr "adsb_user");
             ("password", VStr ""); ("pool_size", VInt 5);
             ("pool_name", VStr "adsb_pool") ]);
    ("processing",
     VDict [ ("batch_size", VInt 100);
             ("batch_timeout", VFloat (S754_finite false 4503599627370496 (-52)));
             ("enable_deduplication", VBool true); ("dedup_window", VInt 2) ]);
    ("logging",
     VDict [ ("level", VStr "INFO");
             ("file", VStr "/var/log/adsb-ingestion/service.log");
             ("max_bytes", VInt 10485760); ("backup_count", VInt 5) ]) ].

(** [_deep_merge(base, override)] with the dict [override] as a value, so
    that the recursion goes down the values of [override]. *)
Fixpoint merge_into (override : value) (base : dict) {struct override} : dict :=
  match override with
  | VDict items =>
      (fix loop (items : dict) (result : dict) {struct items} : dict :=
         match items with
         | [] => result
         | (key, v) :: rest =>
             loop rest
               (match dict_get key result, v with
                | Some (VDict b), VDict _ => dict_set key (VDict (merge_into v b)) result
                | _, _ => dict_set key v result
                end)
         end) items base
  | _ => base
  end.

Definition _deep_merge (base override : dict) : dict := merge_into (VDict override) base.



(** [self.config[section][field]] *)
Definition getitem2 (section field : string) (config : dict) : result value :=
  match dict_get section config with
  | None => Raises KeyError
  | Some (VDict items) =>
      match dict_get field items with
      | Some v => Returns v
      | None => Raises KeyError
      end
  | Some _ => Raises TypeError
  end.

Section Environment.

(** [int] of the builtins, and [os.getenv]. *)
Variable py : Builtins.
Variable getenv : string -> option string.




Definition required_fields : list (string * string) :=
  [ ("dump1090", "host"); ("dump1090", "port"); ("database", "host");
    ("database", "database"); ("database", "user") ].

(** [self.config.get(section, {}).get(field)] *)
Definition section_field (config : dict) (section field : string) : result value :=
  match (match dict_get section config with Some v => v | None => VDict [] end) with
  | VDict items =>
      Returns (match dict_get field items with Some v => v | None => VNone end)
  | _ => Raises AttributeError
  end.

Fixpoint check_required (config : dict) (fields : list (string * string)) : result unit :=
  match fields with
  | [] => Returns tt
  | (section, field) :: rest =>
      and_then (section_field config section field) (fun v =>
      if truthy v then check_required config rest else Raises ValueError)
  end.

Definition _validate_config (config : dict) : result unit :=
  and_then (check_required config required_fields) (fun _ =>
  and_then (getitem2 "database" "password" config) (fun _ =>
  Returns tt)).


End Environment.

(** The loop of [ConfigManager.get] over the keys [path], from the value
    [v]. *)
Fixpoint get_from (v : value) (path : list string) (default : value) : value :=
  match path with
  | [] => v
  | key :: rest =>
      match v with
      | VDict items =>
          match dict_get key items with
          | None | Some VNone => default
          | Some found => get_from found rest default
          end
      | _ => default
      end
  end.

Definition get (config : dict) (path : list string) (default : value) : value :=
  get_from (VDict config) path default.

(** Whether [key in d]. *)
Definition has_key (key : string) (d : dict) : bool :=
  match dict_get key d with
  | Some _ => true
  | None => false
  end.

(** What one key of a merge holds: the override's value, merged with the
    base's when both are dicts. *)
Definition merged_value (old : option value) (v : value) : value :=
  match old, v with
  | Some (VDict b), VDict o => VDict (_deep_merge b o)
  | _, _ => v
  end.


(** A required field that is there and true. *)
Definition field_present (config : dict) (entry : string * string) : Prop :=
  exists items v,
    dict_get (fst entry) config = Some (VDict items)
    /\ dict_get (snd entry) items = Some v
    /\ truthy v = true.




(** A file that sets one key of the reader's section and a section of its
    own. *)
Definition sample_file : value :=
  VDict [ ("dump1090", VDict [ ("reconnect_interval", VInt (-1)) ]);
          ("extra", VDict [ ("note", VNone) ]) ].

(** A file whose reader's section is left empty ([dump1090:] in YAML). *)
Definition empty_section_file : value :=
  VDict [ ("dump1090", VNone) ].

End Config.

(* ================================================================= *)
(** * Properties *)

(* ================================================================= *)
(** ** The message decoder *)

Lemma getitem_nth {A : Type} (xs : list A) (i : nat) (d : A) :
  (i < List.length xs)%nat -> getitem xs i = Return (nth i xs d).
Proof.
  intro H. unfold getitem.
  destruct (nth_error xs i) as [x|] eqn:E.
  - f_equal. symmetry. apply nth_error_nth. exact E.
  - apply nth_error_None in E. lia.
Qed.

Lemma strip_truthy (s : string) :
  Str.truthy (Str.strip s) = true -> Str.truthy s = true.
Proof.
  destruct s; simpl; [discriminate | reflexivity].
Qed.

Lemma nonblank_guard (f : string) :
  Str.truthy f && Str.truthy (Str.strip f) = negb (blank f).
Proof.
  unfold blank. rewrite negb_involutive.
  destruct (Str.truthy (Str.strip f)) eqn:E.
  - rewrite (strip_truthy _ E). reflexivity.
  - apply andb_false_r.
Qed.

Section ParserFacts.

Variable py : Builtins.

Lemma _parse_int_value (f : string) :
  _parse_int py f = Return (int_value py f).
Proof.
  unfold _parse_int, int_value, builtin_int. rewrite nonblank_guard.
  destruct (blank f); simpl; [reflexivity|].
  destruct (py_int py f); reflexivity.
Qed.

Lemma _parse_float_value (f : string) :
  _parse_float py f = Return (float_value py f).
Proof.
  unfold _parse_float, float_value, builtin_float. rewrite nonblank_guard.
  destruct (blank f); simpl; [reflexivity|].
  destruct (py_float py f); reflexivity.
Qed.

Lemma _parse_timestamp_instant (now : datetime) (d t : string) :
  _parse_timestamp py now d t = Return (instant py now d t).
Proof.
  unfold _parse_timestamp, instant, datetime_strptime.
  destruct (negb (Str.truthy d) || negb (Str.truthy t)); [reflexivity|].
  destruct (py_strptime py (d ++ " " ++ t) fmt_fractional);
    cbn [try_except except_ValueError]; [reflexivity|].
  destruct (py_strptime py (d ++ " " ++ t) fmt_whole); reflexivity.
Qed.

(** The [try] block of [parse] never raises, and what it returns. *)
Lemma parse_try_closed_form (now : datetime) (line : string) :
  parse_try py now line =
  Return (if acceptable line then Some (literal_record py now line) else None).
Proof.
  unfold parse_try, acceptable, literal_record, literal_transmission, field.
  set (fields := Str.split "," line).
  destruct (Nat.ltb_spec (List.length fields) 10) as [Hshort|Hlong].
  - replace (10 <=? List.length fields)%nat with false
      by (symmetry; apply Nat.leb_gt; lia).
    reflexivity.
  - replace (10 <=? List.length fields)%nat with true
      by (symmetry; apply Nat.leb_le; lia).
    rewrite (getitem_nth fields 0 "") by lia. cbn [bind].
    destruct (dict_contains MESSAGE_TYPES (nth 0 fields "")); cbn [negb andb];
      [|reflexivity].
    replace (1 <? List.length fields)%nat with true by (symmetry; apply Nat.ltb_lt; lia).
    replace (2 <? List.length fields)%nat with true by (symmetry; apply Nat.ltb_lt; lia).
    replace (3 <? List.length fields)%nat with true by (symmetry; apply Nat.ltb_lt; lia).
    replace (4 <? List.length fields)%nat with true by (symmetry; apply Nat.ltb_lt; lia).
    replace (5 <? List.length fields)%nat with true by (symmetry; apply Nat.ltb_lt; lia).
    replace (8 <? List.length fields)%nat with true by (symmetry; apply Nat.ltb_lt; lia).
    rewrite (getitem_nth fields 1 ""), (getitem_nth fields 2 ""),
      (getitem_nth fields 3 ""), (getitem_nth fields 4 ""),
      (getitem_nth fields 5 ""), (getitem_nth fields 6 ""),
      (getitem_nth fields 7 "") by lia.
    cbn [bind]. rewrite !_parse_int_value, _parse_timestamp_instant. cbn [bind].
    assert (Hgate : forall tr,
      (if negb (truthy_icao (Some (Str.strip (nth 4 fields ""))))
          || negb (truthy_timestamp
                     (Some (instant py now (nth 6 fields "") (nth 7 fields ""))))
       then Return None
       else Return (Some (mk_ParsedMessage (nth 0 fields "")
                            (int_value py (nth 1 fields ""))
                            (int_value py (nth 2 fields ""))
                            (int_value py (nth 3 fields ""))
                            (Some (Str.strip (nth 4 fields "")))
                            (int_value py (nth 5 fields ""))
                            (Some (instant py now (nth 6 fields "") (nth 7 fields "")))
                            tr)))
      = Return (if negb (blank (nth 4 fields ""))
                then Some (mk_ParsedMessage (nth 0 fields "")
                            (int_value py (nth 1 fields ""))
                            (int_value py (nth 2 fields ""))
                            (int_value py (nth 3 fields ""))
                            (Some (Str.strip (nth 4 fields "")))
                            (int_value py (nth 5 fields ""))
                            (Some (instant py now (nth 6 fields "") (nth 7 fields "")))
                            tr)
                else None)).
    { intro tr. unfold blank. cbn [truthy_icao truthy_timestamp negb orb].
      rewrite orb_false_r, negb_involutive.
      destruct (Str.truthy (Str.strip (nth 4 fields ""))); reflexivity. }
    destruct (String.eqb (nth 0 fields "") "MSG") eqn:Emsg; cbn [andb].
    + destruct (Nat.leb_spec 22 (List.length fields)) as [H22|H22].
      * rewrite (getitem_nth fields 10 ""), (getitem_nth fields 11 ""),
          (getitem_nth fields 12 ""), (getitem_nth fields 13 ""),
          (getitem_nth fields 14 ""), (getitem_nth fields 15 ""),
          (getitem_nth fields 16 ""), (getitem_nth fields 17 ""),
          (getitem_nth fields 18 ""), (getitem_nth fields 19 ""),
          (getitem_nth fields 20 ""), (getitem_nth fields 21 "") by lia.
        cbn [bind]. rewrite !_parse_int_value. cbn [bind].
        rewrite !_parse_float_value. cbn [bind].
        apply Hgate.
      * cbn [bind]. apply Hgate.
    + cbn [bind]. apply Hgate.
Qed.

Lemma parse_closed_form (now : datetime) (line : string) :
  parse py now line =
  Return (if acceptable line then Some (literal_record py now line) else None).
Proof.
  unfold parse. rewrite parse_try_closed_form. reflexivity.
Qed.

End ParserFacts.

Lemma known_type_codes (code : string) :
  dict_contains MESSAGE_TYPES code = true
  <-> In code ["SEL"; "ID"; "AIR"; "STA"; "CLK"; "MSG"].
Proof.
  unfold dict_contains, MESSAGE_TYPES. cbn [existsb fst In].
  rewrite !orb_true_iff, !String.eqb_eq.
  intuition (try discriminate; auto).
Qed.

Lemma blank_false_iff (f : string) : blank f = false <-> Str.strip f <> "".
Proof.
  unfold blank. destruct (Str.strip f); simpl; split; intro H;
    try discriminate; try reflexivity; congruence.
Qed.

Lemma acceptable_iff (line : string) :
  acceptable line = true
  <-> (10 <= List.length (Str.split "," line))%nat
      /\ In (field 0 line) ["SEL"; "ID"; "AIR"; "STA"; "CLK"; "MSG"]
      /\ Str.strip (field 4 line) <> "".
Proof.
  unfold acceptable.
  rewrite !andb_true_iff, Nat.leb_le, known_type_codes, negb_true_iff,
    blank_false_iff.
  tauto.
Qed.

Lemma parse_accepts (py : Builtins) (now : datetime) (line : string) :
  (exists m, parse py now line = Return (Some m)) <-> acceptable line = true.
Proof.
  rewrite parse_closed_form. destruct (acceptable line); split.
  - reflexivity.
  - intros _. eexists. reflexivity.
  - intros [m H]. discriminate.
  - discriminate.
Qed.

(** C4.  [parse] never raises.  It returns a record exactly for the lines
    that split into at least ten comma-separated fields, whose first field
    is one of SEL, ID, AIR, STA, CLK, MSG and whose fifth field is not
    blank.  Whether a line is accepted therefore depends neither on how
    its date and time fields (or any other field) convert nor on the
    clock: a line accepted under one behaviour of the conversions is
    accepted under every other. *)
Theorem parse_accepts_iff (py : Builtins) (now : datetime) (line : string) :
  (exists r, parse py now line = Return r)
  /\ ((exists m, parse py now line = Return (Some m))
      <-> (10 <= List.length (Str.split "," line))%nat
          /\ In (field 0 line) ["SEL"; "ID"; "AIR"; "STA"; "CLK"; "MSG"]
          /\ Str.strip (field 4 line) <> "")
  /\ (forall (py' : Builtins) (now' : datetime),
        (exists m, parse py now line = Return (Some m))
        <-> (exists m', parse py' now' line = Return (Some m'))).
Proof.
  split; [|split].
  - rewrite parse_closed_form. eexists. reflexivity.
  - rewrite parse_accepts. apply acceptable_iff.
  - intros py' now'. rewrite !parse_accepts. tauto.
Qed.

(** C6.  [_parse_timestamp] always returns an instant: the one the
    fractional-seconds format reads when it matches, else the one the
    whole-seconds format reads when it matches, and the current UTC
    instant when the date or the time string is empty or both formats
    fail.  Every record that [parse] returns has its [timestamp] set, to
    that instant of its seventh and eighth fields. *)
Theorem parse_timestamp_always_present (py : Builtins) (now : datetime) :
  (forall d t, _parse_timestamp py now d t = Return (instant py now d t))
  /\ (forall d t x,
        d <> "" -> t <> "" ->
        py_strptime py (d ++ " " ++ t) fmt_fractional = Some x ->
        _parse_timestamp py now d t = Return x)
  /\ (forall d t x,
        d <> "" -> t <> "" ->
        py_strptime py (d ++ " " ++ t) fmt_fractional = None ->
        py_strptime py (d ++ " " ++ t) fmt_whole = Some x ->
        _parse_timestamp py now d t = Return x)
  /\ (forall d t,
        d = "" \/ t = ""
        \/ (py_strptime py (d ++ " " ++ t) fmt_fractional = None
            /\ py_strptime py (d ++ " " ++ t) fmt_whole = None) ->
        _parse_timestamp py now d t = Return now)
  /\ (forall line m,
        parse py now line = Return (Some m) ->
        timestamp m = Some (instant py now (field 6 line) (field 7 line))).
Proof.
  repeat split.
  - intros d t. apply _parse_timestamp_instant.
  - intros d t x Hd Ht Hf. rewrite _parse_timestamp_instant. unfold instant.
    destruct d; [congruence|]. destruct t; [congruence|].
    cbn [Str.truthy negb orb]. rewrite Hf. reflexivity.
  - intros d t x Hd Ht Hf Hw. rewrite _parse_timestamp_instant. unfold instant.
    destruct d; [congruence|]. destruct t; [congruence|].
    cbn [Str.truthy negb orb]. rewrite Hf, Hw. reflexivity.
  - intros d t H. rewrite _parse_timestamp_instant. unfold instant.
    destruct H as [-> | [-> | [Hf Hw]]].
    + reflexivity.
    + destruct d; reflexivity.
    + rewrite Hf, Hw.
      destruct (negb (Str.truthy d) || negb (Str.truthy t)); reflexivity.
  - intros line m H. rewrite parse_closed_form in H.
    destruct (acceptable line); [|discriminate].
    injection H as <-. reflexivity.
Qed.

Lemma parse_timestamp_always_present_witness :
  parse CPython.builtins new_year_2026 scenario_line
  = Return (Some (literal_record CPython.builtins new_year_2026 scenario_line))
  /\ timestamp (literal_record CPython.builtins new_year_2026 scenario_line)
     = Some noon_2024.
Proof.
  assert (H : parse CPython.builtins new_year_2026 scenario_line
              = Return (Some (literal_record CPython.builtins new_year_2026
                                scenario_line)))
    by (vm_compute; reflexivity).
  split; [exact H|].
  pose proof (proj2 (proj2 (proj2 (proj2
    (parse_timestamp_always_present CPython.builtins new_year_2026))))
    scenario_line _ H) as T.
  rewrite T. vm_compute. reflexivity.
Defined.

Lemma instant_stamped (py : Builtins) (now1 now2 : datetime) (d t : string) :
  stamped py d t = true -> instant py now1 d t = instant py now2 d t.
Proof.
  unfold stamped, instant. intro H.
  apply andb_true_iff in H as [H Hfmt]. apply andb_true_iff in H as [Hd Ht].
  rewrite Hd, Ht. cbn [negb orb].
  destruct (py_strptime py (d ++ " " ++ t) fmt_fractional); [reflexivity|].
  destruct (py_strptime py (d ++ " " ++ t) fmt_whole); [reflexivity|discriminate].
Qed.

Lemma literal_record_without_timestamp (py : Builtins) (now1 now2 : datetime)
  (line : string) :
  without_timestamp (literal_record py now1 line)
  = without_timestamp (literal_record py now2 line).
Proof. reflexivity. Qed.

Lemma _parse_bool_of_strip (f : string) :
  (Str.strip f = "0" -> _parse_bool f = Some false)
  /\ (Str.strip f = "1" -> _parse_bool f = Some true)
  /\ (Str.strip f = "-1" -> _parse_bool f = Some true).
Proof.
  unfold _parse_bool.
  repeat split; intro H;
    (assert (T : Str.truthy (Str.strip f) = true) by (rewrite H; reflexivity));
    rewrite (strip_truthy _ T), T, H; reflexivity.
Qed.

(** C5, as stated, fails: a line with empty date and time fields decodes
    to two different records at two different instants, because the
    [timestamp] is then the clock's reading. *)
Lemma parse_depends_on_clock :
  parse CPython.builtins new_year_2026 undated_line
  <> parse CPython.builtins new_year_2026_later undated_line.
Proof.
  vm_compute. intro H. discriminate H.
Qed.

(** C5, amended.  Two calls of [parse] on one line agree on acceptance and
    on every field other than [timestamp]; they agree on [timestamp] too
    when the date and time fields are not empty and one of the two formats
    reads them.  A returned record holds, field by field, the literal
    values of the line: a numeric field that is not blank and is a literal
    gives its value, the boolean fields ["0"], ["1"] and ["-1"] give
    [False], [True] and [True], and the date and time give the instant the
    format reads. *)
Theorem parse_repeatable (py : Builtins) (now1 now2 : datetime) (line : string) :
  (stamped py (field 6 line) (field 7 line) = true ->
   parse py now1 line = parse py now2 line)
  /\ (forall m1, parse py now1 line = Return (Some m1) ->
        exists m2, parse py now2 line = Return (Some m2)
                   /\ without_timestamp m1 = without_timestamp m2)
  /\ (parse py now1 line = Return None -> parse py now2 line = Return None)
  /\ (forall m, parse py now1 line = Return (Some m) ->
        m = literal_record py now1 line)
  /\ (forall f v, blank f = false -> py_int py f = Some v ->
        _parse_int py f = Return (Some v))
  /\ (forall f x, blank f = false -> py_float py f = Some x ->
        _parse_float py f = Return (Some x))
  /\ (forall f, (Str.strip f = "0" -> _parse_bool f = Some false)
                /\ (Str.strip f = "1" -> _parse_bool f = Some true)
                /\ (Str.strip f = "-1" -> _parse_bool f = Some true)).
Proof.
  rewrite !parse_closed_form.
  split; [|split; [|split; [|split; [|split; [|split]]]]].
  - intro H. unfold literal_record.
    rewrite (instant_stamped py now1 now2 _ _ H). reflexivity.
  - intros m1 H. destruct (acceptable line); [|discriminate].
    injection H as <-. eexists. split; [reflexivity|].
    apply literal_record_without_timestamp.
  - destruct (acceptable line); [discriminate|reflexivity].
  - intros m H. destruct (acceptable line); [|discriminate].
    injection H as <-. reflexivity.
  - intros f v Hb Hv. rewrite _parse_int_value. unfold int_value.
    rewrite Hb, Hv. reflexivity.
  - intros f x Hb Hx. rewrite _parse_float_value. unfold float_value.
    rewrite Hb, Hx. reflexivity.
  - apply _parse_bool_of_strip.
Qed.

Lemma parse_repeatable_witness :
  stamped CPython.builtins (field 6 scenario_line) (field 7 scenario_line) = true
  /\ parse CPython.builtins new_year_2026 scenario_line
     = parse CPython.builtins new_year_2026_later scenario_line.
Proof.
  assert (H : stamped CPython.builtins (field 6 scenario_line)
                (field 7 scenario_line) = true) by (vm_compute; reflexivity).
  split; [exact H|].
  exact (proj1 (parse_repeatable CPython.builtins new_year_2026
                  new_year_2026_later scenario_line) H).
Defined.

(** The scenario of the specification: the sample [MSG] line. *)
Example parse_scenario_line :
  exists m,
    parse CPython.builtins new_year_2026 scenario_line = Return (Some m)
    /\ icao24 m = Some "A12345"
    /\ msg_get altitude m = Some 35000%Z
    /\ msg_get lat m = Some (CPython.binary64 40)
    /\ msg_get lon m = Some (SFopp (CPython.binary64 75))
    /\ msg_get is_on_ground m = Some false
    /\ timestamp m = Some noon_2024.
Proof.
  eexists. split; [vm_compute; reflexivity|].
  vm_compute. repeat split; reflexivity.
Qed.

(** The scenario of the specification: a known type with empty fields. *)
Example parse_empty_fields :
  parse CPython.builtins new_year_2026 "SEL,,,,,,,,," = Return None.
Proof. vm_compute. reflexivity. Qed.

Example parse_too_short :
  parse CPython.builtins new_year_2026 "MSG,3,1,1,A12345,1,2024/01/01,12:00:00.000,2024/01/01"
  = Return None.
Proof. vm_compute. reflexivity. Qed.

(** A line is not rejected for a timestamp that no format reads. *)
Example parse_unreadable_time :
  exists m,
    parse CPython.builtins new_year_2026 "AIR,,1,1,A1B2C3,1,yesterday,noon,,"
    = Return (Some m)
    /\ timestamp m = Some new_year_2026.
Proof.
  eexists. split; vm_compute; reflexivity.
Qed.

(* ================================================================= *)
(** ** The batch processor *)

(** Reduces the projections of a machine that a step has rebuilt. *)
Ltac machine_simpl :=
  cbn [self world enable_deduplication recent_messages message_queue
       batch_size batch_timeout last_flush stats dedup_window
       set_stats set_message_queue set_recent_messages set_last_flush
       clock_reads db_calls andb].

Tactic Notation "machine_simpl" "in" hyp(H) :=
  cbn [self world enable_deduplication recent_messages message_queue
       batch_size batch_timeout last_flush stats dedup_window
       set_stats set_message_queue set_recent_messages set_last_flush
       clock_reads db_calls andb] in H.

Lemma Qle_bool_false (x y : Q) : (y < x)%Q -> Qle_bool x y = false.
Proof.
  intro H. destruct (Qle_bool x y) eqn:E; [|reflexivity].
  apply Qle_bool_iff in E. exfalso. exact (Qlt_not_le _ _ H E).
Qed.

Section ProcessorFacts.

Variable env : Environment.

(** What [_flush_batch] computes. *)
Lemma _flush_batch_unfold (s : Machine) :
  _flush_batch env s =
  let p := self s in
  let w := world s in
  match message_queue p with
  | [] => (Return tt, s)
  | _ :: _ =>
      let p0 := set_message_queue [] p in
      let calls := db_calls w ++ [message_queue p] in
      match db_reply env (List.length (db_calls w)) (message_queue p) with
      | Return inserted =>
          (Return tt,
           mk_Machine
             (set_last_flush (clock env (clock_reads w))
                (set_stats (add_batches_written 1
                              (add_processed inserted (stats p))) p0))
             (mk_World (S (clock_reads w)) calls))
      | Raise _ =>
          (Return tt,
           mk_Machine (set_stats (add_errors 1 (stats p)) p0)
                      (mk_World (clock_reads w) calls))
      end
  end.
Proof.
  destruct s as [p w]. unfold _flush_batch, seq, gets. cbn [self world].
  destruct (message_queue p) as [|m q] eqn:Q; [reflexivity|].
  unfold try_catch, on_self, on_stats, on_self, modify, seq,
    db_batch_insert_messages, time_time, except_Exception.
  cbn [self world message_queue set_message_queue].
  destruct (db_reply env (List.length (db_calls w)) (m :: q)); reflexivity.
Qed.

(** What [add_message] computes. *)
Lemma add_message_unfold (message : ParsedMessage) (s : Machine) :
  add_message env message s =
  let p := self s in
  let w := world s in
  let p1 := set_stats (add_received 1 (stats p)) p in
  if duplicate_for p message
  then (Return tt, mk_Machine (set_stats (add_discarded 1 (stats p1)) p1) w)
  else
    let p2 :=
      set_recent_messages
        (deque_append RECENT_MAXLEN (recent_messages p) (_message_key message))
        (set_message_queue (message_queue p ++ [message]) p1) in
    if (batch_size p <=? Z.of_nat (List.length (message_queue p ++ [message])))%Z
    then _flush_batch env (mk_Machine p2 w)
    else
      let w' := mk_World (S (clock_reads w)) (db_calls w) in
      if Qle_bool (batch_timeout p) (clock env (clock_reads w) - last_flush p)%Q
      then _flush_batch env (mk_Machine p2 w')
      else (Return tt, mk_Machine p2 w').
Proof.
  destruct s as [p w]. destruct p as [bs bt de dw q lf st rm].
  unfold add_message, duplicate_for, _is_duplicate, on_stats, on_self, seq,
    gets, modify, ret, time_time.
  destruct de; machine_simpl.
  - destruct (deque_contains rm (_message_key message)); machine_simpl;
      [reflexivity|].
    destruct (bs <=? Z.of_nat (List.length (q ++ [message])))%Z; machine_simpl;
      [reflexivity|].
    destruct (Qle_bool bt (clock env (clock_reads w) - lf)%Q); reflexivity.
  - destruct (bs <=? Z.of_nat (List.length (q ++ [message])))%Z; machine_simpl;
      [reflexivity|].
    destruct (Qle_bool bt (clock env (clock_reads w) - lf)%Q); reflexivity.
Qed.

(** Neither call lets an exception out. *)
Lemma _flush_batch_returns (s : Machine) : fst (_flush_batch env s) = Return tt.
Proof.
  rewrite _flush_batch_unfold. cbv zeta.
  destruct (message_queue (self s)); [reflexivity|].
  destruct (db_reply env _ _); reflexivity.
Qed.

Lemma add_message_returns (message : ParsedMessage) (s : Machine) :
  fst (add_message env message s) = Return tt.
Proof.
  rewrite add_message_unfold. cbv zeta.
  destruct (duplicate_for (self s) message); [reflexivity|].
  destruct (_ <=? _)%Z; [apply _flush_batch_returns|].
  destruct (Qle_bool _ _); [apply _flush_batch_returns|reflexivity].
Qed.


(** A flush of a non-empty queue empties it and hands it, whole, to the
    writer; it touches neither the recency set nor the configuration nor
    the received and discarded counters. *)
Lemma _flush_batch_nonempty (s : Machine) :
  message_queue (self s) <> [] ->
  let s' := snd (_flush_batch env s) in
  message_queue (self s') = []
  /\ db_calls (world s') = db_calls (world s) ++ [message_queue (self s)].
Proof.
  intro Q. rewrite _flush_batch_unfold. cbv zeta.
  destruct (message_queue (self s)) eqn:E; [congruence|].
  destruct (db_reply env _ _); split; reflexivity.
Qed.

Lemma _flush_batch_keeps (s : Machine) :
  let s' := snd (_flush_batch env s) in
  recent_messages (self s') = recent_messages (self s)
  /\ enable_deduplication (self s') = enable_deduplication (self s)
  /\ batch_size (self s') = batch_size (self s)
  /\ batch_timeout (self s') = batch_timeout (self s)
  /\ messages_received (stats (self s')) = messages_received (stats (self s))
  /\ messages_discarded (stats (self s')) = messages_discarded (stats (self s)).
Proof.
  rewrite _flush_batch_unfold. cbv zeta.
  destruct (message_queue (self s)); [repeat split|].
  destruct (db_reply env _ _); repeat split.
Qed.

Lemma deque_contains_app (d1 d2 : list string) (k : string) :
  deque_contains (d1 ++ d2) k = deque_contains d1 k || deque_contains d2 k.
Proof. unfold deque_contains. apply existsb_app. Qed.

Lemma deque_append_contains (d : list string) (k : string) :
  deque_contains (deque_append RECENT_MAXLEN d k) k = true.
Proof.
  unfold deque_append.
  destruct (RECENT_MAXLEN <? List.length (d ++ [k]))%nat eqn:E.
  - destruct d as [|x d].
    + cbn in E. discriminate.
    + cbn [app tl]. rewrite deque_contains_app. cbn. rewrite String.eqb_refl.
      apply orb_true_r.
  - rewrite deque_contains_app. cbn. rewrite String.eqb_refl. apply orb_true_r.
Qed.

(** A message that is not a duplicate is appended. *)
Lemma add_message_fresh (message : ParsedMessage) (s : Machine) :
  duplicate_for (self s) message = false ->
  let s' := snd (add_message env message s) in
  queued_by message s s'
  /\ recent_messages (self s')
     = deque_append RECENT_MAXLEN (recent_messages (self s)) (_message_key message)
  /\ messages_discarded (stats (self s')) = messages_discarded (stats (self s)).
Proof.
  intro F. rewrite add_message_unfold. cbv zeta. rewrite F.
  set (p2 := set_recent_messages _ _).
  assert (Q2 : message_queue p2 = message_queue (self s) ++ [message]) by reflexivity.
  assert (N2 : message_queue p2 <> []).
  { rewrite Q2. destruct (message_queue (self s)); discriminate. }
  destruct (_ <=? _)%Z.
  - pose proof (_flush_batch_nonempty (mk_Machine p2 (world s)) N2) as [Hq Hc].
    pose proof (_flush_batch_keeps (mk_Machine p2 (world s))) as (Hr & _ & _ & _ & _ & Hd).
    cbv zeta in *. split; [right; split; assumption|]. split; assumption.
  - destruct (Qle_bool _ _).
    + set (w' := mk_World _ _).
      pose proof (_flush_batch_nonempty (mk_Machine p2 w') N2) as [Hq Hc].
      pose proof (_flush_batch_keeps (mk_Machine p2 w')) as (Hr & _ & _ & _ & _ & Hd).
      cbv zeta in *. split; [right; split; assumption|]. split; assumption.
    + split; [left; split; reflexivity|]. split; reflexivity.
Qed.

(** A duplicate changes two counters and nothing else. *)
Lemma add_message_duplicate (message : ParsedMessage) (s : Machine) :
  duplicate_for (self s) message = true ->
  add_message env message s
  = (Return tt,
     mk_Machine
       (set_stats (add_discarded 1 (add_received 1 (stats (self s)))) (self s))
       (world s)).
Proof.
  intro D. rewrite add_message_unfold. cbv zeta. rewrite D. reflexivity.
Qed.

(** Every call counts one received message and keeps the configuration. *)
Lemma add_message_keeps (message : ParsedMessage) (s : Machine) :
  let s' := snd (add_message env message s) in
  messages_received (stats (self s')) = (messages_received (stats (self s)) + 1)%Z
  /\ enable_deduplication (self s') = enable_deduplication (self s)
  /\ batch_size (self s') = batch_size (self s)
  /\ batch_timeout (self s') = batch_timeout (self s).
Proof.
  rewrite add_message_unfold. cbv zeta.
  destruct (duplicate_for (self s) message); [repeat split|].
  set (p2 := set_recent_messages _ _).
  destruct (_ <=? _)%Z.
  - pose proof (_flush_batch_keeps (mk_Machine p2 (world s))) as (_ & He & Hb & Ht & Hr & _).
    cbv zeta in *. rewrite Hr, He, Hb, Ht. repeat split.
  - destruct (Qle_bool _ _); [|repeat split].
    set (w' := mk_World _ _).
    pose proof (_flush_batch_keeps (mk_Machine p2 w')) as (_ & He & Hb & Ht & Hr & _).
    cbv zeta in *. rewrite Hr, He, Hb, Ht. repeat split.
Qed.

(** With deduplication on, the key of a message just added is in the
    recency set, whether the message was queued or discarded. *)
Lemma add_message_remembers (message : ParsedMessage) (s : Machine) :
  enable_deduplication (self s) = true ->
  deque_contains (recent_messages (self (snd (add_message env message s))))
                 (_message_key message) = true.
Proof.
  intro E. destruct (duplicate_for (self s) message) eqn:D.
  - rewrite (add_message_duplicate _ _ D). cbn [snd self].
    unfold duplicate_for in D. rewrite E in D. exact D.
  - destruct (add_message_fresh _ _ D) as (_ & Hr & _). cbv zeta in Hr.
    rewrite Hr. apply deque_append_contains.
Qed.

End ProcessorFacts.

(** C10.  A call of [add_message] whose message is discarded as a
    duplicate returns normally and changes only the received and the
    discarded counter, each by one: the pending queue, the recency set,
    the time of the last flush, the other counters, the clock readings
    taken and the batches handed to the writer are as before.  The same
    holds for any number of repeated duplicates, so they never renew the
    place of their key in the recency set. *)
Theorem add_message_duplicate_frame (env : Environment) (message : ParsedMessage)
  (s : Machine) :
  enable_deduplication (self s) = true ->
  deque_contains (recent_messages (self s)) (_message_key message) = true ->
  let s' := snd (add_message env message s) in
  add_message env message s
  = (Return tt,
     mk_Machine
       (set_stats (add_discarded 1 (add_received 1 (stats (self s)))) (self s))
       (world s))
  /\ message_queue (self s') = message_queue (self s)
  /\ recent_messages (self s') = recent_messages (self s)
  /\ last_flush (self s') = last_flush (self s)
  /\ world s' = world s
  /\ messages_received (stats (self s')) = (messages_received (stats (self s)) + 1)%Z
  /\ messages_discarded (stats (self s')) = (messages_discarded (stats (self s)) + 1)%Z
  /\ messages_processed (stats (self s')) = messages_processed (stats (self s))
  /\ batches_written (stats (self s')) = batches_written (stats (self s))
  /\ errors (stats (self s')) = errors (stats (self s))
  /\ (forall n,
        let sn := snd (add_messages env (repeat message n) s) in
        recent_messages (self sn) = recent_messages (self s)
        /\ message_queue (self sn) = message_queue (self s)
        /\ world sn = world s).
Proof.
  intros E C s'.
  assert (D : duplicate_for (self s) message = true).
  { unfold duplicate_for. rewrite E, C. reflexivity. }
  subst s'. rewrite (add_message_duplicate env _ _ D). cbn [snd self world].
  repeat split.
  all: revert s E C D; induction n as [|n IH]; intros s E C D;
    [reflexivity|].
  all: cbn [repeat add_messages]; unfold seq;
    rewrite (add_message_duplicate env _ _ D).
  all: specialize (IH (mk_Machine
         (set_stats (add_discarded 1 (add_received 1 (stats (self s)))) (self s))
         (world s)) E C D).
  all: exact IH.
Qed.

Lemma add_message_duplicate_frame_witness :
  let s := snd (add_message calm msg_a (DataProcessor_init calm pairs_config fresh_world)) in
  enable_deduplication (self s) = true
  /\ deque_contains (recent_messages (self s)) (_message_key msg_a) = true
  /\ message_queue (self (snd (add_message calm msg_a s))) = message_queue (self s)
  /\ recent_messages (self (snd (add_message calm msg_a s))) = recent_messages (self s).
Proof.
  intro s.
  assert (E : enable_deduplication (self s) = true) by (vm_compute; reflexivity).
  assert (C : deque_contains (recent_messages (self s)) (_message_key msg_a) = true)
    by (vm_compute; reflexivity).
  split; [exact E|]. split; [exact C|].
  pose proof (add_message_duplicate_frame calm msg_a s E C) as (_ & Hq & Hr & _).
  split; [exact Hq|exact Hr].
Defined.

(** C7.  When the writer raises during a flush, [_flush_batch] returns
    normally, the error counter grows by exactly one, the pending queue is
    empty (the batch went to the writer and is not put back), and the
    processed and batches-written counters are unchanged.  Every later
    [add_message] returns normally too, and appends its message unless it
    is a duplicate. *)
Theorem flush_failure_contained (env : Environment) (s : Machine) (e : exn) :
  message_queue (self s) <> [] ->
  db_reply env (List.length (db_calls (world s))) (message_queue (self s)) = Raise e ->
  let s' := snd (_flush_batch env s) in
  fst (_flush_batch env s) = Return tt
  /\ errors (stats (self s')) = (errors (stats (self s)) + 1)%Z
  /\ message_queue (self s') = []
  /\ db_calls (world s') = db_calls (world s) ++ [message_queue (self s)]
  /\ messages_processed (stats (self s')) = messages_processed (stats (self s))
  /\ batches_written (stats (self s')) = batches_written (stats (self s))
  /\ (forall message,
        let s'' := snd (add_message env message s') in
        fst (add_message env message s') = Return tt
        /\ (duplicate_for (self s') message = false -> queued_by message s' s'')).
Proof.
  intros Q R s'. split; [apply _flush_batch_returns|].
  assert (U : s' = mk_Machine
                     (set_stats (add_errors 1 (stats (self s)))
                                (set_message_queue [] (self s)))
                     (mk_World (clock_reads (world s))
                               (db_calls (world s) ++ [message_queue (self s)]))).
  { subst s'. rewrite _flush_batch_unfold. cbv zeta.
    destruct (message_queue (self s)) eqn:E; [congruence|].
    rewrite R. reflexivity. }
  rewrite U. cbn [self world stats set_stats errors message_queue db_calls
                  messages_processed batches_written add_errors set_message_queue].
  repeat split.
  - apply add_message_returns.
  - intro F. pose proof (add_message_fresh env message s') as H.
    cbv zeta in H. rewrite U in H. exact (proj1 (H F)).
Qed.

Lemma flush_failure_contained_witness :
  let s := mk_Machine
             (set_message_queue [msg_a]
                (self (DataProcessor_init failing pairs_config fresh_world)))
             fresh_world in
  message_queue (self s) <> []
  /\ db_reply failing (List.length (db_calls (world s))) (message_queue (self s))
     = Raise MySQLError
  /\ errors (stats (self (snd (_flush_batch failing s)))) = 1%Z
  /\ message_queue (self (snd (_flush_batch failing s))) = [].
Proof.
  intro s.
  assert (Q : message_queue (self s) <> []) by (vm_compute; discriminate).
  assert (R : db_reply failing (List.length (db_calls (world s)))
                (message_queue (self s)) = Raise MySQLError) by reflexivity.
  split; [exact Q|]. split; [exact R|].
  pose proof (flush_failure_contained failing s MySQLError Q R) as (_ & He & Hq & _).
  split; [exact He|exact Hq].
Defined.

(** The failing run seen from [add_message]: with batches of two and a
    writer that fails, the second message triggers the flush, the error is
    counted and both messages are gone from the queue. *)
Example failed_batch_is_dropped :
  let s := snd (add_messages failing [msg_a; msg_b]
                  (DataProcessor_init failing pairs_config fresh_world)) in
  message_queue (self s) = []
  /\ db_calls (world s) = [[msg_a; msg_b]]
  /\ stats (self s) = mk_Stats 2 0 0 0 1.
Proof. vm_compute. repeat split. Qed.

Lemma _message_key_of_triple (m1 m2 : ParsedMessage) :
  icao24 m1 = icao24 m2 ->
  timestamp m1 = timestamp m2 ->
  transmission_type m1 = transmission_type m2 ->
  _message_key m1 = _message_key m2.
Proof.
  intros Hi Ht Hy. unfold _message_key. rewrite Hi, Ht, Hy. reflexivity.
Qed.

(** C3, as stated, fails: when the key of the pair is already in the
    recency set, the first message of the pair is discarded as well.  Here
    [msg_a] has been added once; of the next two copies added in a row,
    the first is not appended. *)
Lemma first_of_pair_not_queued :
  let s := snd (add_message calm msg_a
                  (DataProcessor_init calm pairs_config fresh_world)) in
  enable_deduplication (self s) = true
  /\ ~ queued_by msg_a s (snd (add_message calm msg_a s)).
Proof.
  intro s. split; [vm_compute; reflexivity|].
  intros [[H _]|[_ H]]; vm_compute in H; discriminate H.
Qed.

(** C3, amended.  With deduplication enabled, when two messages with the
    same (icao24, timestamp, transmission_type) are added one after the
    other, the second is not queued: its call leaves the pending queue and
    the batches handed to the writer as they were and counts one discarded
    message; each of the two calls counts one received message.  The first
    is appended to the pending queue, and not counted as discarded,
    provided its key is not already in the recency set. *)
Theorem consecutive_duplicate_discarded (env : Environment) (s : Machine)
  (m1 m2 : ParsedMessage) :
  enable_deduplication (self s) = true ->
  icao24 m1 = icao24 m2 ->
  timestamp m1 = timestamp m2 ->
  transmission_type m1 = transmission_type m2 ->
  let s1 := snd (add_message env m1 s) in
  let s2 := snd (add_message env m2 s1) in
  (deque_contains (recent_messages (self s)) (_message_key m1) = false ->
   queued_by m1 s s1
   /\ messages_discarded (stats (self s1)) = messages_discarded (stats (self s)))
  /\ (deque_contains (recent_messages (self s)) (_message_key m1) = true ->
      message_queue (self s1) = message_queue (self s)
      /\ world s1 = world s
      /\ messages_discarded (stats (self s1))
         = (messages_discarded (stats (self s)) + 1)%Z)
  /\ fst (add_message env m1 s) = Return tt
  /\ fst (add_message env m2 s1) = Return tt
  /\ message_queue (self s2) = message_queue (self s1)
  /\ world s2 = world s1
  /\ messages_discarded (stats (self s2))
     = (messages_discarded (stats (self s1)) + 1)%Z
  /\ messages_received (stats (self s1)) = (messages_received (stats (self s)) + 1)%Z
  /\ messages_received (stats (self s2)) = (messages_received (stats (self s1)) + 1)%Z.
Proof.
  intros E Hi Ht Hy s1 s2.
  pose proof (_message_key_of_triple m1 m2 Hi Ht Hy) as K.
  pose proof (add_message_keeps env m1 s) as (Hr1 & He1 & _). fold s1 in Hr1, He1.
  assert (E1 : enable_deduplication (self s1) = true) by congruence.
  assert (C1 : deque_contains (recent_messages (self s1)) (_message_key m2) = true).
  { rewrite <- K. apply add_message_remembers. exact E. }
  assert (D2 : duplicate_for (self s1) m2 = true).
  { unfold duplicate_for. rewrite E1, C1. reflexivity. }
  assert (U2 : s2 = mk_Machine
                      (set_stats (add_discarded 1 (add_received 1 (stats (self s1))))
                                 (self s1))
                      (world s1)).
  { subst s2. rewrite (add_message_duplicate env _ _ D2). reflexivity. }
  split; [|split;
    [|rewrite U2; repeat split; try assumption; apply add_message_returns]].
  - intro F.
    assert (D : duplicate_for (self s) m1 = false).
    { unfold duplicate_for. rewrite F. apply andb_false_r. }
    destruct (add_message_fresh env m1 s D) as (Hqueued & _ & Hd1).
    split; [exact Hqueued|exact Hd1].
  - intro T.
    assert (D : duplicate_for (self s) m1 = true).
    { unfold duplicate_for. rewrite E, T. reflexivity. }
    subst s1. rewrite (add_message_duplicate env _ _ D). repeat split.
Qed.

Lemma consecutive_duplicate_discarded_witness :
  let s := DataProcessor_init calm pairs_config fresh_world in
  let s1 := snd (add_message calm msg_a s) in
  let s2 := snd (add_message calm msg_a s1) in
  enable_deduplication (self s) = true
  /\ deque_contains (recent_messages (self s)) (_message_key msg_a) = false
  /\ queued_by msg_a s s1
  /\ message_queue (self s2) = message_queue (self s1)
  /\ messages_discarded (stats (self s2)) = 1%Z.
Proof.
  intros s s1 s2.
  assert (E : enable_deduplication (self s) = true) by reflexivity.
  assert (F : deque_contains (recent_messages (self s)) (_message_key msg_a) = false)
    by reflexivity.
  pose proof (consecutive_duplicate_discarded calm s msg_a msg_a E eq_refl eq_refl
                eq_refl) as (Hfirst & _ & _ & _ & Hq & _ & Hd & _).
  destruct (Hfirst F) as [Hqueued Hd1].
  split; [exact E|]. split; [exact F|]. split; [exact Hqueued|].
  split; [exact Hq|].
  fold s1 in Hd1. fold s1 s2 in Hd. rewrite Hd, Hd1. reflexivity.
Defined.

(* ----------------------------------------------------------------- *)
(** *** The recency set *)




Section RecencyFacts.

Variable env : Environment.

Lemma add_messages_cons (m : ParsedMessage) (rest : list ParsedMessage) (s : Machine) :
  add_messages env (m :: rest) s = add_messages env rest (snd (add_message env m s)).
Proof.
  cbn [add_messages]. unfold seq.
  pose proof (add_message_returns env m s) as R.
  destruct (add_message env m s) as [r s1]. cbn [fst] in R. subst r. reflexivity.
Qed.

Lemma add_messages_returns (msgs : list ParsedMessage) (s : Machine) :
  fst (add_messages env msgs s) = Return tt.
Proof.
  revert s. induction msgs as [|m rest IH]; intro s; [reflexivity|].
  rewrite add_messages_cons. apply IH.
Qed.




End RecencyFacts.


(** A recency set of capacity 1000 after 1001 different keys: the first
    key has left, the other thousand remain. *)
Example recency_set_evicts_oldest :
  let numbered (n : nat) :=
        mk_ParsedMessage "MSG" (Some (Z.of_nat n)) None None (Some "A12345")
                         None (Some noon_2024) None in
  let run := add_messages calm (map numbered (List.seq 0 1001))
               (DataProcessor_init calm
                  (mk_ProcessingConfig (Some 5000%Z) (Some 10%Q) None None)
                  fresh_world) in
  List.length (recent_messages (self (snd run))) = 1000%nat
  /\ hd_error (recent_messages (self (snd run))) = Some (_message_key (numbered 1%nat))
  /\ deque_contains (recent_messages (self (snd run))) (_message_key (numbered 0%nat))
     = false.
Proof. vm_compute. repeat split. Qed.

(* ----------------------------------------------------------------- *)
(** *** The size trigger *)


Section SizeTrigger.

Variable env : Environment.


(** Under the same condition on the clock, the periodic check does not
    flush: it only takes a reading. *)
Lemma periodic_flush_round_idle (s : Machine) :
  (forall n, clock env n - last_flush (self s) < batch_timeout (self s))%Q ->
  periodic_flush_round env s
  = (Return tt,
     mk_Machine (self s)
                (mk_World (S (clock_reads (world s))) (db_calls (world s)))).
Proof.
  intro Hclock. unfold periodic_flush_round, seq, time_time, gets, ret.
  cbn [self world clock_reads db_calls].
  rewrite (Qle_bool_false _ _ (Hclock (clock_reads (world s)))). reflexivity.
Qed.

End SizeTrigger.




(* ================================================================= *)
(** ** The stream reader *)





Section ClientFacts.

Variable callback : string -> outcome unit.






End ClientFacts.




(** A success in the middle of a run: the waits start over. *)
Example backoff_restarts_after_connect :
  sleeps (trace (snd (read_messages quiet_sink
                        [failing_round; failing_round; failing_round;
                         mk_Round true true RecvClosed;
                         failing_round; failing_round]
                        (mk_Reader default_client []))))
  = [5; 10; 20; 5; 10]%Z.
Proof. reflexivity. Qed.

(** Framing: complete lines are delivered stripped, blank ones are
    skipped, and the unfinished tail stays in the buffer. *)
Example framing_keeps_the_tail :
  let text : string :=
    ("abc" ++ String "010" ("  de " ++ String "010" ("   " ++ String "010" "f")))%string in
  let rd := snd (read_messages quiet_sink [mk_Round true true (RecvData text)]
                   (mk_Reader default_client [])) in
  trace rd = [Connected; Delivered "abc"; Delivered "de"]
  /\ buffer (client rd) = "f".
Proof. split; reflexivity. Qed.

(* ================================================================= *)
(** ** The storage writer *)

Lemma filter_filter_and {A : Type} (f g : A -> bool) (l : list A) :
  filter f (filter g l) = filter (fun x => g x && f x) l.
Proof.
  induction l as [|x l IH]; [reflexivity|].
  cbn [filter]. destruct (g x); cbn [filter andb]; rewrite IH; reflexivity.
Qed.

Lemma first_occurrences_In (keys : list string) (k : string) :
  In k (first_occurrences keys) <-> In k keys.
Proof.
  induction keys as [|x rest IH]; [reflexivity|].
  cbn [first_occurrences In]. rewrite filter_In, IH, negb_true_iff, String.eqb_neq.
  destruct (String.eqb_spec k x) as [->|N]; intuition congruence.
Qed.

Lemma first_occurrences_NoDup (keys : list string) : NoDup (first_occurrences keys).
Proof.
  induction keys as [|x rest IH]; [constructor|].
  cbn [first_occurrences]. constructor.
  - rewrite filter_In, String.eqb_refl. intros [_ H]. discriminate.
  - apply NoDup_filter. exact IH.
Qed.

(** The rows [_upsert_aircraft] builds name the distinct [icao24] values
    of the batch that are not in [seen], by first occurrence. *)
Lemma aircraft_data_keys (msgs : list ParsedMessage) :
  forall seen : list string,
    map ac_icao24 (aircraft_data seen msgs)
    = filter (fun k => negb (existsb (String.eqb k) seen))
             (first_occurrences (batch_icao24 msgs)).
Proof.
  induction msgs as [|m rest IH]; intro seen; [reflexivity|].
  cbn [aircraft_data batch_icao24 flat_map]. fold (batch_icao24 rest).
  destruct (icao24 m) as [icao|]; [|apply IH].
  destruct (Str.truthy icao); cbn [andb app]; [|apply IH].
  cbn [first_occurrences filter].
  destruct (existsb (String.eqb icao) seen) eqn:S; cbn [negb map ac_icao24].
  - rewrite IH, filter_filter_and. apply filter_ext. intro k.
    destruct (String.eqb_spec k icao) as [->|N]; cbn [negb andb];
      [rewrite S|]; reflexivity.
  - rewrite IH, filter_filter_and. f_equal. apply filter_ext. intro k.
    cbn [existsb]. rewrite (String.eqb_sym k icao), negb_orb. reflexivity.
Qed.

Lemma aircraft_data_distinct (msgs : list ParsedMessage) :
  map ac_icao24 (aircraft_data [] msgs) = first_occurrences (batch_icao24 msgs).
Proof.
  rewrite aircraft_data_keys. cbn [existsb negb].
  induction (first_occurrences (batch_icao24 msgs)) as [|k l IH]; [reflexivity|].
  cbn [filter]. rewrite IH. reflexivity.
Qed.

Section DatabaseFacts.

Variable srv : Server.

(** C1.  The code does not do what the claim says.  As the file is
    indented, [batch_insert_messages] is not an attribute of a
    [DatabaseManager], nor are [_upsert_aircraft] and [_insert_positions]:
    the call [self.db.batch_insert_messages(batch)] of the processor
    raises [AttributeError], and a direct call of the function on a
    non-empty batch raises at [self._upsert_aircraft] (or earlier, when the
    pool gives no connection) before any statement is executed.  No
    Aircraft, Message or Position row is written and no count is returned. *)
Theorem batch_insert_messages_never_writes (m : ParsedMessage)
  (rest : list ParsedMessage) (t : Tables) :
  let call := db_batch_insert_messages_call srv DatabaseManager_attrs (m :: rest) (idle t) in
  let direct := batch_insert_messages srv DatabaseManager_attrs (m :: rest) (idle t) in
  fst call = Raise AttributeError
  /\ executed (snd call) = []
  /\ committed (snd call) = t
  /\ fst direct = Raise (if pool_ok srv then AttributeError else MySQLError)
  /\ executed (snd direct) = []
  /\ committed (snd direct) = t.
Proof.
  cbv zeta. split; [reflexivity|]. split; [reflexivity|]. split; [reflexivity|].
  unfold batch_insert_messages, get_connection, seq, try_finally, try_catch,
    pool_get_connection, if_conn, conn_rollback, conn_close, getattr, gets,
    modify, raise, ret, idle.
  cbn [existsb String.eqb Ascii.eqb Bool.eqb DatabaseManager_attrs orb].
  destruct (pool_ok srv); cbn; repeat split; reflexivity.
Qed.

(** Were [batch_insert_messages] indented under the class like the [def]s
    around it, a call on a non-empty batch would either raise
    [MySQLError] and leave the committed tables as they were, or return
    the number of Message rows and have executed, in one transaction, the
    upsert of the Aircraft rows, then the insert of the Message rows, then
    the insert of the Position rows. *)
Lemma batch_insert_messages_indented (m : ParsedMessage)
  (rest : list ParsedMessage) (t : Tables) :
  let msgs := m :: rest in
  let r := batch_insert_messages srv DatabaseManager_attrs_indented msgs (idle t) in
  match fst r with
  | Return inserted =>
      inserted = Z.of_nat (List.length msgs)
      /\ executed (snd r) = persist_script msgs
      /\ committed (snd r)
         = fold_left (fun tables st => run_statement st tables) (persist_script msgs) t
  | Raise e =>
      e = MySQLError /\ committed (snd r) = t
  end.
Proof.
  cbv zeta. unfold persist_script.
  unfold batch_insert_messages, get_connection, _upsert_aircraft,
    _insert_positions.
  change (getattr DatabaseManager_attrs_indented "get_connection")
    with (@ret Session unit tt).
  change (getattr DatabaseManager_attrs_indented "_upsert_aircraft")
    with (@ret Session unit tt).
  change (getattr DatabaseManager_attrs_indented "_insert_positions")
    with (@ret Session unit tt).
  replace (Z.of_nat (List.length (m :: rest)))
    with (Z.of_nat (List.length (map message_params (m :: rest))))
    by (rewrite length_map; reflexivity).
  generalize (map message_params (m :: rest)) (aircraft_data [] (m :: rest))
    (position_data (m :: rest)).
  intros mrows arows prows.
  unfold seq, try_finally, try_catch, pool_get_connection, conn_commit,
    if_conn, conn_rollback, conn_close, cursor_executemany, gets, modify,
    raise, ret, idle, except_MySQLError.
  destruct (pool_ok srv); cbn; [|split; reflexivity].
  destruct arows as [|a arows]; cbn.
  - destruct (accepts srv t (InsertMessages mrows)); cbn; [|split; reflexivity].
    destruct prows as [|p prows]; cbn.
    + destruct (commit_ok srv); cbn; [|split; reflexivity].
      repeat split.
    + destruct (accepts srv _ (InsertPositions _)); cbn; [|split; reflexivity].
      destruct (commit_ok srv); cbn; [|split; reflexivity].
      repeat split.
  - destruct (accepts srv t (UpsertAircraft _)); cbn; [|split; reflexivity].
    destruct (accepts srv _ (InsertMessages mrows)); cbn; [|split; reflexivity].
    destruct prows as [|p prows]; cbn.
    + destruct (commit_ok srv); cbn; [|split; reflexivity].
      repeat split.
    + destruct (accepts srv _ (InsertPositions _)); cbn; [|split; reflexivity].
      destruct (commit_ok srv); cbn; [|split; reflexivity].
      repeat split.
Qed.

End DatabaseFacts.

(** The service as [main.py] wires it, with a healthy server: the batch
    that the size trigger flushes is counted as an error and lost. *)
Example wired_service_loses_the_batch :
  let env := wired healthy (fun _ => 0%Q) in
  let s := snd (add_messages env [msg_a; msg_b]
                  (DataProcessor_init env pairs_config fresh_world)) in
  db_reply env 0 [msg_a; msg_b] = Raise AttributeError
  /\ message_queue (self s) = []
  /\ stats (self s) = mk_Stats 2 0 0 0 1.
Proof. vm_compute. repeat split. Qed.

(** With the function indented under the class and a healthy server: one
    Aircraft row per distinct [icao24], by first occurrence, then the
    Message rows in batch order, and the count of Message rows returned. *)
Example indented_persist_order :
  let r := batch_insert_messages healthy DatabaseManager_attrs_indented
             [msg_a; msg_b; msg_a] (idle no_rows) in
  fst r = Return 3%Z
  /\ map (fun st => match st with
                    | UpsertAircraft rows => map ac_icao24 rows
                    | InsertMessages rows =>
                        map (fun row => match ms_icao24 row with
                                        | Some icao => icao
                                        | None => ""
                                        end) rows
                    | InsertPositions _ => []
                    end) (executed (snd r))
     = [["A12345"; "B23456"]; ["A12345"; "B23456"; "A12345"]]
  /\ List.length (aircraft (committed (snd r))) = 2%nat
  /\ List.length (messages (committed (snd r))) = 3%nat.
Proof. vm_compute. repeat split. Qed.

(** With the function indented under the class, a failure of the second
    step leaves nothing of the batch committed, the Aircraft rows of the
    first step included. *)
Example indented_persist_rolls_back :
  let r := batch_insert_messages rejects_messages DatabaseManager_attrs_indented
             [msg_a; msg_b] (idle no_rows) in
  fst r = Raise MySQLError
  /\ committed (snd r) = no_rows
  /\ pending (snd r) = no_rows.
Proof. vm_compute. repeat split. Qed.

(* ================================================================= *)
(** ** More on the decoder *)

Lemma lstrip_all_space (w : string) : all_space w = true -> Str.lstrip w = "".
Proof.
  induction w as [|c w IH]; [reflexivity|].
  cbn [all_space Str.lstrip]. intro H. apply andb_true_iff in H as [Hc Hw].
  rewrite Hc. apply IH. exact Hw.
Qed.

Lemma rstrip_all_space (w : string) : all_space w = true -> Str.rstrip w = "".
Proof.
  induction w as [|c w IH]; [reflexivity|].
  cbn [all_space Str.rstrip]. intro H. apply andb_true_iff in H as [Hc Hw].
  rewrite (IH Hw), Hc. reflexivity.
Qed.

Lemma all_space_app (w1 w2 : string) :
  all_space (w1 ++ w2) = all_space w1 && all_space w2.
Proof.
  induction w1 as [|c w1 IH]; [reflexivity|].
  cbn [append all_space]. rewrite IH. apply andb_assoc.
Qed.

Lemma lstrip_pad_left (w s : string) :
  all_space w = true -> Str.lstrip (w ++ s) = Str.lstrip s.
Proof.
  induction w as [|c w IH]; [reflexivity|].
  cbn [all_space append Str.lstrip]. intro H. apply andb_true_iff in H as [Hc Hw].
  rewrite Hc. apply IH. exact Hw.
Qed.

Lemma rstrip_pad_right (s w : string) :
  all_space w = true -> Str.rstrip (s ++ w) = Str.rstrip s.
Proof.
  intro H. induction s as [|c s IH].
  - cbn [append]. rewrite (rstrip_all_space _ H). reflexivity.
  - cbn [append Str.rstrip]. rewrite IH. reflexivity.
Qed.

(** What [lstrip] leaves is empty or starts with a character that is not
    whitespace. *)
Lemma lstrip_head (s : string) :
  match Str.lstrip s with
  | EmptyString => all_space s = true
  | String c _ => Str.isspace c = false
  end.
Proof.
  induction s as [|c s IH]; [reflexivity|].
  cbn [Str.lstrip all_space]. destruct (Str.isspace c) eqn:E.
  - destruct (Str.lstrip s); [exact IH|exact IH].
  - exact E.
Qed.

Lemma lstrip_pad_right (s w : string) :
  Str.lstrip s <> "" -> Str.lstrip (s ++ w) = (Str.lstrip s ++ w)%string.
Proof.
  induction s as [|c s IH]; [intro H; exfalso; apply H; reflexivity|].
  cbn [append Str.lstrip]. destruct (Str.isspace c); [exact IH|reflexivity].
Qed.

(** Whitespace around a string does not change what [strip] gives. *)
Lemma strip_pad (w1 s w2 : string) :
  all_space w1 = true -> all_space w2 = true ->
  Str.strip (w1 ++ s ++ w2) = Str.strip s.
Proof.
  intros H1 H2. unfold Str.strip. rewrite (lstrip_pad_left _ _ H1).
  destruct (Str.lstrip s) as [|c t] eqn:E.
  - pose proof (lstrip_head s) as Hs. rewrite E in Hs.
    rewrite lstrip_all_space; [reflexivity|].
    rewrite all_space_app, Hs, H2. reflexivity.
  - rewrite lstrip_pad_right by (rewrite E; discriminate).
    rewrite E. apply rstrip_pad_right. exact H2.
Qed.

Lemma rstrip_no_space_head (c : ascii) (t : string) :
  Str.isspace c = false ->
  exists t', Str.rstrip (String c t) = String c t'.
Proof.
  intro H. cbn [Str.rstrip]. destruct (Str.rstrip t).
  - rewrite H. eexists. reflexivity.
  - eexists. reflexivity.
Qed.

Lemma rstrip_idempotent (s : string) : Str.rstrip (Str.rstrip s) = Str.rstrip s.
Proof.
  induction s as [|c s IH]; [reflexivity|].
  cbn [Str.rstrip]. destruct (Str.rstrip s) as [|d t] eqn:E.
  - destruct (Str.isspace c) eqn:Hc; [reflexivity|].
    cbn [Str.rstrip]. rewrite Hc. reflexivity.
  - cbn [Str.rstrip]. cbn [Str.rstrip] in IH. rewrite IH. reflexivity.
Qed.

(** [strip] is idempotent: a stripped string has nothing left to strip. *)
Lemma strip_idempotent (s : string) : Str.strip (Str.strip s) = Str.strip s.
Proof.
  unfold Str.strip. pose proof (lstrip_head s) as H.
  destruct (Str.lstrip s) as [|c t] eqn:E; [reflexivity|].
  destruct (rstrip_no_space_head c t H) as [t' Ht]. rewrite Ht.
  cbn [Str.lstrip]. rewrite H. rewrite <- Ht. apply rstrip_idempotent.
Qed.

Lemma split_nonempty (sep : ascii) (s : string) : Str.split sep s <> [].
Proof.
  destruct s as [|c s]; cbn [Str.split]; [discriminate|].
  destruct (Ascii.eqb c sep); [discriminate|].
  destruct (Str.split sep s); discriminate.
Qed.

Lemma split_no_sep (sep : ascii) (f : string) :
  has_char sep f = false -> Str.split sep f = [f].
Proof.
  induction f as [|c f IH]; [reflexivity|].
  cbn [has_char Str.split]. intro H. apply orb_false_iff in H as [Hc Hf].
  rewrite Hc, (IH Hf). reflexivity.
Qed.

Lemma split_field_then_sep (sep : ascii) (f rest : string) :
  has_char sep f = false ->
  Str.split sep (f ++ String sep rest) = f :: Str.split sep rest.
Proof.
  induction f as [|c f IH]; intro H.
  - cbn [append Str.split]. rewrite Ascii.eqb_refl. reflexivity.
  - cbn [has_char] in H. apply orb_false_iff in H as [Hc Hf].
    cbn [append Str.split]. rewrite Hc, (IH Hf). reflexivity.
Qed.

(** Splitting the join of separator-free fields gives the fields back. *)
Lemma split_join_fields (sep : ascii) (fs : list string) :
  fs <> [] ->
  Forall (fun f => has_char sep f = false) fs ->
  Str.split sep (join_fields sep fs) = fs.
Proof.
  induction fs as [|f rest IH]; [congruence|].
  intros _ H. inversion H as [|f0 rest0 Hf Hrest]; subst.
  destruct rest as [|g rest].
  - cbn [join_fields]. apply split_no_sep. exact Hf.
  - change (join_fields sep (f :: g :: rest))
      with (f ++ String sep (join_fields sep (g :: rest)))%string.
    rewrite (split_field_then_sep _ _ _ Hf), IH; [reflexivity|discriminate|exact Hrest].
Qed.

(** The fields of a line hold no separator, and joining them gives the
    line back. *)
Lemma split_fields_clean (sep : ascii) (s : string) :
  Forall (fun f => has_char sep f = false) (Str.split sep s).
Proof.
  induction s as [|c s IH]; [repeat constructor|].
  cbn [Str.split]. destruct (Ascii.eqb c sep) eqn:E.
  - constructor; [reflexivity|exact IH].
  - destruct (Str.split sep s) as [|f fs]; [repeat constructor; cbn; rewrite E; reflexivity|].
    inversion IH as [|f0 fs0 Hf Hfs]; subst.
    constructor; [|exact Hfs]. cbn [has_char]. rewrite E, Hf. reflexivity.
Qed.

Lemma join_split_fields (sep : ascii) (s : string) :
  join_fields sep (Str.split sep s) = s.
Proof.
  induction s as [|c s IH]; [reflexivity|].
  cbn [Str.split]. destruct (Ascii.eqb_spec c sep) as [->|N].
  - pose proof (split_nonempty sep s) as Hne.
    destruct (Str.split sep s) as [|f fs] eqn:E; [congruence|].
    change (join_fields sep ("" :: f :: fs))
      with (String sep (join_fields sep (f :: fs))). rewrite IH. reflexivity.
  - pose proof (split_nonempty sep s) as Hne.
    destruct (Str.split sep s) as [|f fs] eqn:E; [congruence|].
    destruct fs as [|g fs].
    + cbn [join_fields] in *. rewrite IH. reflexivity.
    + change (join_fields sep (String c f :: g :: fs))
        with (String c (f ++ String sep (join_fields sep (g :: fs))))%string.
      change (join_fields sep (f :: g :: fs))
        with (f ++ String sep (join_fields sep (g :: fs)))%string in IH.
      rewrite IH. reflexivity.
Qed.

Lemma nth_Forall {A : Type} (P : A -> Prop) (l : list A) (i : nat) (d : A) :
  Forall P l -> (i < List.length l)%nat -> P (nth i l d).
Proof.
  intros H Hi. rewrite Forall_forall in H. apply H. apply nth_In. exact Hi.
Qed.

(** The record of a line, by the shape of the line. *)
Lemma parse_accepted_record (py : Builtins) (now : datetime) (line : string)
  (m : ParsedMessage) :
  parse py now line = Return (Some m) ->
  acceptable line = true /\ m = literal_record py now line.
Proof.
  rewrite parse_closed_form. destruct (acceptable line); [|discriminate].
  intro H. injection H as <-. split; reflexivity.
Qed.

(** X1.  The twelve transmission fields are present in a record exactly
    when its line is a [MSG] line of at least 22 fields; the record of any
    other accepted line has no callsign, no altitude, no latitude and no
    longitude, and gives no row to the positions table. *)
Theorem transmission_fields_only_for_long_msg (py : Builtins) (now : datetime)
  (line : string) (m : ParsedMessage) :
  parse py now line = Return (Some m) ->
  (transmission m <> None
   <-> field 0 line = "MSG" /\ (22 <= List.length (Str.split "," line))%nat)
  /\ (field 0 line <> "MSG" \/ (List.length (Str.split "," line) < 22)%nat ->
      msg_get callsign m = None /\ msg_get altitude m = None
      /\ msg_get lat m = None /\ msg_get lon m = None
      /\ position_data [m] = []).
Proof.
  intro H. apply parse_accepted_record in H as [_ ->].
  unfold literal_record, msg_get, position_data, msg_get.
  cbn [transmission].
  destruct (String.eqb_spec (field 0 line) "MSG") as [E|E];
    destruct (Nat.leb_spec 22 (List.length (Str.split "," line))) as [L|L];
    cbn [andb]; (split; [split|]); try discriminate; try tauto; try lia;
    try (intros [X Y]; try congruence; lia);
    try (intros [X|X]; [congruence|lia]);
    try (intros _; repeat split).
Qed.

Lemma transmission_fields_only_for_long_msg_witness :
  parse CPython.builtins new_year_2026 undated_line
  = Return (Some (literal_record CPython.builtins new_year_2026 undated_line))
  /\ field 0 undated_line <> "MSG"
  /\ msg_get lat (literal_record CPython.builtins new_year_2026 undated_line) = None.
Proof.
  assert (H : parse CPython.builtins new_year_2026 undated_line
              = Return (Some (literal_record CPython.builtins new_year_2026
                                undated_line))) by (vm_compute; reflexivity).
  assert (N : field 0 undated_line <> "MSG") by (vm_compute; discriminate).
  split; [exact H|]. split; [exact N|].
  exact (proj1 (proj2 (proj2 (proj2
    (transmission_fields_only_for_long_msg _ _ _ _ H) (or_introl N))))).
Defined.

(** [_parse_bool] looks at the stripped field only. *)
Lemma _parse_bool_by_strip (f : string) :
  _parse_bool f =
  let v := Str.strip f in
  if negb (Str.truthy v) then None
  else if String.eqb v "0" || String.eqb (Str.lower v) "false" then Some false
  else if String.eqb v "1" || String.eqb (Str.lower v) "true" then Some true
  else if String.eqb v "-1" then Some true
  else None.
Proof.
  unfold _parse_bool. cbv zeta.
  destruct (Str.truthy (Str.strip f)) eqn:E.
  - rewrite (strip_truthy _ E). reflexivity.
  - rewrite orb_true_r. reflexivity.
Qed.

(** X2.  [_parse_bool] is three-valued by a fixed table on the stripped
    field, whatever whitespace surrounds it: [False] exactly for ["0"] and
    for any spelling of ["false"] in upper or lower case, [True] exactly
    for ["1"], ["-1"] and any spelling of ["true"], unknown otherwise (the
    empty and the blank field included). *)
Theorem _parse_bool_table (f w1 w2 : string) :
  all_space w1 = true -> all_space w2 = true ->
  _parse_bool (w1 ++ f ++ w2) = _parse_bool f
  /\ (_parse_bool f = Some false
      <-> Str.strip f = "0" \/ Str.lower (Str.strip f) = "false")
  /\ (_parse_bool f = Some true
      <-> Str.strip f = "1" \/ Str.strip f = "-1"
          \/ Str.lower (Str.strip f) = "true")
  /\ (blank f = true -> _parse_bool f = None).
Proof.
  intros H1 H2. split.
  - rewrite !_parse_bool_by_strip. cbv zeta. rewrite (strip_pad _ _ _ H1 H2).
    reflexivity.
  - rewrite _parse_bool_by_strip. cbv zeta. unfold blank.
    destruct (Str.strip f) as [|c v] eqn:E.
    + cbn. repeat split; try discriminate; intros H; try discriminate;
        intuition discriminate.
    + cbn [Str.truthy negb].
      destruct (String.eqb_spec (String c v) "0") as [A|A];
        [rewrite A; cbn; repeat split; try discriminate; auto;
         intuition discriminate|].
      destruct (String.eqb_spec (Str.lower (String c v)) "false") as [B|B];
        cbn [orb].
      { repeat split; try discriminate; auto.
        intros [X|[X|X]]; [rewrite X in B|rewrite X in B|rewrite X in B];
          discriminate B. }
      destruct (String.eqb_spec (String c v) "1") as [C|C];
        [rewrite C; cbn; repeat split; try discriminate; auto;
         intuition discriminate|].
      destruct (String.eqb_spec (Str.lower (String c v)) "true") as [D|D];
        cbn [orb].
      { repeat split; try discriminate; auto. intros [X|X]; congruence. }
      destruct (String.eqb_spec (String c v) "-1") as [G|G].
      { repeat split; try discriminate; auto. intros [X|X]; congruence. }
      repeat split; try discriminate; intuition congruence.
Qed.

Lemma _parse_bool_table_witness :
  all_space "  " = true /\ all_space " " = true
  /\ _parse_bool ("  " ++ "TrUe" ++ " ") = Some true.
Proof.
  assert (H1 : all_space "  " = true) by reflexivity.
  assert (H2 : all_space " " = true) by reflexivity.
  split; [exact H1|]. split; [exact H2|].
  rewrite (proj1 (_parse_bool_table "TrUe" "  " " " H1 H2)). reflexivity.
Defined.

(** X3.  The numeric field parsers never raise: a field that is blank or
    that the conversion refuses ([ValueError]) gives [None], and only a
    field that is not blank and converts gives a value, the converted
    one. *)
Theorem numeric_fields_degrade_to_None (py : Builtins) (f : string) :
  (exists r, _parse_int py f = Return r)
  /\ (exists r, _parse_float py f = Return r)
  /\ (_parse_int py f = Return None <-> blank f = true \/ py_int py f = None)
  /\ (_parse_float py f = Return None <-> blank f = true \/ py_float py f = None)
  /\ (forall v, _parse_int py f = Return (Some v)
                <-> blank f = false /\ py_int py f = Some v)
  /\ (forall x, _parse_float py f = Return (Some x)
                <-> blank f = false /\ py_float py f = Some x).
Proof.
  rewrite _parse_int_value, _parse_float_value. unfold int_value, float_value.
  split; [eexists; reflexivity|]. split; [eexists; reflexivity|].
  destruct (blank f); destruct (py_int py f) as [z|]; destruct (py_float py f) as [x|];
    repeat split; intros; try discriminate; try tauto; try congruence;
    try (intuition (try discriminate; congruence)).
Qed.

(** X4.  Decoding the comma-join of at least ten comma-free fields, the
    first a known type code and the fifth not blank, gives a record whose
    fields are read from those very fields: encoding a list of fields by
    joining it loses nothing the decoder looks at. *)
Theorem parse_of_joined_fields (py : Builtins) (now : datetime) (fs : list string) :
  Forall (fun f => has_char "," f = false) fs ->
  (10 <= List.length fs)%nat ->
  In (nth 0 fs "") ["SEL"; "ID"; "AIR"; "STA"; "CLK"; "MSG"] ->
  Str.strip (nth 4 fs "") <> "" ->
  exists m,
    parse py now (join_fields "," fs) = Return (Some m)
    /\ message_type m = nth 0 fs ""
    /\ transmission_type m = int_value py (nth 1 fs "")
    /\ icao24 m = Some (Str.strip (nth 4 fs ""))
    /\ timestamp m = Some (instant py now (nth 6 fs "") (nth 7 fs ""))
    /\ (nth 0 fs "" = "MSG" -> (22 <= List.length fs)%nat ->
        msg_get altitude m = int_value py (nth 11 fs "")
        /\ msg_get lat m = float_value py (nth 14 fs "")
        /\ msg_get lon m = float_value py (nth 15 fs "")
        /\ msg_get is_on_ground m = _parse_bool (nth 21 fs "")).
Proof.
  intros Hclean Hlen Hcode Hicao.
  assert (Hne : fs <> []) by (intros ->; cbn in Hlen; lia).
  pose proof (split_join_fields "," fs Hne Hclean) as S.
  assert (A : acceptable (join_fields "," fs) = true).
  { apply acceptable_iff. unfold field. rewrite S. repeat split; assumption. }
  exists (literal_record py now (join_fields "," fs)).
  rewrite parse_closed_form, A. split; [reflexivity|].
  unfold literal_record, literal_transmission, msg_get, field. rewrite S.
  cbn [message_type transmission_type icao24 timestamp transmission].
  do 4 (split; [reflexivity|]).
  intros Hmsg H22. rewrite Hmsg. cbn [String.eqb Ascii.eqb Bool.eqb andb].
  replace (22 <=? List.length fs)%nat with true
    by (symmetry; apply Nat.leb_le; exact H22).
  repeat split.
Qed.

Lemma parse_of_joined_fields_witness :
  let fs := ["AIR"; ""; "1"; "1"; " A1B2C3 "; "1"; "2024/01/01"; "12:00:00"; ""; ""] in
  Forall (fun f => has_char "," f = false) fs
  /\ (10 <= List.length fs)%nat
  /\ In (nth 0 fs "") ["SEL"; "ID"; "AIR"; "STA"; "CLK"; "MSG"]
  /\ Str.strip (nth 4 fs "") <> ""
  /\ exists m, parse CPython.builtins new_year_2026 (join_fields "," fs)
               = Return (Some m)
               /\ icao24 m = Some "A1B2C3".
Proof.
  intro fs.
  assert (H1 : Forall (fun f => has_char "," f = false) fs)
    by (repeat constructor).
  assert (H2 : (10 <= List.length fs)%nat) by (cbn; lia).
  assert (H3 : In (nth 0 fs "") ["SEL"; "ID"; "AIR"; "STA"; "CLK"; "MSG"])
    by (cbn; tauto).
  assert (H4 : Str.strip (nth 4 fs "") <> "") by (vm_compute; discriminate).
  split; [exact H1|]. split; [exact H2|]. split; [exact H3|]. split; [exact H4|].
  destruct (parse_of_joined_fields CPython.builtins new_year_2026 fs H1 H2 H3 H4)
    as (m & Hp & _ & _ & Hi & _).
  exists m. split; [exact Hp|]. rewrite Hi. reflexivity.
Defined.

Lemma has_char_lstrip (c : ascii) (s : string) :
  has_char c s = false -> has_char c (Str.lstrip s) = false.
Proof.
  induction s as [|d s IH]; [reflexivity|].
  intro H. cbn [Str.lstrip]. destruct (Str.isspace d); [|exact H].
  apply IH. cbn [has_char] in H. apply orb_false_iff in H. tauto.
Qed.

Lemma has_char_rstrip (c : ascii) (s : string) :
  has_char c s = false -> has_char c (Str.rstrip s) = false.
Proof.
  induction s as [|d s IH]; [reflexivity|].
  intro H. cbn [has_char] in H. apply orb_false_iff in H as [Hd Hs].
  cbn [Str.rstrip]. specialize (IH Hs).
  destruct (Str.rstrip s).
  - destruct (Str.isspace d); [reflexivity|]. cbn [has_char]. rewrite Hd. reflexivity.
  - cbn [has_char] in *. rewrite Hd, IH. reflexivity.
Qed.

(** X5.  The [icao24] of every record the decoder returns is normalised:
    it is not empty, it has no whitespace at either end (stripping it
    again changes nothing) and it holds no comma. *)
Theorem accepted_icao24_normalised (py : Builtins) (now : datetime) (line : string)
  (m : ParsedMessage) :
  parse py now line = Return (Some m) ->
  exists icao,
    icao24 m = Some icao
    /\ icao <> ""
    /\ Str.strip icao = icao
    /\ has_char "," icao = false.
Proof.
  intro H. apply parse_accepted_record in H as [A ->].
  apply acceptable_iff in A as (Hlen & _ & Hicao).
  exists (Str.strip (field 4 line)). split; [reflexivity|].
  split; [exact Hicao|]. split; [apply strip_idempotent|].
  unfold Str.strip. apply has_char_rstrip, has_char_lstrip.
  unfold field.
  apply (nth_Forall (fun f => has_char "," f = false));
    [apply split_fields_clean|lia].
Qed.

Lemma accepted_icao24_normalised_witness :
  parse CPython.builtins new_year_2026 "AIR,,1,1,  A1B2C3 ,1,,,,"
  = Return (Some (literal_record CPython.builtins new_year_2026
                    "AIR,,1,1,  A1B2C3 ,1,,,,"))
  /\ exists icao,
       icao24 (literal_record CPython.builtins new_year_2026
                 "AIR,,1,1,  A1B2C3 ,1,,,,") = Some icao
       /\ Str.strip icao = icao.
Proof.
  assert (H : parse CPython.builtins new_year_2026 "AIR,,1,1,  A1B2C3 ,1,,,,"
              = Return (Some (literal_record CPython.builtins new_year_2026
                                "AIR,,1,1,  A1B2C3 ,1,,,,")))
    by (vm_compute; reflexivity).
  split; [exact H|].
  destruct (accepted_icao24_normalised _ _ _ _ H) as (icao & Hi & _ & Hs & _).
  exists icao. split; [exact Hi|exact Hs].
Defined.

Lemma strip_all_space (w : string) : all_space w = true -> Str.strip w = "".
Proof.
  intro H. unfold Str.strip. rewrite (lstrip_all_space _ H). reflexivity.
Qed.

(** X6.  In the record of a [MSG] line of at least 22 fields, [callsign]
    and [squawk] are [None] only when their field is empty: a field of
    whitespace only gives the empty string, not [None]. *)
Theorem blank_callsign_is_empty_string (py : Builtins) (now : datetime)
  (line : string) (m : ParsedMessage) :
  parse py now line = Return (Some m) ->
  field 0 line = "MSG" ->
  (22 <= List.length (Str.split "," line))%nat ->
  (msg_get callsign m = None <-> field 10 line = "")
  /\ (msg_get squawk m = None <-> field 17 line = "")
  /\ (field 10 line <> "" -> all_space (field 10 line) = true ->
      msg_get callsign m = Some "")
  /\ (field 17 line <> "" -> all_space (field 17 line) = true ->
      msg_get squawk m = Some "").
Proof.
  intros H Hmsg H22. apply parse_accepted_record in H as [_ ->].
  unfold literal_record, literal_transmission, msg_get.
  cbn [transmission]. rewrite Hmsg. cbn [String.eqb Ascii.eqb Bool.eqb andb].
  replace (22 <=? List.length (Str.split "," line))%nat with true
    by (symmetry; apply Nat.leb_le; exact H22).
  cbn [callsign squawk]. unfold strip_or_None.
  split; [|split; [|split]].
  - destruct (field 10 line); split; intro X; try reflexivity; discriminate X.
  - destruct (field 17 line); split; intro X; try reflexivity; discriminate X.
  - intros Hne Hsp. destruct (field 10 line) eqn:E; [congruence|].
    cbn [Str.truthy]. rewrite (strip_all_space _ Hsp). reflexivity.
  - intros Hne Hsp. destruct (field 17 line) eqn:E; [congruence|].
    cbn [Str.truthy]. rewrite (strip_all_space _ Hsp). reflexivity.
Qed.

Lemma blank_callsign_is_empty_string_witness :
  parse CPython.builtins new_year_2026 blank_callsign_line
  = Return (Some (literal_record CPython.builtins new_year_2026 blank_callsign_line))
  /\ field 0 blank_callsign_line = "MSG"
  /\ (22 <= List.length (Str.split "," blank_callsign_line))%nat
  /\ msg_get callsign (literal_record CPython.builtins new_year_2026
                         blank_callsign_line) = Some "".
Proof.
  assert (H : parse CPython.builtins new_year_2026 blank_callsign_line
              = Return (Some (literal_record CPython.builtins new_year_2026
                                blank_callsign_line)))
    by (vm_compute; reflexivity).
  assert (H0 : field 0 blank_callsign_line = "MSG") by reflexivity.
  assert (H22 : (22 <= List.length (Str.split "," blank_callsign_line))%nat)
    by (apply Nat.leb_le; vm_compute; reflexivity).
  split; [exact H|]. split; [exact H0|]. split; [exact H22|].
  destruct (blank_callsign_is_empty_string _ _ _ _ H H0 H22) as (_ & _ & Hc & _).
  apply Hc; [vm_compute; discriminate|reflexivity].
Defined.

(* ================================================================= *)
(** ** More on the batch processor *)

Section CallFacts.

Variable env : Environment.

(** The two ways a flush of a non-empty queue ends. *)
Lemma _flush_batch_cases (s : Machine) :
  message_queue (self s) <> [] ->
  let s' := snd (_flush_batch env s) in
  let reply := db_reply env (List.length (db_calls (world s))) (message_queue (self s)) in
  message_queue (self s') = []
  /\ db_calls (world s') = db_calls (world s) ++ [message_queue (self s)]
  /\ recent_messages (self s') = recent_messages (self s)
  /\ batch_size (self s') = batch_size (self s)
  /\ batch_timeout (self s') = batch_timeout (self s)
  /\ enable_deduplication (self s') = enable_deduplication (self s)
  /\ messages_received (stats (self s')) = messages_received (stats (self s))
  /\ messages_discarded (stats (self s')) = messages_discarded (stats (self s))
  /\ match reply with
     | Return inserted =>
         messages_processed (stats (self s'))
         = (messages_processed (stats (self s)) + inserted)%Z
         /\ batches_written (stats (self s')) = (batches_written (stats (self s)) + 1)%Z
         /\ errors (stats (self s')) = errors (stats (self s))
         /\ last_flush (self s') = clock env (clock_reads (world s))
         /\ clock_reads (world s') = S (clock_reads (world s))
     | Raise _ =>
         messages_processed (stats (self s')) = messages_processed (stats (self s))
         /\ batches_written (stats (self s')) = batches_written (stats (self s))
         /\ errors (stats (self s')) = (errors (stats (self s)) + 1)%Z
         /\ last_flush (self s') = last_flush (self s)
         /\ clock_reads (world s') = clock_reads (world s)
     end.
Proof.
  intro Q. rewrite _flush_batch_unfold. cbv zeta.
  destruct (message_queue (self s)) eqn:E; [congruence|].
  destruct (db_reply env _ _); repeat split.
Qed.

Lemma _flush_batch_empty (s : Machine) :
  message_queue (self s) = [] -> _flush_batch env s = (Return tt, s).
Proof.
  intro Q. rewrite _flush_batch_unfold. cbv zeta. rewrite Q. reflexivity.
Qed.

Lemma do_calls_cons (c : call) (rest : list call) (s : Machine) :
  fst (do_call env c s) = Return tt ->
  do_calls env (c :: rest) s = do_calls env rest (snd (do_call env c s)).
Proof.
  intro R. cbn [do_calls]. unfold seq.
  destruct (do_call env c s) as [r s1]. cbn [fst] in R. subst r. reflexivity.
Qed.

Lemma periodic_flush_round_unfold (s : Machine) :
  periodic_flush_round env s =
  let w' := mk_World (S (clock_reads (world s))) (db_calls (world s)) in
  if Qle_bool (batch_timeout (self s))
              (clock env (clock_reads (world s)) - last_flush (self s))%Q
  then _flush_batch env (mk_Machine (self s) w')
  else (Return tt, mk_Machine (self s) w').
Proof.
  unfold periodic_flush_round, seq, time_time, gets, ret.
  cbn [self world clock_reads db_calls].
  destruct (Qle_bool _ _); [|reflexivity].
  cbn [self].
  destruct (message_queue (self s)) eqn:Q;
    [rewrite _flush_batch_empty by exact Q|]; reflexivity.
Qed.

Lemma do_call_returns (c : call) (s : Machine) : fst (do_call env c s) = Return tt.
Proof.
  destruct c; cbn [do_call].
  - apply add_message_returns.
  - apply _flush_batch_returns.
  - rewrite periodic_flush_round_unfold. cbv zeta.
    destruct (Qle_bool _ _); [apply _flush_batch_returns|reflexivity].
Qed.

Lemma do_calls_step (c : call) (rest : list call) (s : Machine) :
  do_calls env (c :: rest) s = do_calls env rest (snd (do_call env c s)).
Proof. apply do_calls_cons, do_call_returns. Qed.

Lemma do_calls_returns (cs : list call) (s : Machine) :
  fst (do_calls env cs s) = Return tt.
Proof.
  revert s. induction cs as [|c rest IH]; intro s; [reflexivity|].
  rewrite do_calls_step. apply IH.
Qed.

End CallFacts.

Section EffectFacts.

Variable env : Environment.

(** The effect of a flush on a machine whose queue already holds what the
    call appended. *)
Lemma _flush_batch_effect (c : call) (s s1 : Machine) :
  batch_size (self s1) = batch_size (self s) ->
  batch_timeout (self s1) = batch_timeout (self s) ->
  enable_deduplication (self s1) = enable_deduplication (self s) ->
  db_calls (world s1) = db_calls (world s) ->
  message_queue (self s1) = message_queue (self s) ++ admitted_by (self s) c ->
  stats (self s1)
  = match c with
    | AddMessage _ => add_received 1 (stats (self s))
    | _ => stats (self s)
    end ->
  last_flush (self s1) = last_flush (self s) ->
  (match c with
   | AddMessage m => duplicate_for (self s) m = false
   | _ => True
   end) ->
  recent_messages (self s1)
  = match c with
    | AddMessage m =>
        deque_append RECENT_MAXLEN (recent_messages (self s)) (_message_key m)
    | _ => recent_messages (self s)
    end ->
  exists new, call_effect env c s (snd (_flush_batch env s1)) new.
Proof.
  intros Hbs Hbt Hde Hdb Hq Hst Hlf Hfresh Hrec.
  destruct (message_queue (self s1)) as [|m0 q0] eqn:Q.
  - exists []. rewrite (_flush_batch_empty env s1 Q). cbn [snd].
    constructor.
    + exact Hbs.
    + exact Hbt.
    + exact Hde.
    + rewrite Hdb, app_nil_r. reflexivity.
    + left. split; [reflexivity|]. rewrite <- Hq. exact Q.
    + rewrite Hrec. destruct c; try reflexivity. rewrite Hfresh. reflexivity.
    + rewrite Hst. destruct c; cbn; lia.
    + rewrite Hst. destruct c; try (cbn; lia). rewrite Hfresh. cbn. lia.
    + rewrite Hst. destruct c; cbn; lia.
    + intros _. rewrite Hst. destruct c; cbn; split; unfold records; cbn; lia.
    + intros _. rewrite Hst, Hlf. destruct c; cbn; repeat split.
    + intros _. right. symmetry in Hq. apply app_eq_nil in Hq as [Hq _].
      rewrite Hq. exact Q.
    + intros _ Hadm. symmetry in Hq. apply app_eq_nil in Hq as [_ Hq].
      contradiction.
  - assert (N : message_queue (self s1) <> []) by (rewrite Q; discriminate).
    rewrite <- Q in Hq. clear Q.
    pose proof (_flush_batch_cases env s1 N) as H. cbv zeta in H.
    destruct H as (Eq & Edb & Erec & Ebs & Ebt & Ede & Ercv & Edis & Hreply).
    exists [message_queue (self s1)].
    constructor.
    + congruence.
    + congruence.
    + congruence.
    + rewrite Edb, Hdb. reflexivity.
    + right. rewrite <- Hq. split; [reflexivity|split; [exact N|exact Eq]].
    + rewrite Erec, Hrec. destruct c; try reflexivity. rewrite Hfresh. reflexivity.
    + rewrite Ercv, Hst. destruct c; cbn; lia.
    + rewrite Edis, Hst. destruct c; try (cbn; lia). rewrite Hfresh. cbn. lia.
    + cbn [List.length].
      destruct (db_reply env _ _); destruct Hreply as (Hp & Hb & He & _);
        rewrite Hb, He, Hst; destruct c; cbn; lia.
    + intro Hs. rewrite (Hs _ _) in Hreply. destruct Hreply as (Hp & _ & He & _).
      rewrite Hp, He, Hst. unfold records. cbn [List.concat]. rewrite app_nil_r.
      destruct c; cbn; split; lia.
    + intro Hf. destruct (Hf (List.length (db_calls (world s1)))
                             (message_queue (self s1))) as [e He].
      rewrite He in Hreply. destruct Hreply as (Hp & Hb & _ & Hl & _).
      rewrite Hp, Hb, Hl, Hst, Hlf. destruct c; cbn; repeat split.
    + discriminate.
    + intros _ _. discriminate.
Qed.

(** The effect of a call that hands nothing to the writer. *)
Lemma quiet_effect (c : call) (s s1 : Machine) :
  batch_size (self s1) = batch_size (self s) ->
  batch_timeout (self s1) = batch_timeout (self s) ->
  enable_deduplication (self s1) = enable_deduplication (self s) ->
  db_calls (world s1) = db_calls (world s) ->
  message_queue (self s1) = message_queue (self s) ++ admitted_by (self s) c ->
  stats (self s1)
  = match c with
    | AddMessage m =>
        if duplicate_for (self s) m
        then add_discarded 1 (add_received 1 (stats (self s)))
        else add_received 1 (stats (self s))
    | _ => stats (self s)
    end ->
  last_flush (self s1) = last_flush (self s) ->
  recent_messages (self s1)
  = match c with
    | AddMessage m =>
        if duplicate_for (self s) m then recent_messages (self s)
        else deque_append RECENT_MAXLEN (recent_messages (self s)) (_message_key m)
    | _ => recent_messages (self s)
    end ->
  ((Z.of_nat (List.length (message_queue (self s1))) < batch_size (self s))%Z
   \/ message_queue (self s1) = message_queue (self s)) ->
  ((forall n, Qle_bool (batch_timeout (self s))
                       (clock env n - last_flush (self s))%Q = true) ->
   admitted_by (self s) c = []) ->
  call_effect env c s s1 [].
Proof.
  intros Hbs Hbt Hde Hdb Hq Hst Hlf Hrec Hroom Htime.
  constructor.
  - exact Hbs.
  - exact Hbt.
  - exact Hde.
  - rewrite Hdb, app_nil_r. reflexivity.
  - left. split; [reflexivity|exact Hq].
  - exact Hrec.
  - rewrite Hst. destruct c as [m| |]; [destruct (duplicate_for (self s) m)| |];
      cbn; lia.
  - rewrite Hst. destruct c as [m| |]; [destruct (duplicate_for (self s) m)| |];
      cbn; lia.
  - rewrite Hst. destruct c as [m| |]; [destruct (duplicate_for (self s) m)| |];
      cbn; lia.
  - intros _. rewrite Hst. unfold records.
    destruct c as [m| |]; [destruct (duplicate_for (self s) m)| |];
      cbn; split; lia.
  - intros _. rewrite Hst, Hlf.
    destruct c as [m| |]; [destruct (duplicate_for (self s) m)| |];
      cbn; repeat split.
  - intros _. exact Hroom.
  - intros Hn Hadm. exfalso. apply Hadm. apply Htime. exact Hn.
Qed.

(** Every call has an effect of this shape. *)
Lemma do_call_effect (c : call) (s : Machine) :
  exists new, call_effect env c s (snd (do_call env c s)) new.
Proof.
  destruct c as [m| |]; cbn [do_call].
  - rewrite add_message_unfold. cbv zeta.
    destruct (duplicate_for (self s) m) eqn:D.
    + exists []. cbn [snd]. apply quiet_effect; cbn [admitted_by]; rewrite ?D;
        try reflexivity.
      * machine_simpl. rewrite app_nil_r. reflexivity.
      * right. reflexivity.
    + set (p2 := set_recent_messages _ _).
      destruct (_ <=? _)%Z eqn:Esize.
      * apply (_flush_batch_effect (AddMessage m) s (mk_Machine p2 (world s)));
          cbn [admitted_by]; rewrite ?D; reflexivity.
      * destruct (Qle_bool _ _) eqn:Etime.
        -- apply (_flush_batch_effect (AddMessage m) s (mk_Machine p2 _));
             cbn [admitted_by]; rewrite ?D; reflexivity.
        -- exists []. cbn [snd]. apply quiet_effect; cbn [admitted_by]; rewrite ?D;
             try reflexivity.
           ++ left. apply Z.leb_gt in Esize. exact Esize.
           ++ intro Hn. rewrite Hn in Etime. discriminate.
  - apply (_flush_batch_effect ForceFlush s s); cbn [admitted_by];
      rewrite ?app_nil_r; first [reflexivity|exact I].
  - rewrite periodic_flush_round_unfold. cbv zeta. destruct (Qle_bool _ _).
    + apply (_flush_batch_effect PeriodicFlush s (mk_Machine (self s) _));
        cbn [admitted_by self world db_calls]; rewrite ?app_nil_r;
        first [reflexivity|exact I].
    + exists []. cbn [snd]. apply quiet_effect;
        cbn [admitted_by self world db_calls]; rewrite ?app_nil_r;
        try reflexivity. right. reflexivity.
Qed.

End EffectFacts.

Lemma handed_since_app (s s' : Machine) (new : list (list ParsedMessage)) :
  db_calls (world s') = db_calls (world s) ++ new ->
  handed_since (world s) s' = new.
Proof.
  intro H. unfold handed_since. rewrite H, skipn_app, skipn_all, Nat.sub_diag.
  reflexivity.
Qed.

Lemma records_app (b1 b2 : list (list ParsedMessage)) :
  records (b1 ++ b2) = (records b1 + records b2)%Z.
Proof.
  unfold records. rewrite concat_app, length_app. lia.
Qed.

Section RunFacts.

Variable env : Environment.

Lemma call_effect_accepted (c : call) (s s' : Machine)
  (new : list (list ParsedMessage)) :
  call_effect env c s s' new ->
  accepted s' = accepted s ++ admitted_by (self s) c.
Proof.
  intros [_ _ _ Hdb Hshape _ _ _ _ _ _ _ _]. unfold accepted. rewrite Hdb.
  destruct Hshape as [[-> Hq]|(-> & _ & Hq)]; rewrite Hq.
  - rewrite app_nil_r, app_assoc. reflexivity.
  - rewrite concat_app. cbn [List.concat]. rewrite !app_nil_r, app_assoc.
    reflexivity.
Qed.

Lemma call_effect_nonempty (c : call) (s s' : Machine)
  (new : list (list ParsedMessage)) :
  call_effect env c s s' new -> Forall (fun b => b <> []) new.
Proof.
  intros [_ _ _ _ Hshape _ _ _ _ _ _ _ _].
  destruct Hshape as [[-> _]|(-> & N & _)]; repeat constructor. exact N.
Qed.

(** The accounts of a run of calls. *)
Lemma do_calls_accounts (cs : list call) :
  forall s : Machine,
    let s' := snd (do_calls env cs s) in
    let kept := admitted (enable_deduplication (self s))
                         (recent_messages (self s)) (added cs) in
    exists new,
      db_calls (world s') = db_calls (world s) ++ new
      /\ Forall (fun b => b <> []) new
      /\ accepted s' = accepted s ++ kept
      /\ messages_received (stats (self s'))
         = (messages_received (stats (self s)) + Z.of_nat (List.length (added cs)))%Z
      /\ messages_discarded (stats (self s'))
         = (messages_discarded (stats (self s))
            + Z.of_nat (List.length (added cs)) - Z.of_nat (List.length kept))%Z
      /\ (batches_written (stats (self s')) + errors (stats (self s')))%Z
         = (batches_written (stats (self s)) + errors (stats (self s))
            + Z.of_nat (List.length new))%Z
      /\ batch_size (self s') = batch_size (self s)
      /\ batch_timeout (self s') = batch_timeout (self s)
      /\ enable_deduplication (self s') = enable_deduplication (self s)
      /\ (stores_everything env ->
          messages_processed (stats (self s'))
          = (messages_processed (stats (self s)) + records new)%Z
          /\ errors (stats (self s')) = errors (stats (self s)))
      /\ (always_fails env ->
          messages_processed (stats (self s')) = messages_processed (stats (self s))
          /\ batches_written (stats (self s')) = batches_written (stats (self s))
          /\ last_flush (self s') = last_flush (self s)).
Proof.
  induction cs as [|c rest IH]; intro s; cbv zeta.
  - exists []. cbn [do_calls ret snd added admitted List.length].
    rewrite !app_nil_r. unfold records. cbn.
    repeat split; try lia; constructor.
  - rewrite do_calls_step.
    destruct (do_call_effect env c s) as [new1 E].
    set (s1 := snd (do_call env c s)) in *.
    destruct (IH s1) as (new2 & Hdb & Hne & Hacc & Hrcv & Hdis & Hout & Hbs & Hbt
                         & Hde & Hst & Hfl).
    pose proof (call_effect_accepted _ _ _ _ E) as Hacc1.
    pose proof (call_effect_nonempty _ _ _ _ E) as Hne1.
    destruct E as [Ebs Ebt Ede Edb Eshape Erec Ercv Edis Eout Est Efl _ _].
    exists (new1 ++ new2).
    assert (K : admitted (enable_deduplication (self s)) (recent_messages (self s))
                         (added (c :: rest))
                = admitted_by (self s) c
                  ++ admitted (enable_deduplication (self s1))
                              (recent_messages (self s1)) (added rest)).
    { rewrite Ede, Erec. destruct c as [m| |]; cbn [added admitted admitted_by];
        try reflexivity.
      unfold duplicate_for. destruct (_ && _); reflexivity. }
    rewrite K.
    split; [rewrite Hdb, Edb, app_assoc; reflexivity|].
    split; [apply Forall_app; split; assumption|].
    split; [rewrite Hacc, Hacc1, app_assoc; reflexivity|].
    split.
    { rewrite Hrcv, Ercv. destruct c; cbn [added List.length]; lia. }
    split.
    { rewrite Hdis, Edis, length_app.
      destruct c as [m| |]; cbn [added admitted_by List.length];
        [destruct (duplicate_for (self s) m)|..]; cbn [List.length]; lia. }
    split; [rewrite Hout, length_app; lia|].
    split; [congruence|]. split; [congruence|]. split; [congruence|].
    split.
    { intro Hs. destruct (Hst Hs) as [Hp He]. destruct (Est Hs) as [Hp1 He1].
      rewrite records_app. split; lia. }
    { intro Hf. destruct (Hfl Hf) as (Hp & Hb & Hl).
      destruct (Efl Hf) as (Hp1 & Hb1 & Hl1). repeat split; congruence. }
Qed.

End RunFacts.

Section BoundFacts.

Variable env : Environment.

(** Batches stay within the bound when the queue starts within it. *)
Lemma do_calls_bounded (cs : list call) :
  forall s : Machine,
    (Z.of_nat (List.length (message_queue (self s))) < batch_bound (self s))%Z ->
    let s' := snd (do_calls env cs s) in
    (Z.of_nat (List.length (message_queue (self s'))) < batch_bound (self s))%Z
    /\ Forall (fun b => (Z.of_nat (List.length b) <= batch_bound (self s))%Z)
              (handed_since (world s) s').
Proof.
  induction cs as [|c rest IH]; intros s Hq; cbv zeta.
  - cbn [do_calls ret snd]. split; [exact Hq|].
    unfold handed_since. rewrite skipn_all. constructor.
  - rewrite do_calls_step.
    destruct (do_call_effect env c s) as [new1 E].
    set (s1 := snd (do_call env c s)) in *.
    destruct (do_calls_accounts env rest s1) as (new2 & Hdb & _).
    destruct E as [Ebs _ _ Edb Eshape _ _ _ _ _ _ Eroom _].
    assert (Hb : batch_bound (self s1) = batch_bound (self s))
      by (unfold batch_bound; rewrite Ebs; reflexivity).
    assert (Hadm : (List.length (admitted_by (self s) c) <= 1)%nat).
    { destruct c as [m| |]; cbn [admitted_by]; [destruct (duplicate_for _ _)|..];
        cbn; lia. }
    assert (Hq1 : (Z.of_nat (List.length (message_queue (self s1)))
                   < batch_bound (self s))%Z
                  /\ Forall (fun b => (Z.of_nat (List.length b)
                                       <= batch_bound (self s))%Z) new1).
    { destruct Eshape as [[-> Hs1]|(-> & _ & Hs1)].
      - split; [|constructor].
        destruct (Eroom eq_refl) as [R|R].
        + unfold batch_bound. lia.
        + rewrite R. exact Hq.
      - rewrite Hs1. split; [unfold batch_bound; cbn; lia|].
        repeat constructor. rewrite length_app. lia. }
    destruct Hq1 as [Hq1 Hnew1].
    rewrite <- Hb in Hq1. destruct (IH s1 Hq1) as [Hq' Hnew2].
    rewrite Hb in Hq', Hnew2. split; [exact Hq'|].
    rewrite (handed_since_app s1 _ new2 Hdb) in Hnew2.
    rewrite (handed_since_app s _ (new1 ++ new2))
      by (rewrite Hdb, Edb, app_assoc; reflexivity).
    apply Forall_app. split; assumption.
Qed.


End BoundFacts.

Lemma admitted_without_dedup (recent : list string) (msgs : list ParsedMessage) :
  admitted false recent msgs = msgs.
Proof.
  revert recent. induction msgs as [|m rest IH]; intro recent; [reflexivity|].
  cbn [admitted andb]. rewrite IH. reflexivity.
Qed.

(** X7.  Whatever calls reach a processor ([add_message], [force_flush],
    passes of [periodic_flush]), in whatever order, none of them raises,
    and the messages that were not discarded as duplicates are all there,
    in arrival order: the batches handed to the writer, one after the
    other, followed by the pending queue, are the earlier ones followed by
    the new ones.  The received counter grows by the number of
    [add_message] calls and the discarded counter by the number of those
    that were duplicates; with deduplication off no message is
    discarded. *)
Theorem calls_keep_every_message (env : Environment) (s : Machine) (cs : list call) :
  let s' := snd (do_calls env cs s) in
  let kept := admitted (enable_deduplication (self s))
                       (recent_messages (self s)) (added cs) in
  fst (do_calls env cs s) = Return tt
  /\ accepted s' = accepted s ++ kept
  /\ messages_received (stats (self s'))
     = (messages_received (stats (self s)) + Z.of_nat (List.length (added cs)))%Z
  /\ messages_discarded (stats (self s'))
     = (messages_discarded (stats (self s))
        + Z.of_nat (List.length (added cs)) - Z.of_nat (List.length kept))%Z
  /\ (enable_deduplication (self s) = false -> kept = added cs).
Proof.
  cbv zeta. split; [apply do_calls_returns|].
  destruct (do_calls_accounts env cs s) as (new & _ & _ & Hacc & Hrcv & Hdis & _).
  split; [exact Hacc|]. split; [exact Hrcv|]. split; [exact Hdis|].
  intros ->. apply admitted_without_dedup.
Qed.

Lemma calls_keep_every_message_witness :
  let s := DataProcessor_init calm
             (mk_ProcessingConfig (Some 2%Z) (Some 10%Q) (Some false) None)
             fresh_world in
  let cs := [AddMessage msg_a; AddMessage msg_a; PeriodicFlush;
             AddMessage msg_b; ForceFlush] in
  enable_deduplication (self s) = false
  /\ accepted (snd (do_calls calm cs s)) = [msg_a; msg_a; msg_b].
Proof.
  intros s cs.
  assert (E : enable_deduplication (self s) = false) by reflexivity.
  split; [exact E|].
  destruct (calls_keep_every_message calm s cs) as (_ & Hacc & _ & _ & Hk).
  rewrite Hacc, (Hk E). reflexivity.
Defined.

(** X8.  The writer is never handed an empty batch, and every batch
    handed counts once, as written or as an error.  When the pending queue
    starts below the batch bound (the batch size, or one if that is
    smaller), as it does in a new processor, no batch ever exceeds the
    bound and the queue stays below it after every call. *)
Theorem batches_never_empty_nor_oversized (env : Environment) (s : Machine)
  (cs : list call) :
  let s' := snd (do_calls env cs s) in
  let new := handed_since (world s) s' in
  db_calls (world s') = db_calls (world s) ++ new
  /\ Forall (fun b => b <> []) new
  /\ (batches_written (stats (self s')) + errors (stats (self s')))%Z
     = (batches_written (stats (self s)) + errors (stats (self s))
        + Z.of_nat (List.length new))%Z
  /\ ((Z.of_nat (List.length (message_queue (self s))) < batch_bound (self s))%Z ->
      Forall (fun b => (Z.of_nat (List.length b) <= batch_bound (self s))%Z) new
      /\ (Z.of_nat (List.length (message_queue (self s'))) < batch_bound (self s))%Z).
Proof.
  cbv zeta.
  destruct (do_calls_accounts env cs s) as (new & Hdb & Hne & _ & _ & _ & Hout & _).
  rewrite (handed_since_app s _ new Hdb).
  split; [exact Hdb|]. split; [exact Hne|]. split; [exact Hout|].
  intro Hq. destruct (do_calls_bounded env cs s Hq) as [Hq' Hb].
  rewrite (handed_since_app s _ new Hdb) in Hb. split; assumption.
Qed.

Lemma batches_never_empty_nor_oversized_witness :
  let s := DataProcessor_init calm pairs_config fresh_world in
  let cs := [AddMessage msg_a; ForceFlush; ForceFlush; AddMessage msg_b;
             AddMessage msg_c; AddMessage msg_a] in
  (Z.of_nat (List.length (message_queue (self s))) < batch_bound (self s))%Z
  /\ Forall (fun b => (Z.of_nat (List.length b) <= 2)%Z)
            (handed_since (world s) (snd (do_calls calm cs s))).
Proof.
  intros s cs.
  assert (H : (Z.of_nat (List.length (message_queue (self s)))
               < batch_bound (self s))%Z) by (vm_compute; reflexivity).
  split; [exact H|].
  destruct (batches_never_empty_nor_oversized calm s cs) as (_ & _ & _ & Hb).
  exact (proj1 (Hb H)).
Defined.

(** X9.  With a writer that stores every batch and reports its length,
    the counters that [get_stats] returns always balance: received =
    discarded + processed + queue size; no error is counted, and
    batches-written is the number of batches handed to the writer. *)
Theorem counters_balance (env : Environment) (config : ProcessingConfig)
  (w : World) (cs : list call) :
  stores_everything env ->
  let s' := snd (do_calls env cs (DataProcessor_init env config w)) in
  exists st size,
    get_stats s' = (Return (st, size), s')
    /\ messages_received st
       = (messages_discarded st + messages_processed st + size)%Z
    /\ errors st = 0%Z
    /\ batches_written st = Z.of_nat (List.length (handed_since w s')).
Proof.
  intros Hs s'. set (s0 := DataProcessor_init env config w) in *.
  exists (stats (self s')), (Z.of_nat (List.length (message_queue (self s')))).
  split; [reflexivity|].
  destruct (do_calls_accounts env cs s0)
    as (new & Hdb & _ & Hacc & Hrcv & Hdis & Hout & _ & _ & _ & Hst & _).
  fold s' in Hdb, Hacc, Hrcv, Hdis, Hout, Hst.
  destruct (Hst Hs) as [Hp He].
  assert (Hw : handed_since w s' = new) by (apply (handed_since_app s0 s' new Hdb)).
  rewrite Hw.
  unfold accepted in Hacc. rewrite Hdb, concat_app, <- !app_assoc in Hacc.
  apply app_inv_head in Hacc. cbn [s0 DataProcessor_init self message_queue app] in Hacc.
  apply (f_equal (@List.length ParsedMessage)) in Hacc. rewrite length_app in Hacc.
  unfold records in Hp.
  cbn [s0 DataProcessor_init self stats messages_received messages_discarded
       messages_processed batches_written errors] in Hrcv, Hdis, Hp, He, Hout.
  cbn [s0 DataProcessor_init self enable_deduplication recent_messages] in Hacc.
  cbn [s0 DataProcessor_init self enable_deduplication recent_messages] in Hdis.
  repeat split; lia.
Qed.

Lemma counters_balance_witness :
  stores_everything calm
  /\ exists st size,
       get_stats (snd (do_calls calm
                         [AddMessage msg_a; AddMessage msg_a; AddMessage msg_b;
                          AddMessage msg_c]
                         (DataProcessor_init calm pairs_config fresh_world)))
       = (Return (st, size),
          snd (do_calls calm
                 [AddMessage msg_a; AddMessage msg_a; AddMessage msg_b;
                  AddMessage msg_c]
                 (DataProcessor_init calm pairs_config fresh_world)))
       /\ messages_received st
          = (messages_discarded st + messages_processed st + size)%Z.
Proof.
  assert (H : stores_everything calm) by (intros n b; reflexivity).
  split; [exact H|].
  destruct (counters_balance calm pairs_config fresh_world
              [AddMessage msg_a; AddMessage msg_a; AddMessage msg_b; AddMessage msg_c]
              H) as (st & size & Hg & Hb & _).
  exists st, size. split; [exact Hg|exact Hb].
Defined.






(** X12.  When the writer returns a count for a flush, the processed
    counter grows by that count (whatever it is), batches-written by one,
    the error counter is unchanged, the last-flush time becomes the clock's
    reading taken after the write, and the queue is empty; the recency set
    is not touched. *)
Theorem flush_success_effect (env : Environment) (s : Machine) (inserted : Z) :
  message_queue (self s) <> [] ->
  db_reply env (List.length (db_calls (world s))) (message_queue (self s))
  = Return inserted ->
  let s' := snd (_flush_batch env s) in
  fst (_flush_batch env s) = Return tt
  /\ messages_processed (stats (self s'))
     = (messages_processed (stats (self s)) + inserted)%Z
  /\ batches_written (stats (self s')) = (batches_written (stats (self s)) + 1)%Z
  /\ errors (stats (self s')) = errors (stats (self s))
  /\ last_flush (self s') = clock env (clock_reads (world s))
  /\ message_queue (self s') = []
  /\ db_calls (world s') = db_calls (world s) ++ [message_queue (self s)]
  /\ recent_messages (self s') = recent_messages (self s).
Proof.
  intros Q R s'. split; [apply _flush_batch_returns|].
  pose proof (_flush_batch_cases env s Q) as H. cbv zeta in H. fold s' in H.
  rewrite R in H.
  destruct H as (Hq & Hdb & Hrec & _ & _ & _ & _ & _ & Hp & Hb & He & Hl & _).
  repeat split; assumption.
Qed.

Lemma flush_success_effect_witness :
  let s := snd (add_message calm msg_a
                  (DataProcessor_init calm pairs_config fresh_world)) in
  message_queue (self s) <> []
  /\ db_reply calm (List.length (db_calls (world s))) (message_queue (self s))
     = Return 1%Z
  /\ messages_processed (stats (self (snd (_flush_batch calm s)))) = 1%Z
  /\ batches_written (stats (self (snd (_flush_batch calm s)))) = 1%Z.
Proof.
  intro s.
  assert (Q : message_queue (self s) <> []) by (vm_compute; discriminate).
  assert (R : db_reply calm (List.length (db_calls (world s)))
                (message_queue (self s)) = Return 1%Z) by reflexivity.
  split; [exact Q|]. split; [exact R|].
  destruct (flush_success_effect calm s 1%Z Q R) as (_ & Hp & Hb & _).
  split; [exact Hp|exact Hb].
Defined.



(* ================================================================= *)
(** ** More on the stream reader *)

Lemma split_first_newline_frame (s : string) :
  match split_first_newline s with
  | None => frame s = ([], s)
  | Some (line, remainder) =>
      frame s = (line :: fst (frame remainder), snd (frame remainder))
      /\ (String.length remainder < String.length s)%nat
  end.
Proof.
  induction s as [|c s IH]; [reflexivity|].
  cbn [split_first_newline frame]. destruct (Ascii.eqb c "010") eqn:E.
  - destruct (frame s) as [lines tail]. cbn [fst snd String.length].
    split; [reflexivity|lia].
  - destruct (split_first_newline s) as [[line remainder]|].
    + destruct IH as [IH Hlen]. rewrite IH. cbn [String.length].
      split; [reflexivity|lia].
    + rewrite IH. reflexivity.
Qed.



Lemma frame_tail_clean (s : string) : has_char "010" (snd (frame s)) = false.
Proof.
  induction s as [|c s IH]; [reflexivity|].
  cbn [frame]. destruct (frame s) as [lines tail]. cbn [snd] in IH.
  destruct (Ascii.eqb c "010") eqn:E; [exact IH|].
  destruct lines; cbn [snd has_char]; [rewrite E|]; exact IH.
Qed.



Section FramingFacts.

Variable callback : string -> outcome unit.

(** What the [while '\n' in self.buffer] loop does, whatever the sink
    answers. *)
Lemma deliver_lines_frame (fuel : nat) :
  forall rd : Reader,
    (String.length (buffer (client rd)) < fuel)%nat ->
    deliver_lines callback fuel rd
    = (Return tt,
       mk_Reader (set_buffer (snd (frame (buffer (client rd)))) (client rd))
                 (trace rd ++ map Delivered
                                  (delivered (fst (frame (buffer (client rd))))))).
Proof.
  induction fuel as [|fuel IH]; intros rd Hlen; [lia|].
  cbn [deliver_lines]. unfold seq at 1, gets at 1.
  pose proof (split_first_newline_frame (buffer (client rd))) as F.
  destruct (split_first_newline (buffer (client rd))) as [[line remainder]|].
  - destruct F as [F Hshort]. rewrite F. cbn [fst snd].
    unfold seq at 1, on_client at 1, modify at 1.
    unfold seq at 1.
    set (rd1 := mk_Reader (set_buffer remainder (client rd)) (trace rd)).
    assert (B1 : buffer (client rd1) = remainder) by reflexivity.
    unfold delivered. cbn [map filter]. fold (delivered (fst (frame remainder))).
    destruct (Str.truthy (Str.strip line)).
    + unfold try_catch, seq, emit, modify, except_Exception, ret.
      cbn [client trace].
      destruct (callback (Str.strip line)) as [[]|e];
        rewrite IH by (cbn [rd1 client buffer set_buffer]; lia);
        cbn [rd1 client trace buffer set_buffer map];
        rewrite <- app_assoc; reflexivity.
    + unfold ret. rewrite (IH rd1) by (rewrite B1; lia).
      cbn [rd1 client trace buffer set_buffer]. reflexivity.
  - rewrite F. cbn [fst snd delivered map filter]. unfold delivered. cbn [map filter].
    rewrite app_nil_r. unfold ret. destruct rd as [c t]. destruct c. reflexivity.
Qed.

(** A read that returns data: the reader appends it to the buffer,
    passes the complete lines on and keeps the tail. *)
Lemma receive_data (r : Round) (text : string) (rd : Reader) :
  recv r = RecvData text ->
  receive callback r rd
  = (Return tt,
     mk_Reader (set_buffer (snd (frame (buffer (client rd) ++ text))) (client rd))
               (trace rd ++ map Delivered
                                (delivered (fst (frame (buffer (client rd) ++ text)))))).
Proof.
  intro H. unfold receive. rewrite H.
  unfold seq at 1, on_client at 1, modify at 1.
  unfold seq at 1, gets at 1.
  rewrite deliver_lines_frame by (cbn [client buffer set_buffer]; lia).
  destruct rd as [c t]. destruct c. reflexivity.
Qed.

End FramingFacts.

Section RoundFacts.

Variable callback : string -> outcome unit.

Lemma receive_after (r : Round) (rd : Reader) :
  receive callback r rd = (Return tt, after_receive r rd).
Proof.
  unfold after_receive. destruct (recv r) eqn:E.
  - apply receive_data. exact E.
  - unfold receive. rewrite E. reflexivity.
  - unfold receive. rewrite E. reflexivity.
  - unfold receive. rewrite E. reflexivity.
Qed.

Lemma read_round_after (r : Round) (current : Z) (rd : Reader) :
  read_round callback r current rd = after_round r current rd.
Proof.
  unfold read_round, after_round. destruct (running r); cbn [negb]; [|reflexivity].
  unfold seq at 1, gets at 1.
  destruct (connected (client rd)); cbn [negb].
  - unfold seq. rewrite receive_after. reflexivity.
  - unfold connect. destruct (connect_ok r).
    + unfold seq at 1. unfold seq at 1, on_client at 1, modify at 1.
      unfold seq at 1, emit at 1, modify at 1. unfold ret at 1.
      unfold seq at 1, gets at 1. unfold seq at 1.
      rewrite receive_after. reflexivity.
    + unfold seq at 1. unfold seq at 1, on_client at 1, modify at 1.
      unfold ret at 1. unfold seq at 1. unfold time_sleep.
      destruct (current <? 0)%Z; [reflexivity|].
      reflexivity.
Qed.

End RoundFacts.

(** [frame] is [split] at the newlines: all parts but the last are the
    lines, the last is the tail. *)
Lemma frame_split (s : string) :
  Str.split "010" s = fst (frame s) ++ [snd (frame s)].
Proof.
  induction s as [|c s IH]; [reflexivity|].
  cbn [Str.split frame]. rewrite IH. destruct (frame s) as [lines tail].
  cbn [fst snd]. destruct (Ascii.eqb c "010"); [reflexivity|].
  destruct lines; reflexivity.
Qed.

(** X14.  Framing.  When a connected reader receives data, it appends
    the data to its buffer and splits the buffer at the newlines: every
    part but the last is passed to the sink, stripped, unless it is blank,
    in order; the last part, which holds no newline, is the new buffer.
    The reader stays connected and the loop goes on with the same
    interval. *)
Theorem recv_delivers_complete_lines (callback : string -> outcome unit)
  (text : string) (current : Z) (c : Dump1090Client) (t : list event) :
  connected c = true ->
  let parts := Str.split "010" (buffer c ++ text) in
  let result := read_round callback (data_round text) current (mk_Reader c t) in
  fst result = Return (Looping current)
  /\ trace (snd result)
     = t ++ map Delivered (filter Str.truthy (map Str.strip (removelast parts)))
  /\ buffer (client (snd result)) = last parts ""
  /\ has_char "010" (buffer (client (snd result))) = false
  /\ connected (client (snd result)) = true.
Proof.
  intros Hc parts result. subst result parts.
  rewrite read_round_after. unfold after_round, after_receive, data_round.
  cbn [running negb client recv trace fst snd]. rewrite Hc.
  cbn [fst snd client trace]. rewrite frame_split, removelast_last, last_last.
  split; [reflexivity|]. split; [reflexivity|].
  destruct c as [ri mi co bu]. cbn [set_buffer buffer connected] in *.
  split; [reflexivity|]. split; [apply frame_tail_clean|exact Hc].
Qed.

Lemma recv_delivers_complete_lines_witness :
  let text : string := ("MSG,1" ++ String "010" ("  " ++ String "010" "MSG,2"))%string in
  connected connected_client = true
  /\ trace (snd (read_round failing_sink (data_round text) 5 (mk_Reader connected_client [])))
     = [Delivered "MSG,1"]
  /\ buffer (client (snd (read_round failing_sink (data_round text) 5
                            (mk_Reader connected_client []))))
     = "MSG,2".
Proof.
  intro text.
  assert (H : connected connected_client = true) by reflexivity.
  split; [exact H|].
  destruct (recv_delivers_complete_lines failing_sink text 5 connected_client [] H)
    as (_ & Ht & Hb & _).
  split; [rewrite Ht|rewrite Hb]; reflexivity.
Defined.





Section LoopFacts.

Variable callback : string -> outcome unit.

Lemma read_loop_cons (r : Round) (rest : list Round) (current : Z) (rd : Reader) :
  read_loop callback (r :: rest) (Looping current) rd
  = match fst (after_round r current rd) with
    | Return st => read_loop callback rest st (snd (after_round r current rd))
    | Raise e => (Raise e, snd (after_round r current rd))
    end.
Proof.
  cbn [read_loop]. unfold seq. rewrite read_round_after.
  destruct (after_round r current rd) as [[st|e] rd']; reflexivity.
Qed.

Lemma read_loop_Exited (rounds : list Round) (rd : Reader) :
  read_loop callback rounds Exited rd = (Return Exited, rd).
Proof. destruct rounds; reflexivity. Qed.

Lemma read_loop_app (pre post : list Round) :
  forall (st : loop_state) (rd : Reader),
    read_loop callback (pre ++ post) st rd
    = match fst (read_loop callback pre st rd) with
      | Return st' => read_loop callback post st' (snd (read_loop callback pre st rd))
      | Raise e => (Raise e, snd (read_loop callback pre st rd))
      end.
Proof.
  induction pre as [|r pre IH]; intros st rd.
  - destruct st; reflexivity.
  - destruct st as [current|].
    + cbn [app]. rewrite !read_loop_cons.
      destruct (after_round r current rd) as [[st'|e] rd']; cbn [fst snd];
        [apply IH|reflexivity].
    + rewrite !read_loop_Exited. cbn [fst snd]. symmetry. apply read_loop_Exited.
Qed.

End LoopFacts.



Section RunEffect.

Variable callback : string -> outcome unit.


End RunEffect.


Section SafeFacts.

Variable callback : string -> outcome unit.


Lemma read_loop_sink (other : string -> outcome unit) (rounds : list Round) :
  forall (st : loop_state) (rd : Reader),
    read_loop callback rounds st rd = read_loop other rounds st rd.
Proof.
  induction rounds as [|r rest IH]; intros st rd; [destruct st; reflexivity|].
  destruct st as [current|]; [|reflexivity].
  rewrite !read_loop_cons.
  destruct (after_round r current rd) as [[st'|e] rd']; cbn [fst snd];
    [apply IH|reflexivity].
Qed.

End SafeFacts.







(** X18.  What the sink does with a line never reaches the reader: a sink
    that raises and one that returns leave the same answer, the same
    buffer and connection state, and the same trace of connections, waits
    and lines passed on. *)
Theorem sink_outcome_does_not_reach_reader (callback other : string -> outcome unit)
  (rounds : list Round) (rd : Reader) :
  read_messages callback rounds rd = read_messages other rounds rd.
Proof.
  unfold read_messages, seq, gets. apply read_loop_sink.
Qed.

(** X19.  Leaving the loop.  If the loop is still going after the passes
    [before] and the running flag is then off, [read_messages] returns
    with the reader disconnected, the disconnection being the last thing
    it does; the socket is not touched in that pass and the passes that
    would follow are never made. *)
Theorem stop_flag_disconnects_and_ends (callback : string -> outcome unit)
  (before rest : list Round) (r : Round) (next : Z) (rd : Reader) :
  fst (read_messages callback before rd) = Return (Looping next) ->
  running r = false ->
  let reached := snd (read_messages callback before rd) in
  read_messages callback (before ++ r :: rest) rd
  = (Return Exited,
     mk_Reader (set_connected false (client reached)) (trace reached ++ [Disconnected])).
Proof.
  intros Hgo Hrun reached. subst reached.
  unfold read_messages, seq, gets in *.
  rewrite read_loop_app, Hgo, read_loop_cons. unfold after_round.
  rewrite Hrun. cbn [negb fst snd]. apply read_loop_Exited.
Qed.

Lemma stop_flag_disconnects_and_ends_witness :
  (fst (read_messages quiet_sink [failing_round; data_round "MSG"]
          (mk_Reader default_client []))
   = Return (Looping 5)
   /\ running stop_round = false)
  /\ read_messages quiet_sink ([failing_round; data_round "MSG"] ++ stop_round :: [failing_round])
       (mk_Reader default_client [])
     = (Return Exited,
        mk_Reader (mk_Dump1090Client 5 60 false "MSG")
                  [Slept 5; Connected; Disconnected]).
Proof.
  assert (H1 : fst (read_messages quiet_sink [failing_round; data_round "MSG"]
                      (mk_Reader default_client []))
               = Return (Looping 5)) by reflexivity.
  assert (H2 : running stop_round = false) by reflexivity.
  split; [split; [exact H1|exact H2]|].
  exact (stop_flag_disconnects_and_ends quiet_sink [failing_round; data_round "MSG"]
           [failing_round] stop_round 5 (mk_Reader default_client []) H1 H2).
Defined.

(* ================================================================= *)
(** ** The storage writer: connections, aircraft and position rows *)

Lemma find_upsert_row (r : AircraftParams) (k : string) (table : list AircraftParams) :
  find_aircraft k (upsert_row r table)
  = if String.eqb (ac_icao24 r) k
    then Some match find_aircraft k table with
              | Some old =>
                  mk_AircraftParams (ac_icao24 old)
                    (match ac_callsign r with Some c => Some c | None => ac_callsign old end)
                    (ac_first_seen old) (ac_last_seen r)
              | None => r
              end
    else find_aircraft k table.
Proof.
  unfold find_aircraft.
  induction table as [|old rest IH]; cbn [upsert_row find].
  - destruct (String.eqb (ac_icao24 r) k); reflexivity.
  - destruct (String.eqb_spec (ac_icao24 old) (ac_icao24 r)) as [E|N]; cbn [find ac_icao24].
    + destruct (String.eqb_spec (ac_icao24 r) k) as [Er|Nr].
      * rewrite (proj2 (String.eqb_eq (ac_icao24 old) k)) by congruence. reflexivity.
      * rewrite (proj2 (String.eqb_neq (ac_icao24 old) k)) by congruence. reflexivity.
    + destruct (String.eqb_spec (ac_icao24 old) k) as [Ek|Nk].
      * destruct (String.eqb_spec (ac_icao24 r) k) as [Er|Nr]; [congruence|reflexivity].
      * exact IH.
Qed.

Lemma find_aircraft_absent (k : string) (rows : list AircraftParams) :
  ~ In k (map ac_icao24 rows) -> find_aircraft k rows = None.
Proof.
  unfold find_aircraft. induction rows as [|r rest IH]; [reflexivity|].
  cbn [map In find]. intro N.
  destruct (String.eqb_spec (ac_icao24 r) k) as [E|_]; [tauto|].
  apply IH. tauto.
Qed.

Lemma find_fold_upsert (rows : list AircraftParams) :
  NoDup (map ac_icao24 rows) ->
  forall (table : list AircraftParams) (k : string),
    find_aircraft k (fold_left (fun tb r => upsert_row r tb) rows table)
    = match find_aircraft k rows with
      | Some r =>
          Some match find_aircraft k table with
               | Some old =>
                   mk_AircraftParams (ac_icao24 old)
                     (match ac_callsign r with Some c => Some c | None => ac_callsign old end)
                     (ac_first_seen old) (ac_last_seen r)
               | None => r
               end
      | None => find_aircraft k table
      end.
Proof.
  induction rows as [|r rest IH]; intros D table k; [reflexivity|].
  cbn [map] in D. inversion D as [|x l Hnot Hrest]; subst.
  cbn [fold_left]. rewrite (IH Hrest), find_upsert_row.
  assert (Hhead : find_aircraft k (r :: rest)
                  = if String.eqb (ac_icao24 r) k then Some r else find_aircraft k rest)
    by reflexivity.
  rewrite Hhead.
  destruct (String.eqb_spec (ac_icao24 r) k) as [E|N]; [|reflexivity].
  subst k. rewrite (find_aircraft_absent _ _ Hnot). reflexivity.
Qed.

(** The rows [_upsert_aircraft] builds, looked up by key. *)
Lemma find_aircraft_data (k : string) (msgs : list ParsedMessage) :
  forall seen : list string,
    find_aircraft k (aircraft_data seen msgs)
    = if Str.truthy k && negb (existsb (String.eqb k) seen)
      then option_map (fun m => upserted k m None) (first_with k msgs)
      else None.
Proof.
  unfold find_aircraft, first_with.
  induction msgs as [|m rest IH]; intro seen.
  - cbn [aircraft_data find option_map]. destruct (_ && _); reflexivity.
  - cbn [aircraft_data find].
    destruct (icao24 m) as [icao|]; [|apply IH].
    destruct (Str.truthy icao) eqn:T; cbn [andb].
    + destruct (existsb (String.eqb icao) seen) eqn:S; cbn [negb].
      * rewrite IH. destruct (String.eqb_spec icao k) as [->|N]; [|reflexivity].
        rewrite S, andb_false_r. reflexivity.
      * cbn [find ac_icao24]. destruct (String.eqb_spec icao k) as [->|N].
        -- rewrite T, S. reflexivity.
        -- rewrite IH. cbn [existsb]. rewrite (proj2 (String.eqb_neq k icao)) by congruence.
           reflexivity.
    + rewrite IH. destruct (String.eqb_spec icao k) as [->|N]; [|reflexivity].
      rewrite T. reflexivity.
Qed.

Lemma aircraft_data_NoDup (msgs : list ParsedMessage) :
  NoDup (map ac_icao24 (aircraft_data [] msgs)).
Proof. rewrite aircraft_data_distinct. apply first_occurrences_NoDup. Qed.

Lemma batch_icao24_In (msgs : list ParsedMessage) (k : string) :
  In k (batch_icao24 msgs)
  <-> k <> "" /\ exists m, In m msgs /\ icao24 m = Some k.
Proof.
  unfold batch_icao24. rewrite in_flat_map. split.
  - intros (m & Hm & Hk). destruct (icao24 m) as [icao|] eqn:E; [|contradiction].
    destruct icao as [|c icao']; cbn in Hk; [contradiction|].
    destruct Hk as [<-|[]]. split; [discriminate|]. exists m. split; assumption.
  - intros (N & m & Hm & E). exists m. split; [exact Hm|]. rewrite E.
    destruct k; [congruence|]. left. reflexivity.
Qed.

Lemma position_data_rows (msgs : list ParsedMessage) :
  position_data msgs = map position_of (filter located (map message_params msgs)).
Proof.
  induction msgs as [|m rest IH]; [reflexivity|].
  cbn [position_data map filter]. unfold located at 1. cbn [message_params ms_lat ms_lon].
  destruct (msg_get lat m) eqn:El; [destruct (msg_get lon m) eqn:Eo|];
    cbn [map]; rewrite IH; [|reflexivity..].
  unfold position_of.
  cbn [message_params ms_icao24 ms_timestamp ms_lat ms_lon ms_altitude
       ms_ground_speed ms_track ms_vertical_rate].
  rewrite El, Eo. reflexivity.
Qed.

(** X20.  [get_connection] makes a unit of work all or nothing, and never
    keeps the connection.  Around a block that only works through a cursor:
    when the block returns and the commit succeeds, what the block did is
    committed; in every other case (no connection from the pool, a
    [MySQLError] or any other exception in the block, a refused commit) the
    exception is passed on and the committed tables are as before.  In all
    cases the connection has been given back and no work is pending. *)
Theorem get_connection_all_or_nothing (srv : Server) (A : Type)
  (block : prog Session A) (s : Session) :
  uses_cursor_only block ->
  conn s = false ->
  pending s = committed s ->
  let r := get_connection srv DatabaseManager_attrs block s in
  conn (snd r) = false
  /\ pending (snd r) = committed (snd r)
  /\ match fst r with
     | Return a =>
         pool_ok srv = true /\ commit_ok srv = true
         /\ fst (block (opened s)) = Return a
         /\ committed (snd r) = pending (snd (block (opened s)))
     | Raise e =>
         committed (snd r) = committed s
         /\ (pool_ok srv = false
             \/ fst (block (opened s)) = Raise e
             \/ commit_ok srv = false /\ e = MySQLError)
     end.
Proof.
  intros Hblock Hconn Hpend r. subst r.
  unfold get_connection.
  change (getattr DatabaseManager_attrs "get_connection") with (@ret Session unit tt).
  unfold seq, try_finally, try_catch, pool_get_connection, conn_commit, if_conn,
    conn_rollback, conn_close, gets, modify, raise, ret.
  destruct s as [cm pd cn ex rc]. cbn [conn pending committed] in *. subst cn pd.
  destruct (pool_ok srv) eqn:Hpool; cbn.
  2:{ split; [reflexivity|]. split; [reflexivity|]. split; [reflexivity|].
      left. reflexivity. }
  unfold opened. cbn [committed executed rowcount].
  destruct (Hblock (mk_Session cm cm true ex rc)) as [Hc Hk].
  destruct (block (mk_Session cm cm true ex rc)) as [[a|e] s1] eqn:Hb;
    cbn [fst snd committed conn] in *.
  - destruct (commit_ok srv) eqn:Hcommit; cbn; rewrite ?Hk; cbn.
    + repeat (split; [reflexivity|]). reflexivity.
    + rewrite Hc. split; [reflexivity|]. split; [reflexivity|].
      split; [reflexivity|]. right. right. split; reflexivity.
  - destruct e; cbn; rewrite ?Hk; cbn; rewrite ?Hc;
      (split; [reflexivity|]); (split; [reflexivity|]);
      (split; [reflexivity|]); right; left; reflexivity.
Qed.

Lemma get_connection_all_or_nothing_witness :
  let block := cursor_executemany refuses_commit
                 (InsertMessages [message_params msg_a]) in
  let r := get_connection refuses_commit DatabaseManager_attrs block (idle no_rows) in
  (uses_cursor_only block /\ conn (idle no_rows) = false
   /\ pending (idle no_rows) = committed (idle no_rows))
  /\ fst r = Raise MySQLError
  /\ conn (snd r) = false
  /\ pending (snd r) = committed (snd r)
  /\ committed (snd r) = no_rows.
Proof.
  intros block r.
  assert (H1 : uses_cursor_only block).
  { intro s. unfold block, cursor_executemany. cbn. split; reflexivity. }
  assert (H2 : conn (idle no_rows) = false) by reflexivity.
  assert (H3 : pending (idle no_rows) = committed (idle no_rows)) by reflexivity.
  split; [split; [exact H1|split; [exact H2|exact H3]]|].
  destruct (get_connection_all_or_nothing refuses_commit unit block (idle no_rows)
              H1 H2 H3) as (Hc & Hp & Hm).
  fold r in Hc, Hp, Hm.
  assert (Hr : fst r = Raise MySQLError) by reflexivity.
  rewrite Hr in Hm. destruct Hm as [Hm _].
  split; [exact Hr|]. split; [exact Hc|]. split; [exact Hp|exact Hm].
Defined.

(** X21.  The Aircraft rows of a batch.  [_upsert_aircraft] builds one row
    for each distinct non-empty [icao24] of the batch and no other: no two
    rows share a key, every record with a non-empty [icao24] has its row,
    and each row is built from the first record of the batch with that
    key, whose callsign and timestamp it carries. *)
Theorem aircraft_rows_of_first_records (msgs : list ParsedMessage) :
  let rows := aircraft_data [] msgs in
  NoDup (map ac_icao24 rows)
  /\ (forall k, In k (map ac_icao24 rows)
                <-> k <> "" /\ exists m, In m msgs /\ icao24 m = Some k)
  /\ (forall row, In row rows ->
        exists m, first_with (ac_icao24 row) msgs = Some m
                  /\ row = mk_AircraftParams (ac_icao24 row) (msg_get callsign m)
                             (timestamp m) (timestamp m)).
Proof.
  cbv zeta. split; [apply aircraft_data_NoDup|]. split.
  - intro k. rewrite aircraft_data_distinct, first_occurrences_In. apply batch_icao24_In.
  - intros row Hrow.
    assert (F : find_aircraft (ac_icao24 row) (aircraft_data [] msgs) = Some row).
    { pose proof (aircraft_data_NoDup msgs) as D. revert D Hrow.
      generalize (aircraft_data [] msgs). intro rows.
      unfold find_aircraft.
      induction rows as [|r rest IH]; intros D Hin; [destruct Hin|].
      destruct Hin as [E|Hin]; cbn [find].
      - subst r. rewrite String.eqb_refl. reflexivity.
      - cbn [map] in D. inversion D as [|x l Hnot Hrest]; subst.
        destruct (String.eqb_spec (ac_icao24 r) (ac_icao24 row)) as [E|N].
        + exfalso. apply Hnot. rewrite E. apply in_map. exact Hin.
        + apply IH; assumption. }
    rewrite find_aircraft_data in F.
    destruct (_ && _); [|discriminate].
    destruct (first_with (ac_icao24 row) msgs) as [m|]; [|discriminate].
    exists m. split; [reflexivity|]. cbn [option_map upserted] in F. congruence.
Qed.

(** X22.  What the aircraft upsert leaves in the table.  When the server
    takes the statement of [_upsert_aircraft], the row of every key [k]
    that heads no record of the batch is as before.  For a key of the batch
    the row comes from the FIRST record [m] with that key: a new aircraft
    gets [m]'s callsign and [m]'s timestamp as first and last seen; a known
    one keeps its first-seen time, gets [m]'s timestamp as last seen, and
    keeps its callsign unless [m] has one.  Later records of the same
    aircraft in the batch change nothing, and the other two tables and the
    committed state are not touched. *)
Theorem upsert_takes_first_record (srv : Server) (msgs : list ParsedMessage)
  (s : Session) :
  accepts srv (pending s) (UpsertAircraft (aircraft_data [] msgs)) = true ->
  let s' := snd (_upsert_aircraft srv msgs s) in
  fst (_upsert_aircraft srv msgs s) = Return tt
  /\ (forall k,
        find_aircraft k (aircraft (pending s'))
        = match (if Str.truthy k then first_with k msgs else None) with
          | Some m => Some (upserted k m (find_aircraft k (aircraft (pending s))))
          | None => find_aircraft k (aircraft (pending s))
          end)
  /\ messages (pending s') = messages (pending s)
  /\ positions (pending s') = positions (pending s)
  /\ committed s' = committed s.
Proof.
  intros Hacc s'. subst s'. unfold _upsert_aircraft.
  pose proof (aircraft_data_NoDup msgs) as D.
  pose proof (fun k => find_aircraft_data k msgs []) as F.
  destruct (aircraft_data [] msgs) as [|row rows] eqn:Erows.
  - unfold ret. cbn [fst snd]. split; [reflexivity|]. split; [|repeat split].
    intro k. specialize (F k). cbn [existsb negb find_aircraft find] in F.
    rewrite andb_true_r in F.
    destruct (Str.truthy k); [|reflexivity].
    destruct (first_with k msgs); [discriminate|reflexivity].
  - unfold cursor_executemany. rewrite Hacc. cbn [fst snd pending committed run_statement
      aircraft messages positions].
    split; [reflexivity|]. split; [|repeat split].
    intro k. rewrite (find_fold_upsert _ D), (F k). cbn [existsb negb].
    rewrite andb_true_r.
    destruct (Str.truthy k); [|reflexivity].
    destruct (first_with k msgs) as [m|]; [|reflexivity].
    cbn [option_map upserted ac_callsign ac_last_seen].
    destruct (find_aircraft k (aircraft (pending s))); reflexivity.
Qed.

Lemma upsert_takes_first_record_witness :
  let s := opened (idle known_aircraft) in
  let s' := snd (_upsert_aircraft healthy [msg_a; msg_a_named; msg_b] s) in
  accepts healthy (pending s) (UpsertAircraft (aircraft_data [] [msg_a; msg_a_named; msg_b]))
  = true
  /\ find_aircraft "A12345" (aircraft (pending s'))
     = Some (mk_AircraftParams "A12345" (Some "OLD1") (Some noon_2024) (Some noon_2024))
  /\ find_aircraft "B23456" (aircraft (pending s'))
     = Some (mk_AircraftParams "B23456" None (Some noon_2024) (Some noon_2024)).
Proof.
  intros s s'.
  assert (H : accepts healthy (pending s)
                (UpsertAircraft (aircraft_data [] [msg_a; msg_a_named; msg_b])) = true)
    by reflexivity.
  split; [exact H|].
  destruct (upsert_takes_first_record healthy [msg_a; msg_a_named; msg_b] s H)
    as (_ & Hfind & _).
  subst s'.
  split; [rewrite (Hfind "A12345")|rewrite (Hfind "B23456")]; reflexivity.
Defined.

(** X23.  The Position rows of a batch are read off its Message rows:
    [_insert_positions] builds one row for each record that has both a
    latitude and a longitude, in batch order, with the same [icao24],
    timestamp, coordinates, altitude, speed, track and vertical rate as
    the Message row of that record, and no row for a record that lacks
    either coordinate.  So there are never more Position rows than Message
    rows. *)
Theorem position_rows_follow_message_rows (msgs : list ParsedMessage) :
  position_data msgs = map position_of (filter located (map message_params msgs))
  /\ (List.length (position_data msgs) <= List.length (map message_params msgs))%nat.
Proof.
  split; [apply position_data_rows|].
  rewrite position_data_rows, length_map. apply filter_length_le.
Qed.

(** X24.  The decoder and the writer fit together on the foreign key: in
    a batch of records that [parse] returned, every Message row and every
    Position row names an aircraft for which [_upsert_aircraft] builds an
    Aircraft row, so the upsert that runs first covers every row written
    after it. *)
Theorem parsed_batch_has_its_aircraft (py : Builtins) (msgs : list ParsedMessage) :
  Forall (fun m => exists now line, parse py now line = Return (Some m)) msgs ->
  (forall row, In row (map message_params msgs) ->
     exists k, ms_icao24 row = Some k
               /\ In k (map ac_icao24 (aircraft_data [] msgs)))
  /\ (forall row, In row (position_data msgs) ->
        exists k, ps_icao24 row = Some k
                  /\ In k (map ac_icao24 (aircraft_data [] msgs))).
Proof.
  intro Hparsed.
  assert (Hm : forall row, In row (map message_params msgs) ->
                 exists k, ms_icao24 row = Some k
                           /\ In k (map ac_icao24 (aircraft_data [] msgs))).
  { intros row Hrow. apply in_map_iff in Hrow as (m & <- & Hin).
    rewrite Forall_forall in Hparsed.
    destruct (Hparsed m Hin) as (now & line & Hp).
    apply parse_accepted_record in Hp as [Hacc ->].
    apply acceptable_iff in Hacc as (_ & _ & Hicao).
    exists (Str.strip (field 4 line)). split; [reflexivity|].
    rewrite aircraft_data_distinct, first_occurrences_In. apply batch_icao24_In.
    split; [exact Hicao|]. eexists. split; [exact Hin|reflexivity]. }
  split; [exact Hm|].
  intros row Hrow. rewrite position_data_rows in Hrow.
  apply in_map_iff in Hrow as (mrow & <- & Hin).
  apply filter_In in Hin as [Hin _]. exact (Hm mrow Hin).
Qed.

Lemma parsed_batch_has_its_aircraft_witness :
  let m := literal_record CPython.builtins new_year_2026 scenario_line in
  Forall (fun m => exists now line,
                     parse CPython.builtins now line = Return (Some m)) [m]
  /\ exists k, ms_icao24 (message_params m) = Some k
               /\ In k (map ac_icao24 (aircraft_data [] [m])).
Proof.
  intro m.
  assert (H : Forall (fun m => exists now line,
                                 parse CPython.builtins now line = Return (Some m)) [m]).
  { constructor; [|constructor]. exists new_year_2026, scenario_line.
    vm_compute. reflexivity. }
  split; [exact H|].
  exact (proj1 (parsed_batch_has_its_aircraft CPython.builtins [m] H)
           (message_params m) (or_introl eq_refl)).
Defined.

(* ================================================================= *)
(** ** The service: decoder and processor behind the reader's callback *)

Section ServiceFacts.

Variable py : Builtins.
Variable env : Environment.

Lemma message_callback_unfold (now : datetime) (line : string) (s : Machine) :
  message_callback py env now line s
  = if acceptable line
    then add_message env (literal_record py now line) s
    else (Return tt, s).
Proof.
  unfold message_callback, seq, lift_outcome. rewrite parse_closed_form.
  destruct (acceptable line); reflexivity.
Qed.

Lemma decoded_cons (now : datetime) (line : string) (rest : list (datetime * string)) :
  decoded py ((now, line) :: rest)
  = (if acceptable line then [literal_record py now line] else []) ++ decoded py rest.
Proof.
  unfold decoded. cbn [flat_map fst snd]. rewrite parse_closed_form.
  destruct (acceptable line); reflexivity.
Qed.

Lemma message_callbacks_add_messages (inputs : list (datetime * string)) :
  forall s : Machine,
    message_callbacks py env inputs s = add_messages env (decoded py inputs) s.
Proof.
  induction inputs as [|[now line] rest IH]; intro s; [reflexivity|].
  cbn [message_callbacks]. unfold seq. rewrite message_callback_unfold, decoded_cons.
  destruct (acceptable line).
  - cbn [app]. rewrite add_messages_cons.
    pose proof (add_message_returns env (literal_record py now line) s) as R.
    destruct (add_message env (literal_record py now line) s) as [r s1].
    cbn [fst] in R. subst r. cbn [snd]. apply IH.
  - cbn [app]. apply IH.
Qed.

Lemma add_messages_received (msgs : list ParsedMessage) :
  forall s : Machine,
    messages_received (stats (self (snd (add_messages env msgs s))))
    = (messages_received (stats (self s)) + Z.of_nat (List.length msgs))%Z.
Proof.
  induction msgs as [|m rest IH]; intro s.
  - cbn [add_messages List.length]. unfold ret. cbn [snd]. lia.
  - rewrite add_messages_cons, IH.
    destruct (add_message_keeps env m s) as (Hr & _). cbv zeta in Hr. rewrite Hr.
    cbn [List.length]. lia.
Qed.

Lemma decoded_length (inputs : list (datetime * string)) :
  List.length (decoded py inputs)
  = List.length (filter (fun input => acceptable (snd input)) inputs).
Proof.
  induction inputs as [|[now line] rest IH]; [reflexivity|].
  rewrite decoded_cons. cbn [filter snd].
  destruct (acceptable line); cbn [app List.length]; rewrite IH; reflexivity.
Qed.

Lemma literal_record_key (now1 now2 : datetime) (l1 l2 : string) :
  Str.strip (field 4 l1) = Str.strip (field 4 l2) ->
  int_value py (field 1 l1) = int_value py (field 1 l2) ->
  field 6 l1 = field 6 l2 ->
  field 7 l1 = field 7 l2 ->
  stamped py (field 6 l1) (field 7 l1) = true ->
  _message_key (literal_record py now1 l1) = _message_key (literal_record py now2 l2).
Proof.
  intros Hicao Htype Hd Ht Hst.
  unfold _message_key, literal_record.
  cbn [icao24 timestamp transmission_type].
  rewrite <- Hicao, <- Htype, <- Hd, <- Ht, (instant_stamped py now1 now2 _ _ Hst).
  reflexivity.
Qed.

End ServiceFacts.

(** X25.  The service behind the reader's callback.  [message_callback]
    never raises, whatever the line.  A line the decoder rejects leaves
    the processor exactly as it was (it is not even counted as received);
    a line it accepts is one [add_message] call with the decoded record.
    So the received counter counts the accepted lines only: after any
    number of lines it has grown by the number of those with at least ten
    fields, a known type code and a non-blank [icao24]. *)
Theorem message_callback_feeds_accepted_lines (py : Builtins) (env : Environment)
  (inputs : list (datetime * string)) (s : Machine) :
  let s' := snd (message_callbacks py env inputs s) in
  message_callbacks py env inputs s = (Return tt, s')
  /\ s' = snd (add_messages env (decoded py inputs) s)
  /\ messages_received (stats (self s'))
     = (messages_received (stats (self s))
        + Z.of_nat (List.length (filter (fun input => acceptable (snd input)) inputs)))%Z
  /\ (forall now line,
        acceptable line = false ->
        message_callback py env now line s = (Return tt, s)).
Proof.
  cbv zeta. rewrite message_callbacks_add_messages.
  split.
  - pose proof (add_messages_returns env (decoded py inputs) s) as R.
    destruct (add_messages env (decoded py inputs) s) as [r s1].
    cbn [fst] in R. subst r. reflexivity.
  - split; [reflexivity|]. split.
    + rewrite add_messages_received, decoded_length. reflexivity.
    + intros now line Hrej. rewrite message_callback_unfold, Hrej. reflexivity.
Qed.

(** X26.  Lines that differ only in their payload are duplicates.  With
    deduplication on, take two lines the decoder accepts that agree on the
    stripped [icao24] field, on the value of the transmission-type field
    and on the date and time generated, these two parsing as an instant.
    Fed one after the other, the second is discarded, whatever its other
    fields (callsign, altitude, position, ...) hold and whatever the clock
    says: it changes the received and the discarded counter and nothing
    else. *)
Theorem same_instant_lines_are_duplicates (py : Builtins) (env : Environment)
  (now1 now2 : datetime) (l1 l2 : string) (s : Machine) :
  enable_deduplication (self s) = true ->
  acceptable l1 = true ->
  acceptable l2 = true ->
  Str.strip (field 4 l1) = Str.strip (field 4 l2) ->
  int_value py (field 1 l1) = int_value py (field 1 l2) ->
  field 6 l1 = field 6 l2 ->
  field 7 l1 = field 7 l2 ->
  stamped py (field 6 l1) (field 7 l1) = true ->
  let s1 := snd (message_callback py env now1 l1 s) in
  message_callback py env now2 l2 s1
  = (Return tt,
     mk_Machine
       (set_stats (add_discarded 1 (add_received 1 (stats (self s1)))) (self s1))
       (world s1)).
Proof.
  intros Hdedup Ha1 Ha2 Hicao Htype Hd Ht Hst s1. subst s1.
  rewrite !message_callback_unfold, Ha1, Ha2.
  apply add_message_duplicate. unfold duplicate_for.
  destruct (add_message_keeps env (literal_record py now1 l1) s) as (_ & He & _).
  cbv zeta in He. rewrite He, Hdedup. cbn [andb].
  rewrite <- (literal_record_key py now1 now2 l1 l2 Hicao Htype Hd Ht Hst).
  apply add_message_remembers. exact Hdedup.
Qed.

Lemma same_instant_lines_are_duplicates_witness :
  let s := DataProcessor_init calm pairs_config fresh_world in
  let s2 := snd (message_callbacks CPython.builtins calm
                   [(new_year_2026, scenario_line);
                    (new_year_2026_later, scenario_line_moved)] s) in
  (enable_deduplication (self s) = true
   /\ acceptable scenario_line = true /\ acceptable scenario_line_moved = true
   /\ stamped CPython.builtins (field 6 scenario_line) (field 7 scenario_line) = true)
  /\ scenario_line <> scenario_line_moved
  /\ message_callback CPython.builtins calm new_year_2026_later scenario_line_moved
       (snd (message_callback CPython.builtins calm new_year_2026 scenario_line s))
     = (Return tt,
        mk_Machine
          (set_stats
             (add_discarded 1
                (add_received 1
                   (stats (self (snd (message_callback CPython.builtins calm
                                        new_year_2026 scenario_line s))))))
             (self (snd (message_callback CPython.builtins calm
                           new_year_2026 scenario_line s))))
          (world (snd (message_callback CPython.builtins calm
                         new_year_2026 scenario_line s)))).
Proof.
  intros s s2.
  assert (H1 : enable_deduplication (self s) = true) by reflexivity.
  assert (H2 : acceptable scenario_line = true) by (vm_compute; reflexivity).
  assert (H3 : acceptable scenario_line_moved = true) by (vm_compute; reflexivity).
  assert (H4 : Str.strip (field 4 scenario_line) = Str.strip (field 4 scenario_line_moved))
    by (vm_compute; reflexivity).
  assert (H5 : int_value CPython.builtins (field 1 scenario_line)
               = int_value CPython.builtins (field 1 scenario_line_moved))
    by (vm_compute; reflexivity).
  assert (H6 : field 6 scenario_line = field 6 scenario_line_moved)
    by (vm_compute; reflexivity).
  assert (H7 : field 7 scenario_line = field 7 scenario_line_moved)
    by (vm_compute; reflexivity).
  assert (H8 : stamped CPython.builtins (field 6 scenario_line) (field 7 scenario_line)
               = true) by (vm_compute; reflexivity).
  split; [split; [exact H1|split; [exact H2|split; [exact H3|exact H8]]]|].
  split; [vm_compute; discriminate|].
  exact (same_instant_lines_are_duplicates CPython.builtins calm new_year_2026
           new_year_2026_later scenario_line scenario_line_moved s
           H1 H2 H3 H4 H5 H6 H7 H8).
Defined.

(* ================================================================= *)
(** ** The configuration manager *)

Lemma dict_get_set (k k' : string) (v : Config.value) (d : Config.dict) :
  Config.dict_get k' (Config.dict_set k v d)
  = if String.eqb k k' then Some v else Config.dict_get k' d.
Proof.
  induction d as [|[k0 v0] rest IH]; cbn [Config.dict_set Config.dict_get].
  - destruct (String.eqb k k'); reflexivity.
  - destruct (String.eqb_spec k0 k) as [->|N]; cbn [Config.dict_get].
    + destruct (String.eqb k k'); reflexivity.
    + rewrite IH. destruct (String.eqb_spec k0 k') as [->|N'].
      * rewrite (proj2 (String.eqb_neq k k')) by congruence. reflexivity.
      * reflexivity.
Qed.

Lemma dict_get_absent (k : string) (d : Config.dict) :
  ~ In k (Config.keys d) -> Config.dict_get k d = None.
Proof.
  induction d as [|[k0 v0] rest IH]; [reflexivity|].
  cbn [Config.keys map fst In Config.dict_get]. intro N.
  destruct (String.eqb_spec k0 k) as [E|_]; [tauto|]. apply IH. tauto.
Qed.

Lemma has_key_In (k : string) (d : Config.dict) :
  Config.has_key k d = true <-> In k (Config.keys d).
Proof.
  unfold Config.has_key.
  induction d as [|[k0 v0] rest IH]; cbn [Config.keys map fst In Config.dict_get].
  - split; [discriminate|tauto].
  - destruct (String.eqb_spec k0 k) as [E|N].
    + split; [intros _; left; exact E|reflexivity].
    + rewrite IH. unfold Config.keys. tauto.
Qed.

Lemma keys_set (k : string) (v : Config.value) (d : Config.dict) :
  Config.keys (Config.dict_set k v d)
  = if Config.has_key k d then Config.keys d else Config.keys d ++ [k].
Proof.
  unfold Config.has_key.
  induction d as [|[k0 v0] rest IH]; [reflexivity|].
  cbn [Config.dict_set Config.dict_get].
  destruct (String.eqb_spec k0 k) as [E|N]; [reflexivity|].
  unfold Config.keys in *. cbn [map fst]. rewrite IH.
  destruct (Config.dict_get k rest); reflexivity.
Qed.

Lemma _deep_merge_cons (base rest : Config.dict) (k : string) (v : Config.value) :
  Config._deep_merge base ((k, v) :: rest)
  = Config._deep_merge
      (Config.dict_set k (Config.merged_value (Config.dict_get k base) v) base) rest.
Proof.
  unfold Config._deep_merge, Config.merged_value. cbn [Config.merge_into].
  destruct (Config.dict_get k base) as [[]|]; destruct v; reflexivity.
Qed.

Lemma _deep_merge_lookup (override : Config.dict) :
  NoDup (Config.keys override) ->
  forall (base : Config.dict) (k : string),
    Config.dict_get k (Config._deep_merge base override)
    = match Config.dict_get k override with
      | Some v => Some (Config.merged_value (Config.dict_get k base) v)
      | None => Config.dict_get k base
      end.
Proof.
  induction override as [|[k0 v0] rest IH]; intros D base k; [reflexivity|].
  cbn [Config.keys map fst] in D. inversion D as [|x l Hnot Hrest]; subst.
  rewrite _deep_merge_cons, (IH Hrest), dict_get_set. cbn [Config.dict_get].
  destruct (String.eqb_spec k0 k) as [->|N]; [|reflexivity].
  rewrite (dict_get_absent _ _ Hnot). reflexivity.
Qed.

Lemma _deep_merge_keys (override : Config.dict) :
  NoDup (Config.keys override) ->
  forall base : Config.dict,
    Config.keys (Config._deep_merge base override)
    = Config.keys base
      ++ filter (fun k => negb (Config.has_key k base)) (Config.keys override).
Proof.
  induction override as [|[k0 v0] rest IH]; intros D base.
  - cbn [Config.keys map filter]. rewrite app_nil_r. reflexivity.
  - cbn [Config.keys map fst] in D. inversion D as [|x l Hnot Hrest]; subst.
    rewrite _deep_merge_cons, (IH Hrest), keys_set.
    cbn [Config.keys map fst filter]. fold (Config.keys rest).
    assert (Hfilter : forall base',
              (forall k, k <> k0 -> Config.has_key k base' = Config.has_key k base) ->
              filter (fun k => negb (Config.has_key k base')) (Config.keys rest)
              = filter (fun k => negb (Config.has_key k base)) (Config.keys rest)).
    { intros base' Hsame. apply filter_ext_in. intros k Hk.
      rewrite Hsame; [reflexivity|]. intros ->. exact (Hnot Hk). }
    rewrite Hfilter.
    + destruct (Config.has_key k0 base); cbn [negb]; [reflexivity|].
      rewrite <- app_assoc. reflexivity.
    + intros k Hk. unfold Config.has_key. rewrite dict_get_set.
      rewrite (proj2 (String.eqb_neq k0 k)) by congruence. reflexivity.
Qed.

Lemma get_from_not_None (path : list string) (default : Config.value) :
  default <> Config.VNone ->
  forall v : Config.value,
    v <> Config.VNone -> Config.get_from v path default <> Config.VNone.
Proof.
  intro Hd. induction path as [|k rest IH]; intros v Hv; [exact Hv|].
  cbn [Config.get_from].
  destruct v; try exact Hd.
  destruct (Config.dict_get k items) as [found|]; [|exact Hd].
  destruct found; try exact Hd; apply IH; discriminate.
Qed.

Section ConfigFacts.

Variable py : Builtins.
Variable getenv : string -> option string.

Lemma check_required_iff (config : Config.dict) (fields : list (string * string)) :
  Config.check_required config fields = Config.Returns tt
  <-> Forall (Config.field_present config) fields.
Proof.
  induction fields as [|[s f] rest IH]; cbn [Config.check_required].
  - split; [constructor|reflexivity].
  - unfold Config.section_field, Config.and_then.
    split.
    + intro H. constructor.
      * unfold Config.field_present. cbn [fst snd].
        destruct (Config.dict_get s config) as [v|]; [|discriminate].
        destruct v; try discriminate.
        destruct (Config.dict_get f items) as [found|] eqn:F; [|discriminate].
        destruct (Config.truthy found) eqn:T; [|discriminate].
        exists items, found. split; [reflexivity|]. split; [exact F|exact T].
      * apply IH.
        destruct (Config.dict_get s config) as [v|]; [|discriminate].
        destruct v; try discriminate.
        destruct (Config.dict_get f items) as [found|]; [|discriminate].
        destruct (Config.truthy found); [exact H|discriminate].
    + intro H. inversion H as [|x l Hhead Htail]; subst.
      destruct Hhead as (items & found & Hs & Hf & T). cbn [fst snd] in Hs, Hf.
      rewrite Hs, Hf, T. apply IH. exact Htail.
Qed.


End ConfigFacts.


(** X27.  [_deep_merge] key by key.  For an override with distinct keys,
    a key the override does not name keeps the base's value; a key it
    names gets the override's value, except when base and override both
    hold a dict there, which are merged in the same way.  No key is ever
    removed: the keys of the result are those of the base, in their order,
    followed by the new keys of the override in theirs. *)
Theorem _deep_merge_key_by_key (base override : Config.dict) :
  NoDup (Config.keys override) ->
  (forall k,
     Config.dict_get k (Config._deep_merge base override)
     = match Config.dict_get k override with
       | Some v => Some (Config.merged_value (Config.dict_get k base) v)
       | None => Config.dict_get k base
       end)
  /\ Config.keys (Config._deep_merge base override)
     = Config.keys base
       ++ filter (fun k => negb (Config.has_key k base)) (Config.keys override).
Proof.
  intro D. split; [intro k; apply _deep_merge_lookup, D|apply _deep_merge_keys, D].
Qed.

Lemma _deep_merge_key_by_key_witness :
  NoDup (Config.keys [ ("dump1090", Config.VDict [ ("port", Config.VInt 30005) ]);
                       ("extra", Config.VNone) ])
  /\ Config.keys (Config._deep_merge Config.DEFAULT_CONFIG
                    [ ("dump1090", Config.VDict [ ("port", Config.VInt 30005) ]);
                      ("extra", Config.VNone) ])
     = ["dump1090"; "database"; "processing"; "logging"; "extra"].
Proof.
  assert (D : NoDup (Config.keys [ ("dump1090", Config.VDict [ ("port", Config.VInt 30005) ]);
                                   ("extra", Config.VNone) ])).
  { cbn. constructor; [intros [H|[]]; discriminate|].
    constructor; [intros []|constructor]. }
  split; [exact D|].
  rewrite (proj2 (_deep_merge_key_by_key Config.DEFAULT_CONFIG _ D)). reflexivity.
Defined.

(** X28.  [ConfigManager.get] with no key returns the whole
    configuration.  With at least one key and a default other than
    [None] it never returns [None]: a key stored with the value [None]
    gives the default like a missing key, and so does any path that
    leads through a value that is not a dict. *)
Theorem get_never_None (config : Config.dict) (path : list string)
  (default : Config.value) :
  Config.get config [] default = Config.VDict config
  /\ (default <> Config.VNone -> Config.get config path default <> Config.VNone)
  /\ (forall key rest v,
        Config.dict_get key config = Some v ->
        Config.is_dict v = false ->
        v <> Config.VNone ->
        Config.get config (key :: rest) default
        = match rest with [] => v | _ :: _ => default end).
Proof.
  split; [reflexivity|]. split.
  - intro Hd. apply get_from_not_None; [exact Hd|discriminate].
  - intros key rest v Hget Hnd Hv. unfold Config.get. cbn [Config.get_from].
    rewrite Hget. destruct v; try congruence; try discriminate;
      destruct rest; reflexivity.
Qed.

(** X29.  [_validate_config] returns exactly when each of the five
    required fields (host and port of the reader; host, database and user
    of the database) is there, in a section that is a dict, with a value
    that is true, and the database section has a password key.  So a port
    of 0 or an empty host counts as missing.  It never raises
    [TypeError]. *)
Theorem _validate_config_returns_iff (config : Config.dict) :
  (Config._validate_config config = Config.Returns tt
   <-> Forall (Config.field_present config) Config.required_fields
       /\ exists items p,
            Config.dict_get "database" config = Some (Config.VDict items)
            /\ Config.dict_get "password" items = Some p)
  /\ Config._validate_config config <> Config.Raises Config.TypeError.
Proof.
  unfold Config._validate_config, Config.and_then.
  pose proof (check_required_iff config Config.required_fields) as Hreq.
  destruct (Config.check_required config Config.required_fields) as [[]|e] eqn:Hc.
  - pose proof (proj1 Hreq eq_refl) as Hall.
    assert (Hdb : exists items, Config.dict_get "database" config
                                = Some (Config.VDict items)).
    { rewrite Forall_forall in Hall.
      destruct (Hall ("database", "host")) as (items & _ & Hs & _).
      - cbn. tauto.
      - exists items. exact Hs. }
    destruct Hdb as (items & Hdb). unfold Config.getitem2. rewrite Hdb.
    destruct (Config.dict_get "password" items) as [p|] eqn:Hp.
    + split; [|discriminate]. split; [|reflexivity].
      intros _. split; [exact Hall|]. exists items, p. split; [reflexivity|exact Hp].
    + split; [|discriminate]. split; [discriminate|].
      intros (_ & items' & p & Hdb' & Hp'). congruence.
  - split.
    + split; [discriminate|]. intros (Hall & _).
      apply Hreq in Hall. discriminate.
    + intro H. injection H as ->. clear Hreq. revert Hc.
      generalize Config.required_fields. intro fields.
      induction fields as [|[s f] rest IH]; cbn [Config.check_required];
        [discriminate|].
      unfold Config.section_field, Config.and_then.
      destruct (Config.dict_get s config) as [v|].
      * destruct v; try discriminate.
        destruct (Config.truthy _); [exact IH|discriminate].
      * cbn [Config.dict_get Config.truthy]. discriminate.
Qed.


